(** * vcctl list commands: the pod table and the jobflow table

    A shallow embedding of the list subcommands of the Volcano command line:
    - [Pod]: package pkg/cli/pod (ListPods, PrintPods, createLabelSelector,
      printPod and its helpers);
    - [JobFlow]: package pkg/cli/jobflow (ListJobFlow, PrintJobFlows,
      calculateMaxInfoLength);
    - [Legacy]: the earlier revision of package pkg/cli/pod, whose
      createLabelSelector takes the job name only, whose ListPods filters
      the pods itself and whose printPod knows no restartable init
      containers.

    Go strings are byte strings ([String.length] is Go's [len]); [int32]
    fields are integers in [Z]; an [int] that counts slice elements is an
    exact integer in [Z] (no slice has 2^63 elements); the sum of the
    restart counts is an [int] and wraps at 64 bits. What the commands call
    outside the repository (the clock, the output streams, the labels
    package, the cluster) is a parameter, given as a class. *)

From Stdlib Require Import ZArith String Ascii List Bool Lia DecimalString DecimalZ
  DecimalPos.
From stdpp Require Import base option list gmap strings.

Local Open Scope string_scope.
Local Open Scope Z_scope.

(** ** Go runtime pieces *)

Module Go.

(** Two's complement wrap-around of the 64-bit [int]. *)
Definition wrap64 (z : Z) : Z := (z + 2 ^ 63) mod 2 ^ 64 - 2 ^ 63.

(** [a += b] on [int]. *)
Definition int_add (a b : Z) : Z := wrap64 (a + b).

(** strconv.Itoa and the verb [%d]. *)
Definition Itoa (z : Z) : string := NilZero.string_of_int (Z.to_int z).

(** [len] of a slice. *)
Definition len {A} (l : list A) : Z := Z.of_nat (length l).

(** [len] of a string. *)
Definition slen (s : string) : Z := Z.of_nat (String.length s).

(** The newline character. *)
Definition nl : string := String "010" EmptyString.

(** [p != nil]. *)
Definition isSome {A} (o : option A) : bool :=
  match o with Some _ => true | None => false end.

(** [s] is not the empty string. *)
Definition nonempty (s : string) : bool := negb (String.eqb s EmptyString).

End Go.

(** ** Kubernetes API objects, reduced to the fields the commands read

    Field names are Go's; where two structs share a field name the field
    carries a prefix ([wReason], [tReason] and [cReason] for the Reason of a
    waiting state, a terminated state and a condition, [csName] and [cName]
    for the Name of a container status and a container) or a trailing
    underscore ([Type_], [Status_]). *)

Module metav1.

(** metav1.Time: an instant, counted from Go's zero time (January 1, year 1,
    00:00 UTC), so that the zero value is [0]. *)
Definition Time : Type := Z.

Definition zeroTime : Time := 0.
Definition IsZero (t : Time) : bool := t =? 0.
Definition Before (t u : Time) : bool := t <? u.

End metav1.

Module corev1.

Record ContainerStateWaiting := { wReason : string }.

Record ContainerStateRunning := { StartedAt : metav1.Time }.

Record ContainerStateTerminated := {
  ExitCode : Z;
  Signal : Z;
  tReason : string;
  FinishedAt : metav1.Time
}.

(** Three pointer fields; the API sets at most one of them, the type allows
    any combination. *)
Record ContainerState := {
  Waiting : option ContainerStateWaiting;
  Running : option ContainerStateRunning;
  Terminated : option ContainerStateTerminated
}.

Record ContainerStatus := {
  csName : string;
  State : ContainerState;
  LastTerminationState : ContainerState;
  Ready : bool;
  RestartCount : Z;
  Started : option bool
}.

Record Container := {
  cName : string;
  RestartPolicy : option string
}.

Record PodCondition := {
  Type_ : string;
  Status : string;
  cReason : string
}.

Record PodSpec := {
  InitContainers : list Container;
  Containers : list Container
}.

Record PodStatus := {
  Phase : string;
  Conditions : list PodCondition;
  Reason : string;
  InitContainerStatuses : list ContainerStatus;
  ContainerStatuses : list ContainerStatus
}.

Record Pod := {
  Name : string;
  Namespace : string;
  Labels : gmap string string;
  CreationTimestamp : metav1.Time;
  DeletionTimestamp : option metav1.Time;
  Spec : PodSpec;
  Status_ : PodStatus
}.

(** Constants of k8s.io/api/core/v1. *)
Definition PodPending : string := "Pending".
Definition PodRunning : string := "Running".
Definition PodSucceeded : string := "Succeeded".
Definition PodFailed : string := "Failed".
Definition PodScheduled : string := "PodScheduled".
Definition PodReady : string := "Ready".
Definition PodInitialized : string := "Initialized".
Definition ConditionTrue : string := "True".
Definition ConditionFalse : string := "False".
Definition PodReasonSchedulingGated : string := "SchedulingGated".
Definition ContainerRestartPolicyAlways : string := "Always".

End corev1.

(** Modelled from the spec: node.NodeUnreachablePodReason of
    k8s.io/kubernetes/pkg/util/node, the status reason of a pod whose node
    is unreachable. *)
Definition NodeUnreachablePodReason : string := "NodeLost".

(** Modelled from the spec: podutil.IsPodPhaseTerminal of
    k8s.io/kubernetes/pkg/api/v1/pod; the terminal phases are Succeeded and
    Failed. *)
Definition IsPodPhaseTerminal (phase : string) : bool :=
  String.eqb phase corev1.PodFailed || String.eqb phase corev1.PodSucceeded.

(** ** The clock

    time.Since(t) reads the clock at every call, so two calls of one run
    need not agree, also on the same timestamp. [Since t] is the duration
    that the run gets when it asks for [t] the first time, [SinceAgain t]
    the one it gets when it asks for [t] once more: the jobflow table
    measures the age of a jobflow and computes it again to print it, and the
    earlier printPod computes the age of a pod for the cell and again for
    its length. The two are not related: the clock may also be set back in
    between. [HumanDuration] is duration.HumanDuration of
    k8s.io/apimachinery. *)
Class Clock := {
  Since : metav1.Time -> Z;
  SinceAgain : metav1.Time -> Z;
  HumanDuration : Z -> string
}.

(** ** Output streams

    An io.Writer is known by its identity; what a run does to the outside
    is the sequence of writes it attempts, oldest first. Whether a write
    fails, and with which error, is up to the stream and may depend on
    everything attempted before. fmt.Printf is fmt.Fprintf on os.Stdout and
    its result is dropped. *)

Module io.

Inductive Writer := Stdout | Stream (id : nat).

Record write := {
  target : Writer;
  format : string;
  args : list string
}.

Class Streams := {
  failure : list write -> write -> option string
}.

(** Code that writes: from the writes so far to a result and the writes
    after. *)
Definition M (A : Type) : Type := list write -> A * list write.

Definition ret {A} (a : A) : M A := fun t => (a, t).

Definition bind {A B} (m : M A) (k : A -> M B) : M B :=
  fun t => let (a, t') := m t in k a t'.

Definition Fprintf `{Streams} (w : Writer) (format : string) (args : list string)
  : M (option string) :=
  fun t =>
    let wr := {| target := w; format := format; args := args |} in
    (failure t wr, (t ++ [wr])%list).

Definition Printf `{Streams} (format : string) (args : list string) : M unit :=
  bind (Fprintf Stdout format args) (fun _ => ret tt).

(** The writes a run adds, and its result. *)
Definition output {A} (m : M A) (t : list write) : list write := snd (m t).
Definition result {A} (m : M A) (t : list write) : A := fst (m t).

End io.

Notation "x <- m ;; k" := (io.bind m (fun x => k))
  (at level 100, m at next level, right associativity).

(** ** Label selectors (k8s.io/apimachinery/pkg/labels)

    A requirement is a key, an operator and values; a selector is the
    requirements added to it and matches the label sets that meet all of
    them. NewRequirement validates its arguments and may refuse them. *)

Module labels.

Inductive Operator := In | Exists.

Record Requirement := {
  key : string;
  operator : Operator;
  strValues : list string
}.

Class Validation := {
  refused : string -> Operator -> list string -> option string
}.

Definition NewRequirement `{Validation} (key : string) (op : Operator)
    (vals : list string) : Requirement + string :=
  match refused key op vals with
  | Some err => inr err
  | None => inl {| key := key; operator := op; strValues := vals |}
  end.

Definition Selector : Type := list Requirement.

Definition NewSelector : Selector := [].

Definition Add (s : Selector) (reqs : list Requirement) : Selector :=
  (s ++ reqs)%list.

(** Requirement.Matches. *)
Definition matches (ls : gmap string string) (r : Requirement) : bool :=
  match operator r with
  | In =>
      match ls !! key r with
      | Some v => existsb (String.eqb v) (strValues r)
      | None => false
      end
  | Exists => bool_decide (is_Some (ls !! key r))
  end.

(** Selector.Matches. *)
Definition Matches (s : Selector) (ls : gmap string string) : bool :=
  forallb (matches ls) s.

End labels.

(** Label keys of volcano.sh/apis/pkg/apis/batch/v1alpha1. *)
Definition JobNameKey : string := "volcano.sh/job-name".
Definition QueueNameKey : string := "volcano.sh/queue-name".

(** ** The cluster

    util.BuildConfig, and the list calls of the generated clients with the
    namespace and the label selector of their options ([None] when the
    options are left empty). *)
Class Cluster (Config Item : Type) := {
  BuildConfig : string -> string -> Config + string;
  List : Config -> string -> option labels.Selector -> list Item + string
}.

(** util.CommonFlags. *)
Record CommonFlags := {
  Master : string;
  Kubeconfig : string
}.

(** ** pkg/cli/pod/list.go *)

Module Pod.

(** Column headers. *)
Definition Name : string := "Name".
Definition Ready : string := "Ready".
Definition Status : string := "Status".
Definition Restart : string := "Restart".
Definition Age : string := "Age".

(** PodInfo holds information about a pod; its fields carry the prefix [i],
    as [Name] and [Status] are the column headers. *)
Record PodInfo := {
  iName : string;
  iReadyContainers : string;
  iStatus : string;
  iRestarts : string;
  iCreationTimestamp : string
}.

Definition translateTimestampSince `{Clock} (timestamp : metav1.Time) : string :=
  if metav1.IsZero timestamp then "<unknown>"
  else HumanDuration (Since timestamp).

(** hasPodReadyCondition returns true if the pod has a ready condition. *)
Fixpoint hasPodReadyCondition (conditions : list corev1.PodCondition) : bool :=
  match conditions with
  | [] => false
  | condition :: rest =>
      if String.eqb (corev1.Type_ condition) corev1.PodReady
         && String.eqb (corev1.Status condition) corev1.ConditionTrue
      then true
      else hasPodReadyCondition rest
  end.

(** isRestartableInitContainer; the argument is a pointer, [None] is nil. *)
Definition isRestartableInitContainer (initContainer : option corev1.Container) : bool :=
  match initContainer with
  | None => false
  | Some c =>
      match corev1.RestartPolicy c with
      | None => false
      | Some policy => String.eqb policy corev1.ContainerRestartPolicyAlways
      end
  end.

(** isPodInitializedConditionTrue: the first condition of type Initialized
    decides. *)
Fixpoint isPodInitializedConditionTrue (conditions : list corev1.PodCondition) : bool :=
  match conditions with
  | [] => false
  | condition :: rest =>
      if negb (String.eqb (corev1.Type_ condition) corev1.PodInitialized)
      then isPodInitializedConditionTrue rest
      else String.eqb (corev1.Status condition) corev1.ConditionTrue
  end.

(** The local variables of printPod that the loops update. *)
Record locals := mkLocals {
  restarts : Z;
  restartableInitContainerRestarts : Z;
  readyContainers : Z;
  lastRestartDate : metav1.Time;
  lastRestartableInitContainerRestartDate : metav1.Time;
  reason : string;
  initializing : bool;
  hasRunning : bool
}.

Definition set_restarts (n : Z) (d : metav1.Time) (v : locals) : locals :=
  mkLocals n (restartableInitContainerRestarts v) (readyContainers v) d
    (lastRestartableInitContainerRestartDate v) (reason v) (initializing v)
    (hasRunning v).

Definition set_restartable (n : Z) (d : metav1.Time) (v : locals) : locals :=
  mkLocals (restarts v) n (readyContainers v) (lastRestartDate v) d
    (reason v) (initializing v) (hasRunning v).

Definition set_reason (r : string) (v : locals) : locals :=
  mkLocals (restarts v) (restartableInitContainerRestarts v)
    (readyContainers v) (lastRestartDate v)
    (lastRestartableInitContainerRestartDate v) r (initializing v)
    (hasRunning v).

Definition set_initializing (v : locals) : locals :=
  mkLocals (restarts v) (restartableInitContainerRestarts v)
    (readyContainers v) (lastRestartDate v)
    (lastRestartableInitContainerRestartDate v) (reason v) true
    (hasRunning v).

Definition incr_ready (v : locals) : locals :=
  mkLocals (restarts v) (restartableInitContainerRestarts v)
    (readyContainers v + 1) (lastRestartDate v)
    (lastRestartableInitContainerRestartDate v) (reason v) (initializing v)
    (hasRunning v).

Definition set_hasRunning (b : bool) (v : locals) : locals :=
  mkLocals (restarts v) (restartableInitContainerRestarts v)
    (readyContainers v) (lastRestartDate v)
    (lastRestartableInitContainerRestartDate v) (reason v) (initializing v)
    b.

(** [if c.LastTerminationState.Terminated != nil] then move [last] forward
    to its FinishedAt when that is later. *)
Definition noteTermination (last : metav1.Time) (container : corev1.ContainerStatus)
  : metav1.Time :=
  match corev1.Terminated (corev1.LastTerminationState container) with
  | Some t =>
      let terminatedDate := corev1.FinishedAt t in
      if metav1.Before last terminatedDate then terminatedDate else last
  | None => last
  end.

(** The reason a pod starts from: its phase, its status reason when there is
    one, SchedulingGated when a PodScheduled condition carries it. *)
Definition initialReason (pod : corev1.Pod) : string :=
  let status := corev1.Status_ pod in
  let reason :=
    if Go.nonempty (corev1.Reason status) then corev1.Reason status
    else corev1.Phase status in
  fold_left
    (fun reason condition =>
       if String.eqb (corev1.Type_ condition) corev1.PodScheduled
          && String.eqb (corev1.cReason condition) corev1.PodReasonSchedulingGated
       then corev1.PodReasonSchedulingGated
       else reason)
    (corev1.Conditions status) reason.

(** [initContainers]: the declared init containers by name; a later
    declaration of a name replaces an earlier one. *)
Definition initContainers (pod : corev1.Pod) : gmap string corev1.Container :=
  fold_left (fun m c => <[corev1.cName c := c]> m)
    (corev1.InitContainers (corev1.Spec pod)) ∅.

(** [totalContainers] after the loop over the declared init containers. *)
Definition totalContainers (pod : corev1.Pod) : Z :=
  fold_left
    (fun total c => if isRestartableInitContainer (Some c) then total + 1 else total)
    (corev1.InitContainers (corev1.Spec pod))
    (Go.len (corev1.Containers (corev1.Spec pod))).

(** What the body of the loop over the init container statuses ends with. *)
Inductive flow := Continue | Break.

(** The first statements of that body: the restart counters. *)
Definition countInit (ics : gmap string corev1.Container)
    (container : corev1.ContainerStatus) (v : locals) : locals :=
  let v :=
    set_restarts (Go.int_add (restarts v) (corev1.RestartCount container))
      (noteTermination (lastRestartDate v) container) v in
  if isRestartableInitContainer (ics !! corev1.csName container) then
    set_restartable
      (Go.int_add (restartableInitContainerRestarts v) (corev1.RestartCount container))
      (noteTermination (lastRestartableInitContainerRestartDate v) container) v
  else v.

(** The switch of that body, for the status at index [i]. *)
Definition initSwitch (ics : gmap string corev1.Container) (nInit : Z) (i : Z)
    (container : corev1.ContainerStatus) (v : locals) : locals * flow :=
  let state := corev1.State container in
  match corev1.Terminated state with
  | Some t =>
      if corev1.ExitCode t =? 0 then (v, Continue)
      else if isRestartableInitContainer (ics !! corev1.csName container)
              && match corev1.Started container with Some b => b | None => false end
      then ((if corev1.Ready container then incr_ready v else v), Continue)
      else
        let r :=
          if (String.length (corev1.tReason t) =? 0)%nat then
            if negb (corev1.Signal t =? 0)
            then "Init:Signal:" +:+ Go.Itoa (corev1.Signal t)
            else "Init:ExitCode:" +:+ Go.Itoa (corev1.ExitCode t)
          else "Init:" +:+ corev1.tReason t in
        (set_initializing (set_reason r v), Break)
  | None =>
      if isRestartableInitContainer (ics !! corev1.csName container)
         && match corev1.Started container with Some b => b | None => false end
      then ((if corev1.Ready container then incr_ready v else v), Continue)
      else
        match corev1.Waiting state with
        | Some w =>
            if (0 <? String.length (corev1.wReason w))%nat
               && negb (String.eqb (corev1.wReason w) "PodInitializing")
            then (set_initializing (set_reason ("Init:" +:+ corev1.wReason w) v), Break)
            else (set_initializing
                    (set_reason ("Init:" +:+ Go.Itoa i +:+ "/" +:+ Go.Itoa nInit) v),
                  Break)
        | None =>
            (set_initializing
               (set_reason ("Init:" +:+ Go.Itoa i +:+ "/" +:+ Go.Itoa nInit) v),
             Break)
        end
  end.

(** The loop over pod.Status.InitContainerStatuses, from index [i]. *)
Fixpoint initLoop (ics : gmap string corev1.Container) (nInit : Z) (i : Z)
    (statuses : list corev1.ContainerStatus) (v : locals) : locals :=
  match statuses with
  | [] => v
  | container :: rest =>
      match initSwitch ics nInit i container (countInit ics container v) with
      | (v, Continue) => initLoop ics nInit (i + 1) rest v
      | (v, Break) => v
      end
  end.

(** The body of the loop over pod.Status.ContainerStatuses. *)
Definition containerStep (v : locals) (container : corev1.ContainerStatus) : locals :=
  let v :=
    set_restarts (Go.int_add (restarts v) (corev1.RestartCount container))
      (noteTermination (lastRestartDate v) container) v in
  let state := corev1.State container in
  match corev1.Waiting state with
  | Some (corev1.Build_ContainerStateWaiting (String a r)) =>
      set_reason (String a r) v
  | _ =>
      match corev1.Terminated state with
      | Some t =>
          if Go.nonempty (corev1.tReason t) then set_reason (corev1.tReason t) v
          else if negb (corev1.Signal t =? 0)
          then set_reason ("Signal:" +:+ Go.Itoa (corev1.Signal t)) v
          else set_reason ("ExitCode:" +:+ Go.Itoa (corev1.ExitCode t)) v
      | None =>
          if corev1.Ready container && Go.isSome (corev1.Running state)
          then incr_ready (set_hasRunning true v)
          else v
      end
  end.

(** That loop runs from the last status down to the first. *)
Definition containerLoop (statuses : list corev1.ContainerStatus) (v : locals) : locals :=
  fold_left containerStep (rev statuses) v.

(** The variables before the first loop. *)
Definition start (pod : corev1.Pod) : locals :=
  mkLocals 0 0 0 metav1.zeroTime metav1.zeroTime (initialReason pod) false false.

(** The variables after the loop over the init container statuses. *)
Definition afterInit (pod : corev1.Pod) : locals :=
  initLoop (initContainers pod)
    (Go.len (corev1.InitContainers (corev1.Spec pod))) 0
    (corev1.InitContainerStatuses (corev1.Status_ pod)) (start pod).

(** Whether the block with the loop over the container statuses runs. *)
Definition classifies (pod : corev1.Pod) : bool :=
  negb (initializing (afterInit pod))
  || isPodInitializedConditionTrue (corev1.Conditions (corev1.Status_ pod)).

(** The variables after the loop over the container statuses, inside that
    block. *)
Definition afterContainers (pod : corev1.Pod) : locals :=
  let v := afterInit pod in
  containerLoop (corev1.ContainerStatuses (corev1.Status_ pod))
    (set_hasRunning false
       (set_restarts (restartableInitContainerRestarts v)
          (lastRestartableInitContainerRestartDate v) v)).

(** The end of that block: a pod that reports Completed while a container
    still runs. *)
Definition backToRunning (pod : corev1.Pod) (v : locals) : locals :=
  if String.eqb (reason v) "Completed" && hasRunning v then
    if hasPodReadyCondition (corev1.Conditions (corev1.Status_ pod))
    then set_reason "Running" v
    else set_reason "NotReady" v
  else v.

(** The variables where the block ends (or is skipped). *)
Definition derived (pod : corev1.Pod) : locals :=
  if classifies pod then backToRunning pod (afterContainers pod)
  else afterInit pod.

(** The statement on the deletion timestamp. *)
Definition deletionReason (pod : corev1.Pod) (reason : string) : string :=
  match corev1.DeletionTimestamp pod with
  | Some _ =>
      if String.eqb (corev1.Reason (corev1.Status_ pod)) NodeUnreachablePodReason
      then "Unknown"
      else if negb (IsPodPhaseTerminal (corev1.Phase (corev1.Status_ pod)))
      then "Terminating"
      else reason
  | None => reason
  end.

(** [restartsStr]. *)
Definition restartsStr `{Clock} (restarts : Z) (lastRestartDate : metav1.Time) : string :=
  if negb (restarts =? 0) && negb (metav1.IsZero lastRestartDate)
  then Go.Itoa restarts +:+ " (" +:+ translateTimestampSince lastRestartDate +:+ " ago)"
  else Go.Itoa restarts.

(** printPod. The table row it also fills, with the conditions of a
    succeeded or failed pod, is never read and is left out. *)
Definition printPod `{Clock} (pod : corev1.Pod) : PodInfo :=
  let v := derived pod in
  {| iName := corev1.Name pod;
     iReadyContainers :=
       Go.Itoa (readyContainers v) +:+ "/" +:+ Go.Itoa (totalContainers pod);
     iStatus := deletionReason pod (reason v);
     iRestarts := restartsStr (restarts v) (lastRestartDate v);
     iCreationTimestamp := translateTimestampSince (corev1.CreationTimestamp pod) |}.

(** *** PrintPods *)

(** The five [max...Len] variables. *)
Record widths := {
  wName : Z;
  wReady : Z;
  wStatus : Z;
  wRestart : Z;
  wAge : Z
}.

(** [if len(s) > max { max = len(s) }]. *)
Definition longer (max : Z) (s : string) : Z :=
  if Go.slen s >? max then Go.slen s else max.

(** The body of the first loop of PrintPods, after printPod. *)
Definition measure (w : widths) (info : PodInfo) : widths :=
  {| wName := longer (wName w) (iName info);
     wReady := longer (wReady w) (iReadyContainers info);
     wStatus := longer (wStatus w) (iStatus info);
     wRestart := longer (wRestart w) (iRestarts info);
     wAge := longer (wAge w) (iCreationTimestamp info) |}.

Definition columnSpacing : Z := 8.

(** The five variables when the format string is built. *)
Definition columnWidths (infoList : list PodInfo) : widths :=
  let w := fold_left measure infoList
             {| wName := 0; wReady := 0; wStatus := 0; wRestart := 0; wAge := 0 |} in
  {| wName := wName w + columnSpacing;
     wReady := wReady w + columnSpacing;
     wStatus := wStatus w + columnSpacing;
     wRestart := wRestart w + columnSpacing;
     wAge := wAge w + columnSpacing |}.

(** [formatStr]: one left-justified, padded string verb per column. *)
Definition formatStr (w : widths) : string :=
  "%-" +:+ Go.Itoa (wName w) +:+ "s%-" +:+ Go.Itoa (wReady w) +:+ "s%-"
  +:+ Go.Itoa (wStatus w) +:+ "s%-" +:+ Go.Itoa (wRestart w) +:+ "s%-"
  +:+ Go.Itoa (wAge w) +:+ "s" +:+ Go.nl.

Definition headerLine : list string := [Name; Ready; Status; Restart; Age].

Definition rowLine (info : PodInfo) : list string :=
  [iName info; iReadyContainers info; iStatus info; iRestarts info;
   iCreationTimestamp info].

Definition failedToPrint : string :=
  "Failed to print Pod information: %s." +:+ Go.nl.

(** The second loop of PrintPods. *)
Fixpoint printRows `{io.Streams} (writer : io.Writer) (fmt : string)
    (infoList : list PodInfo) : io.M unit :=
  match infoList with
  | [] => io.ret tt
  | info :: rest =>
      err <- io.Fprintf writer fmt (rowLine info) ;;
      match err with
      | Some e => io.Printf failedToPrint [e]
      | None => printRows writer fmt rest
      end
  end.

Definition PrintPods `{Clock} `{io.Streams} (pods : list corev1.Pod)
    (writer : io.Writer) : io.M unit :=
  let infoList := map printPod pods in
  let fmt := formatStr (columnWidths infoList) in
  err <- io.Fprintf writer fmt headerLine ;;
  match err with
  | Some e => io.Printf failedToPrint [e]
  | None => printRows writer fmt infoList
  end.

(** *** createLabelSelector *)

Definition createLabelSelector `{labels.Validation} (jobName queueName : string)
  : labels.Selector + string :=
  let reqs : list labels.Requirement := [] in
  match
    (if Go.nonempty jobName then
       match labels.NewRequirement JobNameKey labels.In [jobName] with
       | inr err => inr err
       | inl inRequirement => inl (reqs ++ [inRequirement])%list
       end
     else inl reqs)
  with
  | inr err => inr err
  | inl reqs =>
      match
        (if Go.nonempty queueName then
           match labels.NewRequirement QueueNameKey labels.In [queueName] with
           | inr err => inr err
           | inl inRequirement => inl (reqs ++ [inRequirement])%list
           end
         else inl reqs)
      with
      | inr err => inr err
      | inl reqs =>
          if Go.len reqs >? 0 then inl (labels.Add labels.NewSelector reqs)
          else
            match labels.NewRequirement JobNameKey labels.Exists [] with
            | inr err => inr err
            | inl inRequirement =>
                inl (labels.Add labels.NewSelector [inRequirement])
            end
      end
  end.

(** *** ListPods *)

Record listFlags := {
  Common : CommonFlags;
  Namespace : string;
  JobName : string;
  allNamespace : bool;
  QueueName : string
}.

Definition noResources : string := "No resources found" +:+ Go.nl.

(** ListPods reads the package variable [listPodFlags] and may clear its
    namespace; it returns the flags it leaves behind with its error. *)
Definition ListPods `{Clock} `{io.Streams} `{labels.Validation}
    {Config} `{Cluster Config corev1.Pod} (listPodFlags : listFlags)
  : io.M (listFlags * option string) :=
  match BuildConfig (Master (Common listPodFlags)) (Kubeconfig (Common listPodFlags)) with
  | inr err => io.ret (listPodFlags, Some err)
  | inl config =>
      let listPodFlags :=
        if allNamespace listPodFlags then
          {| Common := Common listPodFlags; Namespace := EmptyString;
             JobName := JobName listPodFlags;
             allNamespace := allNamespace listPodFlags;
             QueueName := QueueName listPodFlags |}
        else listPodFlags in
      match createLabelSelector (JobName listPodFlags) (QueueName listPodFlags) with
      | inr err => io.ret (listPodFlags, Some err)
      | inl labelSelector =>
          match List config (Namespace listPodFlags) (Some labelSelector) with
          | inr err => io.ret (listPodFlags, Some err)
          | inl pods =>
              if Go.len pods =? 0 then
                _ <- io.Printf noResources [] ;;
                io.ret (listPodFlags, None)
              else
                _ <- PrintPods pods io.Stdout ;;
                io.ret (listPodFlags, None)
          end
      end
  end.

End Pod.

(** ** pkg/cli/jobflow/list.go *)

(** The fields of a JobFlow (volcano.sh/apis/pkg/apis/flow/v1alpha1) that
    the command reads; [Phase] is Status.State.Phase. *)
Module flowv1alpha1.

Record JobFlow := {
  Name : string;
  Namespace : string;
  Phase : string;
  CreationTimestamp : metav1.Time
}.

End flowv1alpha1.

Module JobFlow.

(** Column headers. *)
Definition Name : string := "Name".
Definition Namespace : string := "Namespace".
Definition Phase : string := "Phase".
Definition Age : string := "Age".

(** translateTimestampSince; [since] is the reading of the clock that the
    call makes. *)
Definition translateTimestampSince `{Clock} (since : metav1.Time -> Z)
    (timestamp : metav1.Time) : string :=
  if metav1.IsZero timestamp then "<unknown>"
  else HumanDuration (since timestamp).

(** [if len(s) > max { max = len(s) }]. *)
Definition longer (max : Z) (s : string) : Z :=
  if Go.slen s >? max then Go.slen s else max.

(** The body of the loop of calculateMaxInfoLength, on the four maxima; it
    asks for the age of the jobflow the first time. *)
Definition measure `{Clock} (m : Z * Z * Z * Z) (jobFlow : flowv1alpha1.JobFlow)
  : Z * Z * Z * Z :=
  let '(maxNameLen, maxNamespaceLen, maxStatusLen, maxAgeLen) := m in
  let ageLen :=
    translateTimestampSince Since (flowv1alpha1.CreationTimestamp jobFlow) in
  (longer maxNameLen (flowv1alpha1.Name jobFlow),
   longer maxNamespaceLen (flowv1alpha1.Namespace jobFlow),
   longer maxStatusLen (flowv1alpha1.Phase jobFlow),
   longer maxAgeLen ageLen).

(** calculateMaxInfoLength calculates the maximum length of the Name,
    Namespace, Phase and Age fields. *)
Definition calculateMaxInfoLength `{Clock} (jobFlows : list flowv1alpha1.JobFlow)
  : Z * Z * Z * Z :=
  fold_left measure jobFlows
    (Go.slen Name, Go.slen Namespace, Go.slen Phase, Go.slen Age).

Definition columnSpacing : Z := 4.

(** The four widths when the format string is built. *)
Definition columnWidths `{Clock} (jobFlows : list flowv1alpha1.JobFlow)
  : Z * Z * Z * Z :=
  let '(maxNameLen, maxNamespaceLen, maxPhaseLen, maxAgeLen) :=
    calculateMaxInfoLength jobFlows in
  (maxNameLen + columnSpacing, maxNamespaceLen + columnSpacing,
   maxPhaseLen + columnSpacing, maxAgeLen + columnSpacing).

Definition formatStr (w : Z * Z * Z * Z) : string :=
  let '(maxNameLen, maxNamespaceLen, maxPhaseLen, maxAgeLen) := w in
  "%-" +:+ Go.Itoa maxNameLen +:+ "s%-" +:+ Go.Itoa maxNamespaceLen +:+ "s%-"
  +:+ Go.Itoa maxPhaseLen +:+ "s%-" +:+ Go.Itoa maxAgeLen +:+ "s" +:+ Go.nl.

Definition headerLine : list string := [Name; Namespace; Phase; Age].

(** The arguments of a row; the age of the jobflow is asked for again. *)
Definition rowLine `{Clock} (jobFlow : flowv1alpha1.JobFlow) : list string :=
  [flowv1alpha1.Name jobFlow; flowv1alpha1.Namespace jobFlow;
   flowv1alpha1.Phase jobFlow;
   translateTimestampSince SinceAgain (flowv1alpha1.CreationTimestamp jobFlow)].

Definition failedToPrint : string :=
  "Failed to print JobFlow command result: %s." +:+ Go.nl.

(** One line of the table: the write, and the report when it failed. *)
Definition printLine `{io.Streams} (writer : io.Writer) (fmt : string)
    (line : list string) : io.M unit :=
  err <- io.Fprintf writer fmt line ;;
  match err with
  | Some e => io.Printf failedToPrint [e]
  | None => io.ret tt
  end.

(** The loop of PrintJobFlows. *)
Fixpoint printRows `{Clock} `{io.Streams} (writer : io.Writer) (fmt : string)
    (jobFlows : list flowv1alpha1.JobFlow) : io.M unit :=
  match jobFlows with
  | [] => io.ret tt
  | jobFlow :: rest =>
      _ <- printLine writer fmt (rowLine jobFlow) ;;
      printRows writer fmt rest
  end.

(** PrintJobFlows prints all the jobflows. *)
Definition PrintJobFlows `{Clock} `{io.Streams}
    (jobFlows : list flowv1alpha1.JobFlow) (writer : io.Writer) : io.M unit :=
  let fmt := formatStr (columnWidths jobFlows) in
  _ <- printLine writer fmt headerLine ;;
  printRows writer fmt jobFlows.

Record listFlags := {
  Common : CommonFlags;
  fNamespace : string
}.

Definition noResources : string := "No resources found" +:+ Go.nl.

(** ListJobFlow lists all jobflow; the result is its error. *)
Definition ListJobFlow `{Clock} `{io.Streams}
    {Config} `{Cluster Config flowv1alpha1.JobFlow} (listJobFlowFlags : listFlags)
  : io.M (option string) :=
  match BuildConfig (Master (Common listJobFlowFlags))
          (Kubeconfig (Common listJobFlowFlags)) with
  | inr err => io.ret (Some err)
  | inl config =>
      match List config (fNamespace listJobFlowFlags) None with
      | inr err => io.ret (Some err)
      | inl jobFlows =>
          if Go.len jobFlows =? 0 then
            _ <- io.Printf noResources [] ;;
            io.ret None
          else
            _ <- PrintJobFlows jobFlows io.Stdout ;;
            io.ret None
      end
  end.

End JobFlow.

(** ** The earlier revision of the pod list command

    createLabelSelector takes the job name only, ListPods filters the pods
    itself, printPod knows no restartable init containers and returns the
    cell lengths next to the cells. *)

Module Legacy.

Definition Name : string := "Name".
Definition Ready : string := "Ready".
Definition Status : string := "Status".
Definition Restart : string := "Restart".
Definition Age : string := "Age".

(** PodInfo holds information about a pod. *)
Record PodInfo := {
  iName : string;
  iReadyContainers : string;
  iReason : string;
  iRestarts : string;
  iCreationTimestamp : string
}.

(** Lengths holds the length of each cell. *)
Record Lengths := {
  lName : Z;
  lReadyContainers : Z;
  lReason : Z;
  lRestarts : Z;
  lCreationTimestamp : Z
}.

(** translateTimestampSince; [since] is the reading of the clock that the
    call makes. *)
Definition translateTimestampSince `{Clock} (since : metav1.Time -> Z)
    (timestamp : metav1.Time) : string :=
  if metav1.IsZero timestamp then "<unknown>"
  else HumanDuration (since timestamp).

(** The local variables of printPod that the loops update. *)
Record locals := mkLocals {
  restarts : Z;
  readyContainers : Z;
  lastRestartDate : metav1.Time;
  reason : string;
  initializing : bool
}.

(** The first statements of both loop bodies. *)
Definition count (container : corev1.ContainerStatus) (v : locals) : locals :=
  mkLocals (Go.int_add (restarts v) (corev1.RestartCount container))
    (readyContainers v)
    (Pod.noteTermination (lastRestartDate v) container)
    (reason v) (initializing v).

Definition set_reason (r : string) (v : locals) : locals :=
  mkLocals (restarts v) (readyContainers v) (lastRestartDate v) r (initializing v).

Definition set_initializing (v : locals) : locals :=
  mkLocals (restarts v) (readyContainers v) (lastRestartDate v) (reason v) true.

(** The switch of the loop over the init container statuses. *)
Definition initSwitch (nInit : Z) (i : Z) (container : corev1.ContainerStatus)
    (v : locals) : locals * Pod.flow :=
  let state := corev1.State container in
  match corev1.Terminated state with
  | Some t =>
      if corev1.ExitCode t =? 0 then (v, Pod.Continue)
      else
        let r :=
          if (String.length (corev1.tReason t) =? 0)%nat then
            if negb (corev1.Signal t =? 0)
            then "Init:Signal:" +:+ Go.Itoa (corev1.Signal t)
            else "Init:ExitCode:" +:+ Go.Itoa (corev1.ExitCode t)
          else "Init:" +:+ corev1.tReason t in
        (set_initializing (set_reason r v), Pod.Break)
  | None =>
      match corev1.Waiting state with
      | Some w =>
          if (0 <? String.length (corev1.wReason w))%nat
             && negb (String.eqb (corev1.wReason w) "PodInitializing")
          then (set_initializing (set_reason ("Init:" +:+ corev1.wReason w) v),
                Pod.Break)
          else (set_initializing
                  (set_reason ("Init:" +:+ Go.Itoa i +:+ "/" +:+ Go.Itoa nInit) v),
                Pod.Break)
      | None =>
          (set_initializing
             (set_reason ("Init:" +:+ Go.Itoa i +:+ "/" +:+ Go.Itoa nInit) v),
           Pod.Break)
      end
  end.

Fixpoint initLoop (nInit : Z) (i : Z) (statuses : list corev1.ContainerStatus)
    (v : locals) : locals :=
  match statuses with
  | [] => v
  | container :: rest =>
      match initSwitch nInit i container (count container v) with
      | (v, Pod.Continue) => initLoop nInit (i + 1) rest v
      | (v, Pod.Break) => v
      end
  end.

(** The body of the loop over the container statuses. *)
Definition containerStep (v : locals) (container : corev1.ContainerStatus) : locals :=
  let v := count container v in
  let state := corev1.State container in
  match corev1.Waiting state with
  | Some (corev1.Build_ContainerStateWaiting (String a r)) =>
      set_reason (String a r) v
  | _ =>
      match corev1.Terminated state with
      | Some t =>
          if Go.nonempty (corev1.tReason t) then set_reason (corev1.tReason t) v
          else if negb (corev1.Signal t =? 0)
          then set_reason ("Signal:" +:+ Go.Itoa (corev1.Signal t)) v
          else set_reason ("ExitCode:" +:+ Go.Itoa (corev1.ExitCode t)) v
      | None =>
          if corev1.Ready container && Go.isSome (corev1.Running state)
          then mkLocals (restarts v) (readyContainers v + 1) (lastRestartDate v)
                 (reason v) (initializing v)
          else v
      end
  end.

Definition start (pod : corev1.Pod) : locals :=
  let status := corev1.Status_ pod in
  mkLocals 0 0 metav1.zeroTime
    (if Go.nonempty (corev1.Reason status) then corev1.Reason status
     else corev1.Phase status)
    false.

Definition afterInit (pod : corev1.Pod) : locals :=
  initLoop (Go.len (corev1.InitContainers (corev1.Spec pod))) 0
    (corev1.InitContainerStatuses (corev1.Status_ pod)) (start pod).

(** The variables before the deletion timestamp is looked at. *)
Definition derived (pod : corev1.Pod) : locals :=
  let v := afterInit pod in
  if negb (initializing v) then
    fold_left containerStep (rev (corev1.ContainerStatuses (corev1.Status_ pod)))
      (mkLocals 0 (readyContainers v) (lastRestartDate v) (reason v)
         (initializing v))
  else v.

Definition deletionReason (pod : corev1.Pod) (reason : string) : string :=
  match corev1.DeletionTimestamp pod with
  | Some _ =>
      if String.eqb (corev1.Reason (corev1.Status_ pod)) "NodeLost"
      then "Unknown"
      else "Terminating"
  | None => reason
  end.

Definition restartsStr `{Clock} (restarts : Z) (lastRestartDate : metav1.Time) : string :=
  if negb (metav1.IsZero lastRestartDate)
  then Go.Itoa restarts +:+ " (" +:+ translateTimestampSince Since lastRestartDate
       +:+ " ago)"
  else Go.Itoa restarts.

(** printPod. The age of the pod is computed for the cell, and again for the
    length of the cell. *)
Definition printPod `{Clock} (pod : corev1.Pod) : PodInfo * Lengths :=
  let v := derived pod in
  let totalContainers := Go.len (corev1.Containers (corev1.Spec pod)) in
  let reason := deletionReason pod (reason v) in
  let restartsStr := restartsStr (restarts v) (lastRestartDate v) in
  let ready := Go.Itoa (readyContainers v) +:+ "/" +:+ Go.Itoa totalContainers in
  ({| iName := corev1.Name pod;
      iReadyContainers := ready;
      iReason := reason;
      iRestarts := restartsStr;
      iCreationTimestamp :=
        translateTimestampSince Since (corev1.CreationTimestamp pod) |},
   {| lName := Go.slen (corev1.Name pod);
      lReadyContainers := Go.slen ready;
      lReason := Go.slen reason;
      lRestarts := Go.slen restartsStr;
      lCreationTimestamp :=
        Go.slen (translateTimestampSince SinceAgain (corev1.CreationTimestamp pod)) |}).

(** The body of the first loop of PrintPods, after printPod. *)
Definition measure (w : Pod.widths) (lens : Lengths) : Pod.widths :=
  {| Pod.wName := if lName lens >? Pod.wName w then lName lens else Pod.wName w;
     Pod.wReady :=
       if lReadyContainers lens >? Pod.wReady w then lReadyContainers lens
       else Pod.wReady w;
     Pod.wStatus := if lReason lens >? Pod.wStatus w then lReason lens else Pod.wStatus w;
     Pod.wRestart :=
       if lRestarts lens >? Pod.wRestart w then lRestarts lens else Pod.wRestart w;
     Pod.wAge :=
       if lCreationTimestamp lens >? Pod.wAge w then lCreationTimestamp lens
       else Pod.wAge w |}.

Definition columnSpacing : Z := 8.

Definition columnWidths (lens : list Lengths) : Pod.widths :=
  let w := fold_left measure lens
             {| Pod.wName := 0; Pod.wReady := 0; Pod.wStatus := 0;
                Pod.wRestart := 0; Pod.wAge := 0 |} in
  {| Pod.wName := Pod.wName w + columnSpacing;
     Pod.wReady := Pod.wReady w + columnSpacing;
     Pod.wStatus := Pod.wStatus w + columnSpacing;
     Pod.wRestart := Pod.wRestart w + columnSpacing;
     Pod.wAge := Pod.wAge w + columnSpacing |}.

Definition headerLine : list string := [Name; Ready; Status; Restart; Age].

Definition rowLine (info : PodInfo) : list string :=
  [iName info; iReadyContainers info; iReason info; iRestarts info;
   iCreationTimestamp info].

Fixpoint printRows `{io.Streams} (writer : io.Writer) (fmt : string)
    (infoList : list PodInfo) : io.M unit :=
  match infoList with
  | [] => io.ret tt
  | info :: rest =>
      err <- io.Fprintf writer fmt (rowLine info) ;;
      match err with
      | Some e => io.Printf Pod.failedToPrint [e]
      | None => printRows writer fmt rest
      end
  end.

Definition PrintPods `{Clock} `{io.Streams} (pods : list corev1.Pod)
    (writer : io.Writer) : io.M unit :=
  let rows := map printPod pods in
  let fmt := Pod.formatStr (columnWidths (map snd rows)) in
  err <- io.Fprintf writer fmt headerLine ;;
  match err with
  | Some e => io.Printf Pod.failedToPrint [e]
  | None => printRows writer fmt (map fst rows)
  end.

(** filterPods filters pods based on the provided filter callback. *)
Definition filterPods (pods : list corev1.Pod) (filterFunc : corev1.Pod -> bool)
  : list corev1.Pod :=
  fold_left (fun items pod => if filterFunc pod then (items ++ [pod])%list else items)
    pods [].

(** createLabelSelector creates a label selector based on the provided job
    name. *)
Definition createLabelSelector `{labels.Validation} (jobName : string)
  : labels.Selector + string :=
  if String.eqb jobName EmptyString then
    match labels.NewRequirement JobNameKey labels.Exists [] with
    | inr err => inr err
    | inl inRequirement => inl (labels.Add labels.NewSelector [inRequirement])
    end
  else
    match labels.NewRequirement JobNameKey labels.In [jobName] with
    | inr err => inr err
    | inl inRequirement => inl (labels.Add labels.NewSelector [inRequirement])
    end.

Record listFlags := {
  Common : CommonFlags;
  Namespace : string;
  JobName : string;
  allNamespace : bool
}.

(** The filter callback of ListPods; a missing label reads as the empty
    string. *)
Definition filterFunc (listPodFlags : listFlags) (pod : corev1.Pod) : bool :=
  if Go.nonempty (Namespace listPodFlags)
     && negb (String.eqb (Namespace listPodFlags) (corev1.Namespace pod))
  then false
  else if Go.nonempty (JobName listPodFlags)
          && negb (String.eqb (JobName listPodFlags)
                     (default EmptyString (corev1.Labels pod !! JobNameKey)))
  then false
  else true.

Definition ListPods `{Clock} `{io.Streams} `{labels.Validation}
    {Config} `{Cluster Config corev1.Pod} (listPodFlags : listFlags)
  : io.M (listFlags * option string) :=
  match BuildConfig (Master (Common listPodFlags)) (Kubeconfig (Common listPodFlags)) with
  | inr err => io.ret (listPodFlags, Some err)
  | inl config =>
      let listPodFlags :=
        if allNamespace listPodFlags then
          {| Common := Common listPodFlags; Namespace := EmptyString;
             JobName := JobName listPodFlags;
             allNamespace := allNamespace listPodFlags |}
        else listPodFlags in
      match createLabelSelector (JobName listPodFlags) with
      | inr err => io.ret (listPodFlags, Some err)
      | inl labelSelector =>
          match List config (Namespace listPodFlags) (Some labelSelector) with
          | inr err => io.ret (listPodFlags, Some err)
          | inl pods =>
              let filteredPods := filterPods pods (filterFunc listPodFlags) in
              if Go.len filteredPods =? 0 then
                _ <- io.Printf Pod.noResources [] ;;
                io.ret (listPodFlags, None)
              else
                _ <- PrintPods filteredPods io.Stdout ;;
                io.ret (listPodFlags, None)
          end
      end
  end.

End Legacy.

(** * Notions of the statements *)

(** Whether a status carries the name of a declared init container with
    restart policy Always. *)
Definition sidecarStatus (ics : gmap string corev1.Container)
    (s : corev1.ContainerStatus) : bool :=
  Pod.isRestartableInitContainer (ics !! corev1.csName s).

(** The map that the loop over the declared init containers builds. *)
Definition declared (decl : list corev1.Container) : gmap string corev1.Container :=
  fold_left (fun m c => <[corev1.cName c := c]> m) decl ∅.

(** Whether a name is that of a declared init container with restart policy
    Always. *)
Definition sidecarName (m : gmap string corev1.Container) (n : string) : bool :=
  Pod.isRestartableInitContainer (m !! n).

(** Whether a status belongs to a declared init container with restart
    policy Always that has started. *)
Definition startedSidecar (pod : corev1.Pod) (s : corev1.ContainerStatus) : bool :=
  Pod.isRestartableInitContainer (Pod.initContainers pod !! corev1.csName s)
  && match corev1.Started s with Some b => b | None => false end.

(** A status that the loop counts as ready and running: no waiting reason,
    not terminated, Ready, and a Running state. *)
Definition readyAndRunning (s : corev1.ContainerStatus) : Prop :=
  corev1.Ready s = true
  /\ corev1.Running (corev1.State s) <> None
  /\ corev1.Terminated (corev1.State s) = None
  /\ (forall w, corev1.Waiting (corev1.State s) = Some w ->
                corev1.wReason w = EmptyString).

(** The pod has a Ready condition with status True. *)
Definition hasReadyCondition (pod : corev1.Pod) : Prop :=
  exists c, In c (corev1.Conditions (corev1.Status_ pod))
            /\ corev1.Type_ c = "Ready" /\ corev1.Status c = "True".

(** A cell fits a column when it is not longer than the column is wide. *)
Definition fits (width : Z) (cell : string) : Prop := Go.slen cell <= width.

(** The column widths, the pad counts of the format string, in column
    order. *)
Definition podWidths (w : Pod.widths) : list Z :=
  [Pod.wName w; Pod.wReady w; Pod.wStatus w; Pod.wRestart w; Pod.wAge w].

(** The same for the jobflow table. *)
Definition jobFlowWidths (w : Z * Z * Z * Z) : list Z :=
  let '(a, b, c, d) := w in [a; b; c; d].

(** How fmt reads a format string for its verbs [%-<n>s], a string padded
    on the right to [n] characters: outside a verb, after the percent sign,
    and in the digits of the pad count. *)
Inductive scan := Text | Verb | Count (digits : string).

(** The number that decimal digits stand for. *)
Definition number (digits : string) : Z :=
  match NilZero.int_of_string digits with
  | Some d => Z.of_int d
  | None => 0
  end.

Fixpoint padCountsFrom (st : scan) (format : string) : list Z :=
  match format with
  | EmptyString => []
  | String c rest =>
      match st with
      | Text =>
          if Ascii.eqb c "%" then padCountsFrom Verb rest else padCountsFrom Text rest
      | Verb =>
          if Ascii.eqb c "-" then padCountsFrom (Count EmptyString) rest
          else padCountsFrom Text rest
      | Count digits =>
          if Ascii.eqb c "s" then number digits :: padCountsFrom Text rest
          else padCountsFrom (Count (digits +:+ String c EmptyString)) rest
      end
  end.

(** The pad counts of a format string, in the order of its verbs: the
    widths it gives the columns of a line. *)
Definition padCounts (format : string) : list Z := padCountsFrom Text format.

(** Whether a character occurs in a string. *)
Fixpoint occurs (c : ascii) (s : string) : bool :=
  match s with
  | EmptyString => false
  | String a rest => Ascii.eqb a c || occurs c rest
  end.

(** The strings that calculateMaxInfoLength measures for a jobflow; the
    last one is the age of the jobflow as it is asked for the first time. *)
Definition measuredLine `{Clock} (jobFlow : flowv1alpha1.JobFlow) : list string :=
  [flowv1alpha1.Name jobFlow; flowv1alpha1.Namespace jobFlow;
   flowv1alpha1.Phase jobFlow;
   JobFlow.translateTimestampSince Since (flowv1alpha1.CreationTimestamp jobFlow)].

(** The write of one table line. *)
Definition lineWrite (writer : io.Writer) (fmt : string) (line : list string) : io.write :=
  {| io.target := writer; io.format := fmt; io.args := line |}.

(** The report of a failed write on standard output. *)
Definition report (failed err : string) : io.write :=
  {| io.target := io.Stdout; io.format := failed; io.args := [err] |}.

(** The writes with the format string of the table. *)
Definition tableWrites (fmt : string) (ws : list io.write) : list io.write :=
  List.filter (fun w => String.eqb (io.format w) fmt) ws.

(** Lines written one after the other, where the first failure ends the
    run after its report. *)
Fixpoint writeUntilError `{io.Streams} (writer : io.Writer) (fmt failed : string)
    (lines : list (list string)) : io.M unit :=
  match lines with
  | [] => io.ret tt
  | line :: rest =>
      err <- io.Fprintf writer fmt line ;;
      match err with
      | Some e => io.Printf failed [e]
      | None => writeUntilError writer fmt failed rest
      end
  end.

(** Lines written one after the other, each failure reported. *)
Fixpoint writeAll `{io.Streams} (writer : io.Writer) (fmt failed : string)
    (lines : list (list string)) : io.M unit :=
  match lines with
  | [] => io.ret tt
  | line :: rest =>
      _ <- (err <- io.Fprintf writer fmt line ;;
            match err with
            | Some e => io.Printf failed [e]
            | None => io.ret tt
            end) ;;
      writeAll writer fmt failed rest
  end.

(** The job name label is [jobName]. *)
Definition jobIs (jobName : string) : labels.Requirement :=
  {| labels.key := JobNameKey; labels.operator := labels.In;
     labels.strValues := [jobName] |}.

(** The queue name label is [queueName]. *)
Definition queueIs (queueName : string) : labels.Requirement :=
  {| labels.key := QueueNameKey; labels.operator := labels.In;
     labels.strValues := [queueName] |}.

(** The job name label is present. *)
Definition hasJob : labels.Requirement :=
  {| labels.key := JobNameKey; labels.operator := labels.Exists;
     labels.strValues := [] |}.

(** The requirements the two flags ask for. *)
Definition requested (jobName queueName : string) : labels.Selector :=
  match jobName, queueName with
  | EmptyString, EmptyString => [hasJob]
  | String _ _, EmptyString => [jobIs jobName]
  | EmptyString, String _ _ => [queueIs queueName]
  | String _ _, String _ _ => [jobIs jobName; queueIs queueName]
  end.

(** The line "No resources found" on standard output. *)
Definition noResourcesFound : io.write :=
  {| io.target := io.Stdout; io.format := "No resources found" +:+ Go.nl;
     io.args := [] |}.

(** The namespace the pod list command asks the cluster for. *)
Definition askedNamespace (allNamespace : bool) (namespace : string) : string :=
  if allNamespace then EmptyString else namespace.

(** ** Notions of the further properties *)

(** An init container status that terminated with exit code 0. *)
Definition completedInit (s : corev1.ContainerStatus) : Prop :=
  exists t, corev1.Terminated (corev1.State s) = Some t /\ corev1.ExitCode t = 0.

(** An init container status that the loop passes over: it completed, or
    it is a started init container with restart policy Always. *)
Definition passedInit (pod : corev1.Pod) (s : corev1.ContainerStatus) : Prop :=
  completedInit s \/ startedSidecar pod s = true.

(** The pod with other init container statuses. *)
Definition withInitStatuses (pod : corev1.Pod) (statuses : list corev1.ContainerStatus)
  : corev1.Pod :=
  {| corev1.Name := corev1.Name pod; corev1.Namespace := corev1.Namespace pod;
     corev1.Labels := corev1.Labels pod;
     corev1.CreationTimestamp := corev1.CreationTimestamp pod;
     corev1.DeletionTimestamp := corev1.DeletionTimestamp pod;
     corev1.Spec := corev1.Spec pod;
     corev1.Status_ :=
       {| corev1.Phase := corev1.Phase (corev1.Status_ pod);
          corev1.Conditions := corev1.Conditions (corev1.Status_ pod);
          corev1.Reason := corev1.Reason (corev1.Status_ pod);
          corev1.InitContainerStatuses := statuses;
          corev1.ContainerStatuses := corev1.ContainerStatuses (corev1.Status_ pod) |} |}.

(** A container status that reports no reason: it is not terminated and has
    no waiting reason. *)
Definition silent (s : corev1.ContainerStatus) : Prop :=
  corev1.Terminated (corev1.State s) = None
  /\ (forall w, corev1.Waiting (corev1.State s) = Some w ->
                corev1.wReason w = EmptyString).

(** Whether a container status is Ready, in the Running state and silent. *)
Definition countedReady (s : corev1.ContainerStatus) : bool :=
  corev1.Ready s
  && Go.isSome (corev1.Running (corev1.State s))
  && negb (Go.isSome (corev1.Terminated (corev1.State s)))
  && match corev1.Waiting (corev1.State s) with
     | Some w => String.eqb (corev1.wReason w) EmptyString
     | None => true
     end.

(** The sum of the restart counts of statuses. *)
Definition sumRestarts (statuses : list corev1.ContainerStatus) : Z :=
  fold_right (fun s acc => corev1.RestartCount s + acc) 0 statuses.

(** When the last termination that a status reports finished, if it
    reports one. *)
Definition lastTermination (s : corev1.ContainerStatus) : option metav1.Time :=
  corev1.FinishedAt <$> corev1.Terminated (corev1.LastTerminationState s).

(** The init container statuses that carry the name of a declared init
    container with restart policy Always. *)
Definition sidecarStatuses (pod : corev1.Pod) : list corev1.ContainerStatus :=
  List.filter (sidecarStatus (Pod.initContainers pod))
    (corev1.InitContainerStatuses (corev1.Status_ pod)).

(** The range of an int32. *)
Definition int32 (z : Z) : Prop := - 2 ^ 31 <= z < 2 ^ 31.

(** The pod has a PodScheduled condition with reason SchedulingGated. *)
Definition schedulingGated (pod : corev1.Pod) : Prop :=
  exists c, In c (corev1.Conditions (corev1.Status_ pod))
            /\ corev1.Type_ c = "PodScheduled"
            /\ corev1.cReason c = "SchedulingGated".

(** The flags that ListPods leaves behind once the configuration is built. *)
Definition afterListPods (flags : Pod.listFlags) : Pod.listFlags :=
  {| Pod.Common := Pod.Common flags;
     Pod.Namespace := askedNamespace (Pod.allNamespace flags) (Pod.Namespace flags);
     Pod.JobName := Pod.JobName flags;
     Pod.allNamespace := Pod.allNamespace flags;
     Pod.QueueName := Pod.QueueName flags |}.

(** NewRequirement refuses the first of the requirements it is asked for
    in this order, with error [err], after accepting those before. *)
Definition firstRefusal `{labels.Validation} (reqs : list labels.Requirement)
    (err : string) : Prop :=
  exists before r after,
    reqs = (before ++ r :: after)%list
    /\ (forall b, In b before ->
          labels.refused (labels.key b) (labels.operator b) (labels.strValues b) = None)
    /\ labels.refused (labels.key r) (labels.operator r) (labels.strValues r) = Some err.

(** The lengths that the earlier printPod returns, in column order. *)
Definition returnedLengths (lens : Legacy.Lengths) : list Z :=
  [Legacy.lName lens; Legacy.lReadyContainers lens; Legacy.lReason lens;
   Legacy.lRestarts lens; Legacy.lCreationTimestamp lens].

(** The variables of the earlier printPod and of the current one agree. *)
Definition agree (old : Legacy.locals) (new : Pod.locals) : Prop :=
  Legacy.restarts old = Pod.restarts new
  /\ Legacy.readyContainers old = Pod.readyContainers new
  /\ Legacy.lastRestartDate old = Pod.lastRestartDate new
  /\ Legacy.reason old = Pod.reason new
  /\ Legacy.initializing old = Pod.initializing new.

(** Sample objects. *)
Module Sample.

Definition noState : corev1.ContainerState :=
  {| corev1.Waiting := None; corev1.Running := None; corev1.Terminated := None |}.

Definition waiting (r : string) : corev1.ContainerState :=
  {| corev1.Waiting := Some {| corev1.wReason := r |};
     corev1.Running := None; corev1.Terminated := None |}.

Definition running : corev1.ContainerState :=
  {| corev1.Waiting := None;
     corev1.Running := Some {| corev1.StartedAt := 100 |};
     corev1.Terminated := None |}.

Definition terminated (code : Z) (r : string) (at_ : metav1.Time) : corev1.ContainerState :=
  {| corev1.Waiting := None; corev1.Running := None;
     corev1.Terminated :=
       Some {| corev1.ExitCode := code; corev1.Signal := 0;
               corev1.tReason := r; corev1.FinishedAt := at_ |} |}.

Definition status (n : string) (st last : corev1.ContainerState) (ready : bool)
    (restarts : Z) : corev1.ContainerStatus :=
  {| corev1.csName := n; corev1.State := st; corev1.LastTerminationState := last;
     corev1.Ready := ready; corev1.RestartCount := restarts;
     corev1.Started := None |}.

Definition container (n : string) : corev1.Container :=
  {| corev1.cName := n; corev1.RestartPolicy := None |}.

Definition sidecar (n : string) : corev1.Container :=
  {| corev1.cName := n;
     corev1.RestartPolicy := Some corev1.ContainerRestartPolicyAlways |}.

Definition condition (t s : string) : corev1.PodCondition :=
  {| corev1.Type_ := t; corev1.Status := s; corev1.cReason := EmptyString |}.

Definition pod (n phase : string) (inits regs : list corev1.Container)
    (conds : list corev1.PodCondition)
    (istats stats : list corev1.ContainerStatus) : corev1.Pod :=
  {| corev1.Name := n; corev1.Namespace := "default";
     corev1.Labels := {[ JobNameKey := "my-job" ]};
     corev1.CreationTimestamp := 1000; corev1.DeletionTimestamp := None;
     corev1.Spec := {| corev1.InitContainers := inits; corev1.Containers := regs |};
     corev1.Status_ :=
       {| corev1.Phase := phase; corev1.Conditions := conds; corev1.Reason := EmptyString;
          corev1.InitContainerStatuses := istats;
          corev1.ContainerStatuses := stats |} |}.

(** A clock that stands at instant 1300 and prints durations as seconds. *)
Definition clock : Clock :=
  {| Since := fun t => 1300 - t; SinceAgain := fun t => 1300 - t;
     HumanDuration := fun d => Go.Itoa d +:+ "s" |}.

(** The pod of the test "Normal Case". *)
Definition myPod : corev1.Pod :=
  pod "my-pod" corev1.PodRunning [] [container "my-container"]
    [condition corev1.PodReady corev1.ConditionTrue] [] [].

(** One init container that waits with the placeholder reason. *)
Definition initWaiting : corev1.Pod :=
  pod "init-pod" corev1.PodPending [container "setup"] [container "main"] []
    [status "setup" (waiting "PodInitializing") noState false 0] [].

Definition startedStatus (n : string) (st : corev1.ContainerState) (ready : bool)
    : corev1.ContainerStatus :=
  {| corev1.csName := n; corev1.State := st; corev1.LastTerminationState := noState;
     corev1.Ready := ready; corev1.RestartCount := 0;
     corev1.Started := Some true |}.

(** The same pod with a deletion timestamp. *)
Definition deleted (p : corev1.Pod) (at_ : metav1.Time) : corev1.Pod :=
  {| corev1.Name := corev1.Name p; corev1.Namespace := corev1.Namespace p;
     corev1.Labels := corev1.Labels p;
     corev1.CreationTimestamp := corev1.CreationTimestamp p;
     corev1.DeletionTimestamp := Some at_;
     corev1.Spec := corev1.Spec p; corev1.Status_ := corev1.Status_ p |}.

Definition deletedPod : corev1.Pod := deleted myPod 1250.

(** A container that restarted twice, the last time at instant 1200. *)
Definition restartedPod : corev1.Pod :=
  pod "restarted" corev1.PodRunning [] [container "main"] [] []
    [status "main" running (terminated 1 "Error" 1200) true 2].

(** A container that never restarted but reports a last termination. *)
Definition terminatedOnce : corev1.Pod :=
  pod "terminated-once" corev1.PodRunning [] [container "main"] [] []
    [status "main" running (terminated 1 "Error" 1200) true 0].

(** An init container that restarted once before it completed, and a
    container that never restarted. *)
Definition initRestarted : corev1.Pod :=
  pod "init-restarted" corev1.PodRunning [container "setup"] [container "main"] []
    [status "setup" (terminated 0 "Completed" 1150) (terminated 1 "Error" 1100) false 1]
    [status "main" running noState true 0].

(** A succeeded pod that is being deleted. *)
Definition deletedSucceeded : corev1.Pod :=
  deleted (pod "done" corev1.PodSucceeded [] [container "main"] [] []
             [status "main" (terminated 0 "Completed" 1100) noState false 0])
    1250.

(** A finished container next to one that still runs. *)
Definition completedPod : corev1.Pod :=
  pod "mixed" corev1.PodRunning [] [container "job"; container "proxy"]
    [condition corev1.PodReady corev1.ConditionTrue] []
    [status "job" (terminated 0 "Completed" 1100) noState false 0;
     status "proxy" running noState true 0].

(** A started init container with restart policy Always and a running
    container. *)
Definition sidecarPod : corev1.Pod :=
  pod "with-sidecar" corev1.PodRunning [sidecar "log"] [container "main"] []
    [startedStatus "log" running true]
    [status "main" running noState true 0].

Definition twoPods : list corev1.Pod :=
  [pod "pod-a" corev1.PodRunning [] [container "main"] [] [] [];
   pod "pod-b" corev1.PodRunning [] [container "main"] [] [] []].

(** Streams on which the second write fails. *)
Definition brokenPipe : io.Streams :=
  {| io.failure := fun t _ => if (length t =? 1)%nat then Some "broken pipe" else None |}.

(** Streams on which no write fails. *)
Definition sound : io.Streams := {| io.failure := fun _ _ => None |}.

(** A labels package that accepts every requirement. *)
Definition acceptAll : labels.Validation := {| labels.refused := fun _ _ _ => None |}.

(** A cluster without items. *)
Definition emptyCluster (Item : Type) : Cluster unit Item :=
  {| BuildConfig := fun _ _ => inl tt; List := fun _ _ _ => inl [] |}.

(** A cluster with the two pods of the test "Normal Case with namespace
    filter", which differ in their namespace. *)
Definition otherNamespace : corev1.Pod :=
  {| corev1.Name := "my-pod"; corev1.Namespace := "kube-system";
     corev1.Labels := {[ JobNameKey := "my-job" ]};
     corev1.CreationTimestamp := 1000; corev1.DeletionTimestamp := None;
     corev1.Spec := corev1.Spec myPod; corev1.Status_ := corev1.Status_ myPod |}.

Definition kubeSystemCluster : Cluster unit corev1.Pod :=
  {| BuildConfig := fun _ _ => inl tt; List := fun _ _ _ => inl [otherNamespace] |}.

Definition common : CommonFlags := {| Master := "https://master"; Kubeconfig := "config" |}.

Definition podFlags : Pod.listFlags :=
  {| Pod.Common := common; Pod.Namespace := "default"; Pod.JobName := "my-job";
     Pod.allNamespace := false; Pod.QueueName := "q1" |}.

Definition jobFlowFlags : JobFlow.listFlags :=
  {| JobFlow.Common := common; JobFlow.fNamespace := "default" |}.

Definition legacyFlags : Legacy.listFlags :=
  {| Legacy.Common := common; Legacy.Namespace := "default";
     Legacy.JobName := EmptyString; Legacy.allNamespace := false |}.

Definition jobFlows : list flowv1alpha1.JobFlow :=
  [{| flowv1alpha1.Name := "flow-a"; flowv1alpha1.Namespace := "default";
      flowv1alpha1.Phase := "Succeed"; flowv1alpha1.CreationTimestamp := 1000 |};
   {| flowv1alpha1.Name := "flow-b"; flowv1alpha1.Namespace := "default";
      flowv1alpha1.Phase := "Running"; flowv1alpha1.CreationTimestamp := 0 |}].

(** A clock that stands at instant 1300 when a timestamp is asked for the
    first time and was set back to instant 900 when it is asked for again;
    a time that is still to come prints as "<invalid>", as with
    duration.HumanDuration. *)
Definition setBack : Clock :=
  {| Since := fun t => 1300 - t; SinceAgain := fun t => 900 - t;
     HumanDuration :=
       fun d => if d <? -1 then "<invalid>" else Go.Itoa d +:+ "s" |}.

(** A jobflow created at instant 1000. *)
Definition flowA : flowv1alpha1.JobFlow :=
  {| flowv1alpha1.Name := "flow-a"; flowv1alpha1.Namespace := "default";
     flowv1alpha1.Phase := "Succeed"; flowv1alpha1.CreationTimestamp := 1000 |}.

(** A container whose restart count reads -1, with a last termination at
    instant 1200. *)
Definition negativeRestarts : corev1.Pod :=
  pod "negative" corev1.PodRunning [] [container "main"] [] []
    [status "main" running (terminated 1 "Error" 1200) true (-1)].

(** The clock of the tests: every pod was created just now. *)
Definition justNow : Clock :=
  {| Since := fun _ => 0; SinceAgain := fun _ => 0;
     HumanDuration := fun d => Go.Itoa d +:+ "s" |}.

(** Three init containers: the first completed, the second failed with exit
    code 2, the third still waits. *)
Definition initBlocked : corev1.Pod :=
  pod "blocked" corev1.PodPending
    [container "fetch"; container "setup"; container "warm"] [container "main"] []
    [status "fetch" (terminated 0 "Completed" 1050) noState false 0;
     status "setup" (terminated 2 EmptyString 1100) noState false 1;
     status "warm" (waiting "ImagePullBackOff") noState false 0]
    [].

(** A running container, one in a crash loop and one that failed. *)
Definition crashLoop : corev1.Pod :=
  pod "crash" corev1.PodRunning []
    [container "proxy"; container "main"; container "job"] [] []
    [status "proxy" running noState true 0;
     status "main" (waiting "CrashLoopBackOff") (terminated 1 "Error" 1200) false 4;
     status "job" (terminated 1 "Error" 1250) noState false 0].

(** A started init container with restart policy Always that restarted three
    times, an init container that restarted five times before it completed,
    and a container that restarted twice. *)
Definition restartsPod : corev1.Pod :=
  pod "restarts" corev1.PodRunning [sidecar "log"; container "setup"]
    [container "main"] []
    [{| corev1.csName := "log"; corev1.State := running;
        corev1.LastTerminationState := terminated 1 "Error" 1100;
        corev1.Ready := true; corev1.RestartCount := 3;
        corev1.Started := Some true |};
     status "setup" (terminated 0 "Completed" 1150) (terminated 1 "Error" 1250) false 5]
    [status "main" running (terminated 137 "OOMKilled" 1200) true 2].

(** A pod that waits at a scheduling gate. *)
Definition gatedPod : corev1.Pod :=
  pod "gated" corev1.PodPending [] [container "main"]
    [{| corev1.Type_ := corev1.PodScheduled; corev1.Status := corev1.ConditionFalse;
        corev1.cReason := corev1.PodReasonSchedulingGated |}] [] [].

(** A cluster that answers with two pods. *)
Definition twoPodCluster : Cluster unit corev1.Pod :=
  {| BuildConfig := fun _ _ => inl tt; List := fun _ _ _ => inl twoPods |}.

(** A cluster that answers with pods of two namespaces. *)
Definition mixedCluster : Cluster unit corev1.Pod :=
  {| BuildConfig := fun _ _ => inl tt;
     List := fun _ _ _ => inl [otherNamespace; myPod] |}.

(** A cluster for which no configuration can be built. *)
Definition noConfig (Item : Type) : Cluster unit Item :=
  {| BuildConfig := fun _ _ => inr "invalid configuration";
     List := fun _ _ _ => inl [] |}.

(** A cluster that answers with two jobflows. *)
Definition jobFlowCluster : Cluster unit flowv1alpha1.JobFlow :=
  {| BuildConfig := fun _ _ => inl tt; List := fun _ _ _ => inl jobFlows |}.

End Sample.


(** * Properties *)

(** ** The status reason and the deletion timestamp *)

Lemma IsPodPhaseTerminal_spec phase :
  IsPodPhaseTerminal phase = true <-> phase = "Succeeded" \/ phase = "Failed".
Proof.
  unfold IsPodPhaseTerminal, corev1.PodFailed, corev1.PodSucceeded.
  rewrite orb_true_iff, !String.eqb_eq. tauto.
Qed.

(** C6: a pod with a deletion timestamp shows "Unknown" when its status
    reason is "NodeLost"; otherwise it shows "Terminating", unless its phase
    is Succeeded or Failed, and then it keeps the reason derived before. *)
Theorem printPod_deleted `{Clock} (pod : corev1.Pod) :
  corev1.DeletionTimestamp pod <> None ->
  let status := corev1.Status_ pod in
  let shown := Pod.iStatus (Pod.printPod pod) in
  (corev1.Reason status = "NodeLost" -> shown = "Unknown") /\
  (corev1.Reason status <> "NodeLost" ->
   (corev1.Phase status = "Succeeded" \/ corev1.Phase status = "Failed" ->
    shown = Pod.reason (Pod.derived pod)) /\
   (~ (corev1.Phase status = "Succeeded" \/ corev1.Phase status = "Failed") ->
    shown = "Terminating")).
Proof.
  intros Hdel status shown. subst status shown. simpl.
  unfold Pod.deletionReason.
  destruct (corev1.DeletionTimestamp pod) as [ts|]; [clear Hdel | congruence].
  unfold NodeUnreachablePodReason.
  destruct (String.eqb_spec (corev1.Reason (corev1.Status_ pod)) "NodeLost") as [Hr|Hr].
  - split; [reflexivity | contradiction].
  - split; [contradiction | intros _].
    destruct (IsPodPhaseTerminal (corev1.Phase (corev1.Status_ pod))) eqn:Ht; simpl.
    + split; [reflexivity | intros Hn; apply IsPodPhaseTerminal_spec in Ht; tauto].
    + split; [| reflexivity].
      intros Hp. apply IsPodPhaseTerminal_spec in Hp. congruence.
Qed.

(** ** The Restarts cell *)

Lemma length_append (s t : string) :
  String.length (s +:+ t) = (String.length s + String.length t)%nat.
Proof. induction s as [|a s IH]; simpl; [reflexivity | now rewrite IH]. Qed.

Lemma append_longer (s t : string) : (0 < String.length t)%nat -> s <> s +:+ t.
Proof.
  intros Ht Heq. apply (f_equal String.length) in Heq.
  rewrite length_append in Heq. lia.
Qed.

(** C4: with [n] the restart count printPod ends with and [d] its last
    restart date, the Restarts cell is the decimal [n], followed by
    " (<duration> ago)" exactly when [n] is not 0 and [d] is not the zero
    time, whatever the sign of [n]; for a count that is not negative this is
    when [n] is greater than 0; for [n = 0] the cell is "0". *)
Theorem printPod_restarts `{Clock} (pod : corev1.Pod) :
  let n := Pod.restarts (Pod.derived pod) in
  let d := Pod.lastRestartDate (Pod.derived pod) in
  let plain := Go.Itoa n in
  let ago := Go.Itoa n +:+ " (" +:+ Pod.translateTimestampSince d +:+ " ago)" in
  (Pod.iRestarts (Pod.printPod pod) = ago <-> n <> 0 /\ metav1.IsZero d = false) /\
  (Pod.iRestarts (Pod.printPod pod) = plain <-> ~ (n <> 0 /\ metav1.IsZero d = false)) /\
  (0 <= n ->
   (Pod.iRestarts (Pod.printPod pod) = ago <-> 0 < n /\ metav1.IsZero d = false)) /\
  (n = 0 -> Pod.iRestarts (Pod.printPod pod) = "0").
Proof.
  intros n d plain ago.
  assert (Hne : plain <> ago).
  { subst plain ago. apply append_longer. simpl. lia. }
  assert (Hcell : Pod.iRestarts (Pod.printPod pod)
                  = if negb (n =? 0) && negb (metav1.IsZero d) then ago else plain)
    by reflexivity.
  rewrite Hcell.
  destruct (Z.eqb_spec n 0) as [Hz|Hz], (metav1.IsZero d) eqn:Hd; simpl.
  all: split; [| split; [| split]].
  all: try (split; intros; try tauto; try congruence; try lia;
            try (exfalso; apply Hne; congruence);
            try (destruct_and?; first [lia | congruence])).
  all: try (intros ?; split; intros; try tauto; try congruence; try lia;
            try (exfalso; apply Hne; congruence);
            try (destruct_and?; first [lia | congruence]);
            try (split; [lia | reflexivity])).
  all: try (intros Hn; first [contradiction | rewrite Hn; reflexivity]).
  all: subst plain; rewrite Hz; reflexivity.
Qed.

(** ** The ReadyContainers cell *)

Lemma countInit_ready ics c v :
  Pod.readyContainers (Pod.countInit ics c v) = Pod.readyContainers v.
Proof.
  unfold Pod.countInit.
  destruct (Pod.isRestartableInitContainer _); reflexivity.
Qed.

Lemma initSwitch_ready ics n i c v :
  let r := Pod.readyContainers (fst (Pod.initSwitch ics n i c v)) in
  Pod.readyContainers v <= r <= Pod.readyContainers v + (if sidecarStatus ics c then 1 else 0).
Proof.
  unfold Pod.initSwitch, sidecarStatus.
  destruct (corev1.Terminated (corev1.State c)) as [t|].
  - destruct (corev1.ExitCode t =? 0); simpl.
    { destruct (Pod.isRestartableInitContainer _); lia. }
    destruct (Pod.isRestartableInitContainer _); simpl; [| lia].
    destruct (corev1.Started c) as [[|]|]; simpl; try lia.
    destruct (corev1.Ready c); simpl; lia.
  - destruct (Pod.isRestartableInitContainer _); simpl.
    + destruct (corev1.Started c) as [[|]|]; simpl.
      * destruct (corev1.Ready c); simpl; lia.
      * destruct (corev1.Waiting (corev1.State c)) as [w|]; simpl; [| lia].
        destruct (_ && _); simpl; lia.
      * destruct (corev1.Waiting (corev1.State c)) as [w|]; simpl; [| lia].
        destruct (_ && _); simpl; lia.
    + destruct (corev1.Waiting (corev1.State c)) as [w|]; simpl; [| lia].
      destruct (_ && _); simpl; lia.
Qed.

Lemma initLoop_ready ics n statuses : forall i v,
  let r := Pod.readyContainers (Pod.initLoop ics n i statuses v) in
  Pod.readyContainers v <= r
  <= Pod.readyContainers v + Go.len (List.filter (sidecarStatus ics) statuses).
Proof.
  unfold Go.len.
  induction statuses as [|c rest IH]; intros i v; simpl; [lia |].
  pose proof (initSwitch_ready ics n i c (Pod.countInit ics c v)) as Hs.
  rewrite countInit_ready in Hs. simpl in Hs.
  destruct (Pod.initSwitch ics n i c (Pod.countInit ics c v)) as [v' [|]]; simpl in *.
  - specialize (IH (i + 1) v'). simpl in IH.
    destruct (sidecarStatus ics c); simpl; lia.
  - destruct (sidecarStatus ics c); simpl; lia.
Qed.

Lemma containerStep_ready v c :
  let r := Pod.readyContainers (Pod.containerStep v c) in
  Pod.readyContainers v <= r
  <= Pod.readyContainers v + (if corev1.Ready c then 1 else 0).
Proof.
  unfold Pod.containerStep.
  destruct (corev1.Ready c);
    destruct (corev1.Waiting (corev1.State c)) as [[[|a r]]|];
    destruct (corev1.Terminated (corev1.State c)) as [t|]; simpl;
    repeat match goal with
           | |- context [if ?b then _ else _] => destruct b; simpl
           end; lia.
Qed.

Lemma fold_containerStep_ready statuses : forall v,
  let r := Pod.readyContainers (fold_left Pod.containerStep statuses v) in
  Pod.readyContainers v <= r
  <= Pod.readyContainers v + Go.len (List.filter corev1.Ready statuses).
Proof.
  unfold Go.len.
  induction statuses as [|c rest IH]; intros v; simpl; [lia |].
  specialize (IH (Pod.containerStep v c)). simpl in IH.
  pose proof (containerStep_ready v c) as Hs. simpl in Hs.
  destruct (corev1.Ready c); simpl; lia.
Qed.

Lemma filter_length_le {A} (f : A -> bool) (l : list A) :
  (length (List.filter f l) <= length l)%nat.
Proof. induction l as [|a l IH]; simpl; [lia | destruct (f a); simpl; lia]. Qed.

Lemma filter_none {A} (f : A -> bool) (l : list A) :
  (forall a, In a l -> f a = false) -> List.filter f l = [].
Proof.
  induction l as [|a l IH]; intros Hf; simpl; [reflexivity |].
  rewrite (Hf a) by (left; reflexivity). apply IH.
  intros b Hb. apply Hf. right. exact Hb.
Qed.

Lemma totalContainers_fold (inits : list corev1.Container) : forall total,
  fold_left
    (fun total c => if Pod.isRestartableInitContainer (Some c) then total + 1 else total)
    inits total
  = total + Go.len (filter (fun c => corev1.RestartPolicy c = Some "Always") inits).
Proof.
  unfold Go.len.
  induction inits as [|c rest IH]; intros total; simpl; [lia |].
  rewrite IH. rewrite filter_cons. unfold Pod.isRestartableInitContainer.
  destruct (corev1.RestartPolicy c) as [p|].
  - destruct (String.eqb_spec p corev1.ContainerRestartPolicyAlways) as [->|Hp].
    + rewrite decide_True by reflexivity. simpl. lia.
    + rewrite decide_False by (intros [= ?]; contradiction). lia.
  - rewrite decide_False by discriminate. lia.
Qed.

(** The denominator counts the declared containers and the declared init
    containers with restart policy Always. *)
Lemma totalContainers_spec (pod : corev1.Pod) :
  Pod.totalContainers pod
  = Go.len (corev1.Containers (corev1.Spec pod))
    + Go.len (filter (fun c => corev1.RestartPolicy c = Some "Always")
                (corev1.InitContainers (corev1.Spec pod))).
Proof. apply totalContainers_fold. Qed.

(** C7: the ReadyContainers cell is "<ready>/<total>" where the total is the
    number of declared containers plus the number of declared init
    containers with restart policy "Always"; a pod with one declared
    container, no init container and no container reported ready shows
    "0/1". *)
Theorem printPod_ready_total `{Clock} (pod : corev1.Pod) :
  let spec := corev1.Spec pod in
  Pod.iReadyContainers (Pod.printPod pod)
  = Go.Itoa (Pod.readyContainers (Pod.derived pod)) +:+ "/"
    +:+ Go.Itoa (Go.len (corev1.Containers spec)
                 + Go.len (filter (fun c => corev1.RestartPolicy c = Some "Always")
                             (corev1.InitContainers spec)))
  /\ (length (corev1.Containers spec) = 1%nat ->
      corev1.InitContainers spec = [] ->
      (forall s, In s (corev1.ContainerStatuses (corev1.Status_ pod)) ->
                 corev1.Ready s = false) ->
      Pod.iReadyContainers (Pod.printPod pod) = "0/1").
Proof.
  intros spec. subst spec. simpl. rewrite totalContainers_spec. split; [reflexivity |].
  intros Hone Hnone Hready.
  assert (Hr : Pod.readyContainers (Pod.derived pod) = 0).
  { assert (Hi : Pod.readyContainers (Pod.afterInit pod) = 0).
    { unfold Pod.afterInit.
      pose proof (initLoop_ready (Pod.initContainers pod)
                    (Go.len (corev1.InitContainers (corev1.Spec pod)))
                    (corev1.InitContainerStatuses (corev1.Status_ pod)) 0
                    (Pod.start pod)) as Hb.
      simpl in Hb. rewrite filter_none in Hb; [unfold Go.len in *; simpl in Hb; lia |].
      intros s _. unfold sidecarStatus, Pod.initContainers.
      rewrite Hnone. simpl. rewrite lookup_empty. reflexivity. }
    unfold Pod.derived. destruct (Pod.classifies pod); [| exact Hi].
    unfold Pod.backToRunning.
    assert (Hc : Pod.readyContainers (Pod.afterContainers pod) = 0).
    { unfold Pod.afterContainers, Pod.containerLoop.
      match goal with
      | |- Pod.readyContainers (fold_left _ ?l ?v) = 0 =>
          pose proof (fold_containerStep_ready l v) as Hb
      end.
      simpl in Hb. rewrite Hi in Hb.
      rewrite filter_none in Hb; [unfold Go.len in *; simpl in Hb; lia |].
      intros s Hs. apply Hready. apply in_rev. exact Hs. }
    destruct (_ && _); [destruct (Pod.hasPodReadyCondition _) |]; exact Hc. }
  rewrite Hr, Hnone. unfold Go.len. rewrite Hone. reflexivity.
Qed.

(** *** Ready never exceeds total *)

Arguments Pod.isRestartableInitContainer : simpl never.

Lemma sidecarName_ne m k c n :
  k <> n -> sidecarName (<[k := c]> m) n = sidecarName m n.
Proof. intros Hkn. unfold sidecarName. now rewrite lookup_insert_ne. Qed.

Lemma sidecarName_eq m k c :
  sidecarName (<[k := c]> m) k = Pod.isRestartableInitContainer (Some c).
Proof. unfold sidecarName. now rewrite lookup_insert_eq. Qed.

Lemma sidecarName_insert_other m k c names :
  ~ In k names ->
  List.filter (sidecarName (<[k := c]> m)) names = List.filter (sidecarName m) names.
Proof.
  induction names as [|n ns IH]; intros Hk; simpl; [reflexivity |].
  assert (k <> n) by (intros ->; apply Hk; left; reflexivity).
  rewrite sidecarName_ne by assumption.
  rewrite IH; [reflexivity |]. intros Hin. apply Hk. right. exact Hin.
Qed.

Lemma sidecarName_insert m k c names :
  NoDup names ->
  (length (List.filter (sidecarName (<[k := c]> m)) names)
   <= length (List.filter (sidecarName m) names)
      + (if Pod.isRestartableInitContainer (Some c) then 1 else 0))%nat.
Proof.
  pose proof (sidecarName_eq m k c) as Heq.
  remember (Pod.isRestartableInitContainer (Some c)) as b eqn:Hb. clear Hb.
  induction names as [|n ns IH]; intros Hnd; simpl; [lia |].
  apply NoDup_cons in Hnd as [Hn Hns].
  destruct (decide (k = n)) as [<-|Hkn].
  - rewrite sidecarName_insert_other by (rewrite <- list_elem_of_In; exact Hn).
    rewrite Heq. destruct b, (sidecarName m k); simpl; lia.
  - specialize (IH Hns). rewrite sidecarName_ne by assumption.
    destruct (sidecarName m n); simpl; lia.
Qed.

Lemma declared_sidecars (decl : list corev1.Container) : forall names,
  NoDup names ->
  (length (List.filter (sidecarName (declared decl)) names)
   <= length (List.filter (fun c => Pod.isRestartableInitContainer (Some c)) decl))%nat.
Proof.
  induction decl as [|c decl IH] using rev_ind; intros names Hnd.
  - unfold declared. simpl. rewrite filter_none; [simpl; lia |].
    intros n _. unfold sidecarName. rewrite lookup_empty. reflexivity.
  - unfold declared. rewrite fold_left_app. simpl. fold (declared decl).
    pose proof (sidecarName_insert (declared decl) (corev1.cName c) c names Hnd).
    specialize (IH names Hnd).
    rewrite List.filter_app, length_app.
    cbn [List.filter].
    destruct (Pod.isRestartableInitContainer (Some c)); cbn [length]; lia.
Qed.

Lemma sidecarStatus_names ics (statuses : list corev1.ContainerStatus) :
  length (List.filter (sidecarStatus ics) statuses)
  = length (List.filter (sidecarName ics) (map corev1.csName statuses)).
Proof.
  induction statuses as [|s rest IH]; simpl; [reflexivity |].
  change (sidecarName ics (corev1.csName s)) with (sidecarStatus ics s).
  destruct (sidecarStatus ics s); simpl; rewrite IH; reflexivity.
Qed.

Lemma totalContainers_sidecars (pod : corev1.Pod) :
  Pod.totalContainers pod
  = Go.len (corev1.Containers (corev1.Spec pod))
    + Go.len (List.filter (fun c => Pod.isRestartableInitContainer (Some c))
                (corev1.InitContainers (corev1.Spec pod))).
Proof.
  unfold Pod.totalContainers, Go.len.
  generalize (Z.of_nat (length (corev1.Containers (corev1.Spec pod)))).
  induction (corev1.InitContainers (corev1.Spec pod)) as [|c rest IH]; intros z; simpl.
  - lia.
  - rewrite IH. destruct (Pod.isRestartableInitContainer (Some c)); simpl; lia.
Qed.

(** C10: when the container statuses are at most as many as the declared
    containers, and the init container statuses have pairwise distinct
    names, each the name of a declared init container, the cell "r/t" has
    r <= t. *)
Theorem printPod_ready_le_total `{Clock} (pod : corev1.Pod) :
  let spec := corev1.Spec pod in
  let status := corev1.Status_ pod in
  (length (corev1.ContainerStatuses status) <= length (corev1.Containers spec))%nat ->
  NoDup (map corev1.csName (corev1.InitContainerStatuses status)) ->
  (forall s, In s (corev1.InitContainerStatuses status) ->
             exists c, In c (corev1.InitContainers spec)
                       /\ corev1.cName c = corev1.csName s) ->
  exists r t,
    Pod.iReadyContainers (Pod.printPod pod) = Go.Itoa r +:+ "/" +:+ Go.Itoa t
    /\ r = Pod.readyContainers (Pod.derived pod)
    /\ t = Pod.totalContainers pod
    /\ r <= t.
Proof.
  intros spec status Hlen Hnd _. subst spec status.
  exists (Pod.readyContainers (Pod.derived pod)), (Pod.totalContainers pod).
  repeat split.
  rewrite totalContainers_sidecars.
  assert (Hi : 0 <= Pod.readyContainers (Pod.afterInit pod)
               <= Go.len (List.filter (fun c => Pod.isRestartableInitContainer (Some c))
                            (corev1.InitContainers (corev1.Spec pod)))).
  { unfold Pod.afterInit.
    pose proof (initLoop_ready (Pod.initContainers pod)
                  (Go.len (corev1.InitContainers (corev1.Spec pod)))
                  (corev1.InitContainerStatuses (corev1.Status_ pod)) 0
                  (Pod.start pod)) as Hb.
    simpl in Hb.
    pose proof (declared_sidecars (corev1.InitContainers (corev1.Spec pod)) _ Hnd) as Hd.
    fold (Pod.initContainers pod) in Hd. unfold declared in Hd.
    fold (Pod.initContainers pod) in Hd.
    rewrite <- sidecarStatus_names in Hd.
    unfold Go.len in *. lia. }
  unfold Pod.derived. destruct (Pod.classifies pod).
  - assert (Hc : Pod.readyContainers (Pod.afterContainers pod)
                 <= Pod.readyContainers (Pod.afterInit pod)
                    + Go.len (corev1.ContainerStatuses (corev1.Status_ pod))).
    { unfold Pod.afterContainers, Pod.containerLoop.
      match goal with
      | |- Pod.readyContainers (fold_left _ ?l ?v) <= _ =>
          pose proof (fold_containerStep_ready l v) as Hb
      end.
      simpl in Hb.
      pose proof (filter_length_le corev1.Ready
                    (rev (corev1.ContainerStatuses (corev1.Status_ pod)))) as Hf.
      rewrite length_rev in Hf. unfold Go.len in *. lia. }
    assert (Hk : Pod.readyContainers (Pod.backToRunning pod (Pod.afterContainers pod))
                 = Pod.readyContainers (Pod.afterContainers pod)).
    { unfold Pod.backToRunning.
      destruct (_ && _); [destruct (Pod.hasPodReadyCondition _) |]; reflexivity. }
    rewrite Hk. unfold Go.len in *. lia.
  - unfold Go.len in *. lia.
Qed.

(** ** Init containers that wait with the placeholder reason *)

(** C1, as the code has it: a pod whose single init container status waits
    with reason "PodInitializing" and is not terminated is marked
    initializing, with the reason "Init:0/<declared init containers>": the
    placeholder is not shown, the position is. When its Initialized
    condition is not true and it has no deletion timestamp, that is the
    status shown. Only the status of a started init container with restart
    policy Always leaves the pod unmarked. *)
Theorem printPod_init_placeholder `{Clock} (pod : corev1.Pod) (s : corev1.ContainerStatus) :
  corev1.InitContainerStatuses (corev1.Status_ pod) = [s] ->
  corev1.Waiting (corev1.State s) = Some {| corev1.wReason := "PodInitializing" |} ->
  corev1.Terminated (corev1.State s) = None ->
  let shown :=
    "Init:0/" +:+ Go.Itoa (Go.len (corev1.InitContainers (corev1.Spec pod))) in
  Pod.initializing (Pod.afterInit pod) = negb (startedSidecar pod s)
  /\ (startedSidecar pod s = false ->
      Pod.reason (Pod.afterInit pod) = shown
      /\ (Pod.isPodInitializedConditionTrue
            (corev1.Conditions (corev1.Status_ pod)) = false ->
          corev1.DeletionTimestamp pod = None ->
          Pod.iStatus (Pod.printPod pod) = shown)).
Proof.
  intros Hs Hw Ht shown.
  assert (Ha : Pod.afterInit pod
               = if startedSidecar pod s
                 then fst (Pod.initSwitch (Pod.initContainers pod)
                             (Go.len (corev1.InitContainers (corev1.Spec pod))) 0 s
                             (Pod.countInit (Pod.initContainers pod) s (Pod.start pod)))
                 else Pod.set_initializing
                        (Pod.set_reason shown
                           (Pod.countInit (Pod.initContainers pod) s (Pod.start pod)))).
  { unfold Pod.afterInit. rewrite Hs. cbn [Pod.initLoop].
    unfold Pod.initSwitch, startedSidecar. rewrite Ht, Hw.
    destruct (Pod.isRestartableInitContainer _ && _); reflexivity. }
  assert (Hi : Pod.initializing (Pod.afterInit pod) = negb (startedSidecar pod s)).
  { rewrite Ha. destruct (startedSidecar pod s) eqn:Hside; [| reflexivity].
    unfold Pod.initSwitch. rewrite Ht. unfold startedSidecar in Hside. rewrite Hside.
    simpl. unfold Pod.countInit.
    destruct (corev1.Ready s), (Pod.isRestartableInitContainer _); reflexivity. }
  split; [exact Hi |].
  intros Hside. rewrite Hside in Ha, Hi. split; [rewrite Ha; reflexivity |].
  intros Hcond Hdel. simpl. unfold Pod.deletionReason. rewrite Hdel.
  unfold Pod.derived, Pod.classifies. rewrite Hi, Hcond. simpl.
  rewrite Ha. reflexivity.
Qed.

(** C1 fails as the specification words it: the pod [Sample.initWaiting] has
    one init container status, waiting with reason "PodInitializing" and
    not terminated, and is marked initializing, status "Init:0/1". *)
Lemma printPod_init_placeholder_marks :
  exists s,
    corev1.InitContainerStatuses (corev1.Status_ Sample.initWaiting) = [s]
    /\ corev1.Waiting (corev1.State s) = Some {| corev1.wReason := "PodInitializing" |}
    /\ corev1.Terminated (corev1.State s) = None
    /\ Pod.initializing (Pod.afterInit Sample.initWaiting) = true
    /\ Pod.iStatus (@Pod.printPod Sample.clock Sample.initWaiting) = "Init:0/1".
Proof. eexists. repeat split; vm_compute; reflexivity. Qed.

(** The sample pod is marked initializing and shows its position. *)
Lemma printPod_init_placeholder_witness :
  Pod.initializing (Pod.afterInit Sample.initWaiting) = true
  /\ Pod.iStatus (@Pod.printPod Sample.clock Sample.initWaiting) = "Init:0/1".
Proof.
  destruct (@printPod_init_placeholder Sample.clock Sample.initWaiting
              (Sample.status "setup" (Sample.waiting "PodInitializing")
                 Sample.noState false 0))
    as [Hi [_ Hs]]; try reflexivity.
  split; [exact Hi | apply Hs; reflexivity].
Defined.

(** ** Completed pods with a container that still runs *)

Lemma hasPodReadyCondition_spec (conditions : list corev1.PodCondition) :
  Pod.hasPodReadyCondition conditions = true
  <-> exists c, In c conditions /\ corev1.Type_ c = "Ready" /\ corev1.Status c = "True".
Proof.
  induction conditions as [|c rest IH]; simpl.
  - split; [discriminate | intros (c & [] & _)].
  - destruct (String.eqb_spec (corev1.Type_ c) corev1.PodReady) as [Ht|Ht];
      destruct (String.eqb_spec (corev1.Status c) corev1.ConditionTrue) as [Hs|Hs];
      simpl.
    1: split; [intros _; exists c; auto | reflexivity].
    all: rewrite IH; split;
      [ intros (c' & Hin & Hc); exists c'; auto
      | intros (c' & [<-|Hin] & Ht' & Hs');
        [ exfalso; auto | exists c'; auto ] ].
Qed.

Lemma containerStep_hasRunning v s :
  Pod.hasRunning v = true \/ readyAndRunning s ->
  Pod.hasRunning (Pod.containerStep v s) = true.
Proof.
  unfold Pod.containerStep, readyAndRunning.
  intros [Hv | (Hr & Hrun & Ht & Hw)].
  - destruct (corev1.Waiting (corev1.State s)) as [[[|a r]]|];
      destruct (corev1.Terminated (corev1.State s)) as [t|]; simpl;
      repeat match goal with
             | |- context [if ?b then _ else _] => destruct b; simpl
             end; first [assumption | reflexivity].
  - rewrite Ht, Hr.
    destruct (corev1.Running (corev1.State s)); [| congruence].
    destruct (corev1.Waiting (corev1.State s)) as [[[|a r]]|]; simpl;
      try reflexivity.
    specialize (Hw _ eq_refl). discriminate.
Qed.

Lemma fold_containerStep_hasRunning statuses : forall v,
  Pod.hasRunning v = true \/ (exists s, In s statuses /\ readyAndRunning s) ->
  Pod.hasRunning (fold_left Pod.containerStep statuses v) = true.
Proof.
  induction statuses as [|c rest IH]; intros v Hv; simpl.
  - destruct Hv as [Hv | (s & [] & _)]. exact Hv.
  - apply IH. destruct Hv as [Hv | (s & [<-|Hin] & Hs)].
    + left. apply containerStep_hasRunning. left. exact Hv.
    + left. apply containerStep_hasRunning. right. exact Hs.
    + right. exists s. split; assumption.
Qed.

(** C8: when the block with the loop over the container statuses runs, the
    loop ends with the reason "Completed" and one of the statuses is ready
    and running, the reason becomes "Running" if the pod has a Ready
    condition with status True and "NotReady" if it has none; without a
    deletion timestamp this is the status shown. *)
Theorem printPod_completed_running `{Clock} (pod : corev1.Pod) :
  Pod.classifies pod = true ->
  Pod.reason (Pod.afterContainers pod) = "Completed" ->
  (exists s, In s (corev1.ContainerStatuses (corev1.Status_ pod))
             /\ readyAndRunning s) ->
  (hasReadyCondition pod -> Pod.reason (Pod.derived pod) = "Running")
  /\ (~ hasReadyCondition pod -> Pod.reason (Pod.derived pod) = "NotReady")
  /\ (corev1.DeletionTimestamp pod = None ->
      Pod.iStatus (Pod.printPod pod) = Pod.reason (Pod.derived pod)).
Proof.
  intros Hclass Hreason (s & Hin & Hs).
  assert (Hrun : Pod.hasRunning (Pod.afterContainers pod) = true).
  { unfold Pod.afterContainers, Pod.containerLoop.
    apply fold_containerStep_hasRunning. right. exists s.
    split; [apply in_rev in Hin; exact Hin | exact Hs]. }
  assert (Hd : Pod.reason (Pod.derived pod)
               = if Pod.hasPodReadyCondition (corev1.Conditions (corev1.Status_ pod))
                 then "Running" else "NotReady").
  { unfold Pod.derived. rewrite Hclass. unfold Pod.backToRunning.
    rewrite Hreason, Hrun. simpl.
    destruct (Pod.hasPodReadyCondition _); reflexivity. }
  pose proof (hasPodReadyCondition_spec (corev1.Conditions (corev1.Status_ pod))) as Hc.
  fold (hasReadyCondition pod) in Hc.
  repeat split.
  - intros Hready. rewrite Hd. apply Hc in Hready. rewrite Hready. reflexivity.
  - intros Hnot. rewrite Hd.
    destruct (Pod.hasPodReadyCondition _); [| reflexivity].
    exfalso. apply Hnot, Hc. reflexivity.
  - intros Hdel. simpl. unfold Pod.deletionReason. rewrite Hdel. reflexivity.
Qed.

(** ** Column widths *)



Lemma Forall2_le_trans (a b c : list Z) :
  Forall2 Z.le a b -> Forall2 Z.le b c -> Forall2 Z.le a c.
Proof.
  intros Hab. revert c. induction Hab; intros c' Hbc; inversion Hbc; subst;
    constructor; [lia | auto].
Qed.

Lemma Forall2_le_refl (a : list Z) : Forall2 Z.le a a.
Proof. induction a; constructor; [lia | assumption]. Qed.

Lemma Forall2_fits_le (a b : list Z) (cells : list string) :
  Forall2 fits a cells -> Forall2 Z.le a b -> Forall2 fits b cells.
Proof.
  intros Hf. revert b. induction Hf; intros b' Hle; inversion Hle; subst;
    constructor; [unfold fits in *; lia | auto].
Qed.





Ltac invert_Forall2 :=
  repeat match goal with
         | H : Forall2 _ (_ :: _) (_ :: _) |- _ => inversion H; subst; clear H
         | H : Forall2 _ [] [] |- _ => clear H
         end.

(** *** The pad counts of the format strings *)

Lemma append_cons (x : ascii) (a b : string) : String x a +:+ b = String x (a +:+ b).
Proof. reflexivity. Qed.

Lemma append_assoc (a b c : string) : (a +:+ b) +:+ c = a +:+ (b +:+ c).
Proof.
  induction a as [|x a IH]; [reflexivity |].
  rewrite !append_cons. f_equal. exact IH.
Qed.

Lemma append_empty (a : string) : a +:+ EmptyString = a.
Proof.
  induction a as [|x a IH]; [reflexivity |].
  rewrite append_cons. f_equal. exact IH.
Qed.

(** In the digits of a pad count the scan runs to the verb's [s]. *)
Lemma padCountsFrom_count (str : string) : forall digits rest,
  occurs "s" str = false ->
  padCountsFrom (Count digits) (str +:+ String "s" rest)
  = number (digits +:+ str) :: padCountsFrom Text rest.
Proof.
  induction str as [|c str IH]; intros digits rest Hs.
  - rewrite append_empty. reflexivity.
  - cbn [occurs] in Hs. apply orb_false_iff in Hs as [Hc Hs].
    rewrite append_cons. cbn [padCountsFrom]. rewrite Hc.
    rewrite IH by exact Hs. rewrite append_assoc. reflexivity.
Qed.

Lemma uint_no_s (d : Decimal.uint) : occurs "s" (NilEmpty.string_of_uint d) = false.
Proof. induction d; simpl; auto. Qed.

Lemma Itoa_no_s (z : Z) : occurs "s" (Go.Itoa z) = false.
Proof.
  unfold Go.Itoa, NilZero.string_of_int, NilZero.string_of_uint.
  destruct (Z.to_int z) as [d|d]; destruct d; simpl; auto using uint_no_s.
Qed.

(** strconv.Itoa prints the number that its digits stand for. *)
Lemma number_Itoa (z : Z) : number (Go.Itoa z) = z.
Proof.
  unfold number, Go.Itoa.
  rewrite NilZero.isi.
  - apply DecimalZ.of_to.
  - destruct z; simpl; try discriminate.
    intros [= Hp]. exact (DecimalPos.Unsigned.to_uint_nonnil _ Hp).
  - destruct z; simpl; try discriminate.
    intros [= Hp]. exact (DecimalPos.Unsigned.to_uint_nonnil _ Hp).
Qed.

(** The verb [%-<n>s] at the head of a format string. *)
Lemma padCounts_verb (n : Z) (rest : string) :
  padCountsFrom Text ("%-" +:+ Go.Itoa n +:+ "s" +:+ rest)
  = n :: padCountsFrom Text rest.
Proof.
  change ("%-" +:+ Go.Itoa n +:+ "s" +:+ rest)
    with (String "%" (String "-" (Go.Itoa n +:+ String "s" rest))).
  cbn [padCountsFrom Ascii.eqb Bool.eqb].
  rewrite padCountsFrom_count by apply Itoa_no_s.
  change (EmptyString +:+ Go.Itoa n) with (Go.Itoa n).
  rewrite number_Itoa. reflexivity.
Qed.

(** The pad counts of the format string of the pod table are the five
    widths. *)
Lemma pod_padCounts (w : Pod.widths) : padCounts (Pod.formatStr w) = podWidths w.
Proof.
  unfold padCounts, Pod.formatStr, podWidths.
  repeat match goal with
         | |- context [?n +:+ "s%-" +:+ ?rest] =>
             change (n +:+ "s%-" +:+ rest) with (n +:+ "s" +:+ "%-" +:+ rest)
         end.
  rewrite !padCounts_verb. reflexivity.
Qed.





(** ** Failed writes *)

Section Writes.

Context `{io.Streams}.
Variables (writer : io.Writer) (fmt failed : string).
Hypothesis fmt_failed : String.eqb failed fmt = false.

Lemma writeUntilError_output (lines : list (list string)) : forall t,
  exists new,
    io.output (writeUntilError writer fmt failed lines) t = (t ++ new)%list
    /\ (exists k, tableWrites fmt new = map (lineWrite writer fmt) (take k lines))
    /\ (forall pre w post e,
          new = (pre ++ w :: post)%list ->
          io.format w = fmt ->
          io.failure (t ++ pre)%list w = Some e ->
          post = [report failed e])
    /\ ((forall pre w post,
           new = (pre ++ w :: post)%list -> io.failure (t ++ pre)%list w = None) ->
        tableWrites fmt new = map (lineWrite writer fmt) lines).
Proof.
  unfold io.output.
  induction lines as [|line rest IH]; intros t.
  - exists []. simpl. rewrite app_nil_r. repeat split.
    + exists 0%nat. reflexivity.
    + intros [|p pre] w post e Hnew; discriminate.
  - cbn [writeUntilError]. unfold io.bind, io.Fprintf, io.Printf, io.ret.
    fold (lineWrite writer fmt line).
    destruct (io.failure t (lineWrite writer fmt line)) as [e'|] eqn:Hfail.
    + exists [lineWrite writer fmt line; report failed e']. simpl.
      rewrite <- app_assoc. repeat split.
      * exists 1%nat. unfold tableWrites. simpl.
        rewrite String.eqb_refl, fmt_failed. destruct rest; reflexivity.
      * intros [|p [|p' pre]] w post e Hnew Hw He; simpl in Hnew.
        -- injection Hnew as <- <-. rewrite app_nil_r in He. congruence.
        -- injection Hnew as <- <- <-. simpl in Hw. rewrite <- Hw in fmt_failed.
           rewrite String.eqb_refl in fmt_failed. discriminate.
        -- injection Hnew as _ _ Hnil. destruct pre; discriminate.
      * intros Hok. specialize (Hok [] _ _ eq_refl).
        rewrite app_nil_r in Hok. congruence.
    + destruct (IH (t ++ [lineWrite writer fmt line])%list)
        as (new & Hout & [k Hk] & Hstop & Hall).
      exists (lineWrite writer fmt line :: new).
      rewrite Hout, <- app_assoc. repeat split.
      * exists (S k). unfold tableWrites in *. simpl.
        rewrite String.eqb_refl. rewrite Hk. reflexivity.
      * intros [|p pre] w post e Hnew Hw He; simpl in Hnew.
        -- injection Hnew as <- <-. rewrite app_nil_r in He. congruence.
        -- injection Hnew as <- ->. apply (Hstop pre w post e).
           ++ reflexivity.
           ++ exact Hw.
           ++ rewrite <- app_assoc. exact He.
      * intros Hok. unfold tableWrites in *. simpl.
        rewrite String.eqb_refl. f_equal. apply Hall.
        intros pre w post ->. rewrite <- app_assoc.
        apply (Hok (lineWrite writer fmt line :: pre) w post). reflexivity.
Qed.

Lemma writeAll_output (lines : list (list string)) : forall t,
  exists new,
    io.output (writeAll writer fmt failed lines) t = (t ++ new)%list
    /\ tableWrites fmt new = map (lineWrite writer fmt) lines
    /\ (forall pre w post e,
          new = (pre ++ w :: post)%list ->
          io.format w = fmt ->
          io.failure (t ++ pre)%list w = Some e ->
          exists post', post = report failed e :: post').
Proof.
  unfold io.output.
  induction lines as [|line rest IH]; intros t.
  - exists []. simpl. rewrite app_nil_r. repeat split.
    intros [|p pre] w post e Hnew; discriminate.
  - cbn [writeAll]. unfold io.bind, io.Fprintf, io.Printf, io.ret.
    fold (lineWrite writer fmt line).
    destruct (io.failure t (lineWrite writer fmt line)) as [e'|] eqn:Hfail.
    + destruct (IH ((t ++ [lineWrite writer fmt line]) ++ [report failed e'])%list)
        as (new & Hout & Hk & Hrep).
      exists (lineWrite writer fmt line :: report failed e' :: new).
      cbv [io.bind io.Fprintf io.Printf io.ret]. fold (report failed e').
      rewrite Hout, <- !app_assoc. repeat split.
      * unfold tableWrites in *. simpl.
        rewrite String.eqb_refl, fmt_failed, Hk. reflexivity.
      * intros [|p [|p' pre]] w post e Hnew Hw He; simpl in Hnew.
        -- injection Hnew as <- <-. rewrite app_nil_r in He.
           exists new. congruence.
        -- injection Hnew as <- <- _. simpl in Hw. rewrite <- Hw in fmt_failed.
           rewrite String.eqb_refl in fmt_failed. discriminate.
        -- injection Hnew as <- <- ->. apply (Hrep pre w post e); auto.
           rewrite <- !app_assoc. exact He.
    + destruct (IH (t ++ [lineWrite writer fmt line])%list) as (new & Hout & Hk & Hrep).
      exists (lineWrite writer fmt line :: new).
      rewrite Hout, <- app_assoc. repeat split.
      * unfold tableWrites in *. simpl. rewrite String.eqb_refl, Hk. reflexivity.
      * intros [|p pre] w post e Hnew Hw He; simpl in Hnew.
        -- injection Hnew as <- <-. rewrite app_nil_r in He. congruence.
        -- injection Hnew as <- ->. apply (Hrep pre w post e); auto.
           rewrite <- app_assoc. exact He.
Qed.

End Writes.

Lemma pod_printRows_until `{io.Streams} writer fmt (infoList : list Pod.PodInfo) : forall t,
  Pod.printRows writer fmt infoList t
  = writeUntilError writer fmt Pod.failedToPrint (map Pod.rowLine infoList) t.
Proof.
  induction infoList as [|info rest IH]; intros t; [reflexivity |].
  cbn [Pod.printRows writeUntilError map]. unfold io.bind, io.Fprintf.
  destruct (io.failure t _); [reflexivity | apply IH].
Qed.

Lemma pod_PrintPods_until `{Clock} `{io.Streams} pods writer t :
  let infoList := map Pod.printPod pods in
  Pod.PrintPods pods writer t
  = writeUntilError writer (Pod.formatStr (Pod.columnWidths infoList))
      Pod.failedToPrint (Pod.headerLine :: map Pod.rowLine infoList) t.
Proof.
  intros infoList. unfold Pod.PrintPods. fold infoList.
  cbn [writeUntilError]. unfold io.bind, io.Fprintf.
  destruct (io.failure t _); [reflexivity | apply pod_printRows_until].
Qed.

Lemma jobflow_printRows_all `{Clock} `{io.Streams} writer fmt
    (jobFlows : list flowv1alpha1.JobFlow) : forall t,
  JobFlow.printRows writer fmt jobFlows t
  = writeAll writer fmt JobFlow.failedToPrint (map JobFlow.rowLine jobFlows) t.
Proof.
  induction jobFlows as [|j rest IH]; intros t; [reflexivity |].
  cbn [JobFlow.printRows writeAll map]. unfold JobFlow.printLine, io.bind.
  destruct (io.Fprintf writer fmt (JobFlow.rowLine j) t) as [[e|] t'].
  - destruct (io.Printf JobFlow.failedToPrint [e] t'). apply IH.
  - simpl. apply IH.
Qed.

Lemma jobflow_PrintJobFlows_all `{Clock} `{io.Streams} jobFlows writer t :
  JobFlow.PrintJobFlows jobFlows writer t
  = writeAll writer (JobFlow.formatStr (JobFlow.columnWidths jobFlows))
      JobFlow.failedToPrint (JobFlow.headerLine :: map JobFlow.rowLine jobFlows) t.
Proof.
  unfold JobFlow.PrintJobFlows.
  cbn [writeAll]. unfold JobFlow.printLine, io.bind.
  destruct (io.Fprintf writer _ JobFlow.headerLine t) as [[e|] t'].
  - destruct (io.Printf JobFlow.failedToPrint [e] t'). apply jobflow_printRows_all.
  - simpl. apply jobflow_printRows_all.
Qed.

Lemma pod_format_not_report w : String.eqb Pod.failedToPrint (Pod.formatStr w) = false.
Proof. reflexivity. Qed.

Lemma jobflow_format_not_report w :
  String.eqb JobFlow.failedToPrint (JobFlow.formatStr w) = false.
Proof. destruct w as [[[a b] c] d]. reflexivity. Qed.

(** C3, as the code has it. PrintJobFlows attempts the header line and
    every row line whatever fails, and each failed line is followed by its
    report on standard output. PrintPods attempts the lines in order, all
    of them when no write fails, and a failed line is followed by its
    report and by nothing else: the lines after it are not attempted. *)
Theorem table_write_errors `{Clock} `{io.Streams} :
  (forall (jobFlows : list flowv1alpha1.JobFlow) (writer : io.Writer) (t : list io.write),
     let fmt := JobFlow.formatStr (JobFlow.columnWidths jobFlows) in
     exists new,
       io.output (JobFlow.PrintJobFlows jobFlows writer) t = (t ++ new)%list
       /\ tableWrites fmt new
          = map (lineWrite writer fmt)
              (JobFlow.headerLine :: map JobFlow.rowLine jobFlows)
       /\ (forall pre w post e,
             new = (pre ++ w :: post)%list ->
             io.format w = fmt ->
             io.failure (t ++ pre)%list w = Some e ->
             exists post', post = report JobFlow.failedToPrint e :: post'))
  /\ (forall (pods : list corev1.Pod) (writer : io.Writer) (t : list io.write),
        let lines := Pod.headerLine :: map Pod.rowLine (map Pod.printPod pods) in
        let fmt := Pod.formatStr (Pod.columnWidths (map Pod.printPod pods)) in
        exists new,
          io.output (Pod.PrintPods pods writer) t = (t ++ new)%list
          /\ (exists k, tableWrites fmt new = map (lineWrite writer fmt) (take k lines))
          /\ (forall pre w post e,
                new = (pre ++ w :: post)%list ->
                io.format w = fmt ->
                io.failure (t ++ pre)%list w = Some e ->
                post = [report Pod.failedToPrint e])
          /\ ((forall pre w post,
                 new = (pre ++ w :: post)%list ->
                 io.failure (t ++ pre)%list w = None) ->
              tableWrites fmt new = map (lineWrite writer fmt) lines)).
Proof.
  split.
  - intros jobFlows writer t fmt. unfold io.output.
    rewrite jobflow_PrintJobFlows_all.
    apply (writeAll_output writer fmt JobFlow.failedToPrint
             (jobflow_format_not_report _)).
  - intros pods writer t lines fmt. unfold io.output.
    rewrite pod_PrintPods_until.
    apply (writeUntilError_output writer fmt Pod.failedToPrint
             (pod_format_not_report _)).
Qed.

(** ** The label selector *)

Lemma matches_jobIs ls j : labels.matches ls (jobIs j) = true <-> ls !! JobNameKey = Some j.
Proof.
  unfold labels.matches. simpl.
  destruct (ls !! JobNameKey) as [v|]; simpl; [| split; discriminate].
  rewrite orb_false_r, String.eqb_eq. split; congruence.
Qed.

Lemma matches_queueIs ls q :
  labels.matches ls (queueIs q) = true <-> ls !! QueueNameKey = Some q.
Proof.
  unfold labels.matches. simpl.
  destruct (ls !! QueueNameKey) as [v|]; simpl; [| split; discriminate].
  rewrite orb_false_r, String.eqb_eq. split; congruence.
Qed.

Lemma matches_hasJob ls : labels.matches ls hasJob = true <-> is_Some (ls !! JobNameKey).
Proof. unfold labels.matches. simpl. apply bool_decide_eq_true. Qed.

(** C9: createLabelSelector returns no selector but the one with the
    requested requirements: the job name label equal to jobName when
    jobName is not empty, the queue name label equal to queueName when
    queueName is not empty, both when both are given, and the presence of
    the job name label when both are empty. It returns that selector
    whenever NewRequirement accepts these requirements. *)
Theorem createLabelSelector_requested `{labels.Validation} (jobName queueName : string) :
  (forall selector,
     Pod.createLabelSelector jobName queueName = inl selector ->
     selector = requested jobName queueName)
  /\ ((forall r, In r (requested jobName queueName) ->
         labels.refused (labels.key r) (labels.operator r) (labels.strValues r) = None) ->
      Pod.createLabelSelector jobName queueName = inl (requested jobName queueName))
  /\ (forall ls : gmap string string,
        labels.Matches (requested jobName queueName) ls = true
        <-> (jobName <> EmptyString -> ls !! JobNameKey = Some jobName)
            /\ (queueName <> EmptyString -> ls !! QueueNameKey = Some queueName)
            /\ (jobName = EmptyString -> queueName = EmptyString ->
                is_Some (ls !! JobNameKey))).
Proof.
  split; [| split].
  - intros selector. unfold Pod.createLabelSelector, labels.NewRequirement.
    destruct jobName as [|a j], queueName as [|b q]; simpl;
      repeat match goal with
             | |- context [labels.refused ?k ?o ?v] => destruct (labels.refused k o v)
             end; intros [= <-] || discriminate; reflexivity.
  - intros Hok. unfold Pod.createLabelSelector, labels.NewRequirement.
    destruct jobName as [|a j], queueName as [|b q]; simpl in *.
    + pose proof (Hok hasJob (or_introl eq_refl)) as H1. simpl in H1.
      rewrite H1. reflexivity.
    + pose proof (Hok (queueIs (String b q)) (or_introl eq_refl)) as H1. simpl in H1.
      rewrite H1. reflexivity.
    + pose proof (Hok (jobIs (String a j)) (or_introl eq_refl)) as H1. simpl in H1.
      rewrite H1. reflexivity.
    + pose proof (Hok (jobIs (String a j)) (or_introl eq_refl)) as H1.
      pose proof (Hok (queueIs (String b q)) (or_intror (or_introl eq_refl))) as H2.
      simpl in H1, H2. rewrite H1, H2. reflexivity.
  - intros ls.
    destruct jobName as [|a j], queueName as [|b q]; unfold labels.Matches; simpl;
      rewrite ?andb_true_r, ?andb_true_iff,
        ?matches_jobIs, ?matches_queueIs, ?matches_hasJob.
    + split; [intros Hs; repeat split; intros; congruence || exact Hs |].
      intros (_ & _ & Hn). apply Hn; reflexivity.
    + split; [intros Hs; repeat split; intros; congruence || exact Hs |].
      intros (_ & Hq & _). apply Hq. discriminate.
    + split; [intros Hs; repeat split; intros; congruence || exact Hs |].
      intros (Hj & _ & _). apply Hj. discriminate.
    + split; [intros [Hs Hs']; repeat split; intros; congruence || assumption |].
      intros (Hj & Hq & _). split; [apply Hj | apply Hq]; discriminate.
Qed.

(** ** Empty results *)

(** C5: when the cluster answers with no item (for the earlier pod command:
    with no item that passes the filter), the list commands write the one
    line "No resources found" to standard output, nothing else, and return
    no error. *)
Theorem list_nothing_found `{Clock} `{io.Streams} `{labels.Validation} :
  (forall Config (cluster : Cluster Config corev1.Pod) (flags : Pod.listFlags)
          (t : list io.write) config selector,
     BuildConfig (Master (Pod.Common flags)) (Kubeconfig (Pod.Common flags))
       = inl config ->
     Pod.createLabelSelector (Pod.JobName flags) (Pod.QueueName flags) = inl selector ->
     List config (askedNamespace (Pod.allNamespace flags) (Pod.Namespace flags))
       (Some selector) = inl [] ->
     io.output (Pod.ListPods flags) t = (t ++ [noResourcesFound])%list
     /\ snd (io.result (Pod.ListPods flags) t) = None)
  /\ (forall Config (cluster : Cluster Config flowv1alpha1.JobFlow)
             (flags : JobFlow.listFlags) (t : list io.write) config,
        BuildConfig (Master (JobFlow.Common flags)) (Kubeconfig (JobFlow.Common flags))
          = inl config ->
        List config (JobFlow.fNamespace flags) None = inl [] ->
        io.output (JobFlow.ListJobFlow flags) t = (t ++ [noResourcesFound])%list
        /\ io.result (JobFlow.ListJobFlow flags) t = None)
  /\ (forall Config (cluster : Cluster Config corev1.Pod) (flags : Legacy.listFlags)
             (t : list io.write) config selector pods,
        BuildConfig (Master (Legacy.Common flags)) (Kubeconfig (Legacy.Common flags))
          = inl config ->
        Legacy.createLabelSelector (Legacy.JobName flags) = inl selector ->
        List config (askedNamespace (Legacy.allNamespace flags) (Legacy.Namespace flags))
          (Some selector) = inl pods ->
        Legacy.filterPods pods
          (Legacy.filterFunc
             {| Legacy.Common := Legacy.Common flags;
                Legacy.Namespace :=
                  askedNamespace (Legacy.allNamespace flags) (Legacy.Namespace flags);
                Legacy.JobName := Legacy.JobName flags;
                Legacy.allNamespace := Legacy.allNamespace flags |}) = [] ->
        io.output (Legacy.ListPods flags) t = (t ++ [noResourcesFound])%list
        /\ snd (io.result (Legacy.ListPods flags) t) = None).
Proof.
  unfold io.output, io.result, askedNamespace.
  split; [| split]; intros Config cluster flags t config.
  - intros selector Hconfig Hsel Hlist. unfold Pod.ListPods. rewrite Hconfig.
    destruct flags as [common ns job [|] queue]; simpl in *;
      rewrite Hsel, Hlist; split; reflexivity.
  - intros Hconfig Hlist. unfold JobFlow.ListJobFlow. rewrite Hconfig, Hlist.
    split; reflexivity.
  - intros selector pods Hconfig Hsel Hlist Hfilter. unfold Legacy.ListPods.
    rewrite Hconfig.
    destruct flags as [common ns job [|]]; simpl in *;
      rewrite Hsel, Hlist, Hfilter; split; reflexivity.
Qed.

(** ** The earlier revision *)

(** X3: in the earlier revision the selector asks for the job name label equal
    to jobName, or for its presence when jobName is empty. *)
Theorem legacy_createLabelSelector `{labels.Validation} (jobName : string) :
  let wanted := if Go.nonempty jobName then [jobIs jobName] else [hasJob] in
  (forall selector,
     Legacy.createLabelSelector jobName = inl selector -> selector = wanted)
  /\ ((forall r, In r wanted ->
         labels.refused (labels.key r) (labels.operator r) (labels.strValues r) = None) ->
      Legacy.createLabelSelector jobName = inl wanted).
Proof.
  unfold Legacy.createLabelSelector, labels.NewRequirement.
  destruct jobName as [|a j]; simpl; split.
  - intros selector. destruct (labels.refused _ _ _); intros [= <-]. reflexivity.
  - intros Hok. pose proof (Hok hasJob (or_introl eq_refl)) as H1. simpl in H1.
    rewrite H1. reflexivity.
  - intros selector. destruct (labels.refused _ _ _); intros [= <-]. reflexivity.
  - intros Hok. pose proof (Hok (jobIs (String a j)) (or_introl eq_refl)) as H1.
    simpl in H1. rewrite H1. reflexivity.
Qed.

(** X4: filterPods keeps, in order, the pods that pass the filter. *)
Theorem legacy_filterPods (pods : list corev1.Pod) (filterFunc : corev1.Pod -> bool) :
  Legacy.filterPods pods filterFunc = List.filter filterFunc pods.
Proof.
  unfold Legacy.filterPods.
  assert (Hgen : forall acc,
            fold_left
              (fun items pod => if filterFunc pod then (items ++ [pod])%list else items)
              pods acc
            = (acc ++ List.filter filterFunc pods)%list).
  { induction pods as [|p rest IH]; intros acc; simpl.
    - now rewrite app_nil_r.
    - rewrite IH. destruct (filterFunc p); [| reflexivity].
      now rewrite <- app_assoc. }
  apply (Hgen []).
Qed.

(** * The theorems at sample objects *)

(** A running pod under deletion shows Terminating. *)
Lemma printPod_deleted_witness :
  corev1.DeletionTimestamp Sample.deletedPod <> None
  /\ Pod.iStatus (@Pod.printPod Sample.clock Sample.deletedPod) = "Terminating".
Proof.
  assert (Hdel : corev1.DeletionTimestamp Sample.deletedPod <> None) by discriminate.
  split; [exact Hdel |].
  destruct (@printPod_deleted Sample.clock Sample.deletedPod Hdel) as [_ Hother].
  apply Hother; [discriminate | intros [Hp|Hp]; discriminate].
Defined.

(** Two restarts, the last one 100 seconds ago; and no restart. *)
Lemma printPod_restarts_witness :
  Pod.iRestarts (@Pod.printPod Sample.clock Sample.restartedPod) = "2 (100s ago)"
  /\ Pod.iRestarts (@Pod.printPod Sample.clock Sample.myPod) = "0".
Proof.
  split.
  - destruct (@printPod_restarts Sample.clock Sample.restartedPod) as (_ & _ & Hago & _).
    apply Hago; [vm_compute; discriminate |]. split; reflexivity.
  - destruct (@printPod_restarts Sample.clock Sample.myPod) as (_ & _ & _ & Hzero).
    apply Hzero. reflexivity.
Defined.

(** C4 fails as the specification words it: the restart count of
    [Sample.negativeRestarts] is -1, which is not greater than 0, and its
    Restarts cell carries the suffix. *)
Lemma printPod_restarts_negative :
  Pod.restarts (Pod.derived Sample.negativeRestarts) = -1
  /\ Pod.lastRestartDate (Pod.derived Sample.negativeRestarts) = 1200
  /\ Pod.iRestarts (@Pod.printPod Sample.clock Sample.negativeRestarts)
     = "-1 (100s ago)".
Proof. repeat split. Qed.

(** The pod of the test, and a pod with a started sidecar. *)
Lemma printPod_ready_total_witness :
  Pod.iReadyContainers (@Pod.printPod Sample.clock Sample.myPod) = "0/1"
  /\ Pod.iReadyContainers (@Pod.printPod Sample.clock Sample.sidecarPod) = "2/2".
Proof.
  split.
  - apply (proj2 (@printPod_ready_total Sample.clock Sample.myPod));
      [reflexivity | reflexivity | intros s []].
  - exact (proj1 (@printPod_ready_total Sample.clock Sample.sidecarPod)).
Defined.

(** A started sidecar and a running container: 2/2. *)
Lemma printPod_ready_le_total_witness :
  exists r t,
    Pod.iReadyContainers (@Pod.printPod Sample.clock Sample.sidecarPod)
    = Go.Itoa r +:+ "/" +:+ Go.Itoa t
    /\ r = 2 /\ t = 2 /\ r <= t.
Proof.
  destruct (@printPod_ready_le_total Sample.clock Sample.sidecarPod)
    as (r & t & Hcell & Hr & Ht & Hle).
  - simpl. lia.
  - simpl. apply NoDup_singleton.
  - intros s [<-|[]]. exists (Sample.sidecar "log").
    split; [left; reflexivity | reflexivity].
  - exists r, t. repeat split; [exact Hcell | rewrite Hr | rewrite Ht | exact Hle];
      reflexivity.
Defined.

(** A completed container next to a running one, in a ready pod. *)
Lemma printPod_completed_running_witness :
  Pod.reason (Pod.afterContainers Sample.completedPod) = "Completed"
  /\ Pod.reason (Pod.derived Sample.completedPod) = "Running"
  /\ Pod.iStatus (@Pod.printPod Sample.clock Sample.completedPod) = "Running".
Proof.
  assert (Hc : Pod.reason (Pod.afterContainers Sample.completedPod) = "Completed")
    by reflexivity.
  destruct (@printPod_completed_running Sample.clock Sample.completedPod)
    as (Hready & _ & Hshown).
  - reflexivity.
  - exact Hc.
  - exists (Sample.status "proxy" Sample.running Sample.noState true 0).
    split; [right; left; reflexivity |].
    repeat split; discriminate.
  - assert (Hr : Pod.reason (Pod.derived Sample.completedPod) = "Running").
    { apply Hready. exists (Sample.condition corev1.PodReady corev1.ConditionTrue).
      repeat split. left. reflexivity. }
    split; [exact Hc | split; [exact Hr |]].
    rewrite (Hshown eq_refl). exact Hr.
Defined.

(** Both flags given, and none. *)
Lemma createLabelSelector_requested_witness :
  @Pod.createLabelSelector Sample.acceptAll "my-job" "q1"
  = inl [jobIs "my-job"; queueIs "q1"]
  /\ @Pod.createLabelSelector Sample.acceptAll EmptyString EmptyString = inl [hasJob].
Proof.
  split.
  - apply (proj1 (proj2 (@createLabelSelector_requested Sample.acceptAll "my-job" "q1"))).
    intros r _. reflexivity.
  - apply (proj1 (proj2 (@createLabelSelector_requested Sample.acceptAll
                           EmptyString EmptyString))).
    intros r _. reflexivity.
Defined.

(** Empty clusters, and a cluster whose only pod the filter drops. *)
Lemma list_nothing_found_witness :
  io.output (@Pod.ListPods Sample.clock Sample.sound Sample.acceptAll unit
               (Sample.emptyCluster corev1.Pod) Sample.podFlags) []
  = [noResourcesFound]
  /\ io.output (@JobFlow.ListJobFlow Sample.clock Sample.sound unit
                  (Sample.emptyCluster flowv1alpha1.JobFlow) Sample.jobFlowFlags) []
     = [noResourcesFound]
  /\ io.output (@Legacy.ListPods Sample.clock Sample.sound Sample.acceptAll unit
                  Sample.kubeSystemCluster Sample.legacyFlags) []
     = [noResourcesFound].
Proof.
  destruct (@list_nothing_found Sample.clock Sample.sound Sample.acceptAll)
    as (Hpod & Hflow & Hold).
  split; [| split].
  - apply (Hpod unit (Sample.emptyCluster corev1.Pod) Sample.podFlags [] tt
             [jobIs "my-job"; queueIs "q1"]); reflexivity.
  - apply (Hflow unit (Sample.emptyCluster flowv1alpha1.JobFlow)
             Sample.jobFlowFlags [] tt); reflexivity.
  - apply (Hold unit Sample.kubeSystemCluster Sample.legacyFlags [] tt [hasJob]
             [Sample.otherNamespace]); reflexivity.
Defined.

(** C3 fails for PrintPods as the specification words it: on streams
    whose second write fails, the table of two pods ends after the row of
    the first pod and the report of the failure; the row of the second pod
    is never written. *)
Lemma PrintPods_stops_at_failed_write :
  map io.args
    (io.output (@Pod.PrintPods Sample.clock Sample.brokenPipe Sample.twoPods
                  (io.Stream 0)) [])
  = [ ["Name"; "Ready"; "Status"; "Restart"; "Age"];
      ["pod-a"; "0/1"; "Running"; "0"; "300s"];
      ["broken pipe"] ]
  /\ @io.failure Sample.brokenPipe
       [lineWrite (io.Stream 0) ("%-13s%-11s%-15s%-9s%-12s" +:+ Go.nl)
          ["Name"; "Ready"; "Status"; "Restart"; "Age"]]
       (lineWrite (io.Stream 0) ("%-13s%-11s%-15s%-9s%-12s" +:+ Go.nl)
          ["pod-a"; "0/1"; "Running"; "0"; "300s"])
     = Some "broken pipe"
  /\ ~ In (Pod.rowLine (@Pod.printPod Sample.clock
                          (Sample.pod "pod-b" corev1.PodRunning []
                             [Sample.container "main"] [] [] [])))
         (map io.args
            (io.output (@Pod.PrintPods Sample.clock Sample.brokenPipe Sample.twoPods
                          (io.Stream 0)) [])).
Proof.
  split; [vm_compute; reflexivity |]. split; [reflexivity |].
  vm_compute. intros [H|[H|[H|[]]]]; discriminate.
Qed.

(** A failing second write: the jobflow table goes on, the pod table ends. *)
Lemma table_write_errors_witness :
  map io.args
    (tableWrites
       (JobFlow.formatStr (@JobFlow.columnWidths Sample.clock Sample.jobFlows))
       (io.output (@JobFlow.PrintJobFlows Sample.clock Sample.brokenPipe
                     Sample.jobFlows (io.Stream 0)) []))
  = [ ["Name"; "Namespace"; "Phase"; "Age"];
      ["flow-a"; "default"; "Succeed"; "300s"];
      ["flow-b"; "default"; "Running"; "<unknown>"] ]
  /\ exists pre w e,
       io.output (@Pod.PrintPods Sample.clock Sample.brokenPipe Sample.twoPods
                    (io.Stream 0)) []
       = (pre ++ [w; report Pod.failedToPrint e])%list
       /\ @io.failure Sample.brokenPipe pre w = Some e.
Proof.
  destruct (@table_write_errors Sample.clock Sample.brokenPipe) as [Hflows Hpods].
  split.
  - destruct (Hflows Sample.jobFlows (io.Stream 0) []) as (new & Hout & Hlines & _).
    simpl in Hout. rewrite Hout, Hlines. reflexivity.
  - destruct (Hpods Sample.twoPods (io.Stream 0) []) as (new & Hout & _ & Hstop & _).
    simpl in Hout.
    set (fmt := Pod.formatStr (Pod.columnWidths (map (@Pod.printPod Sample.clock)
                                                    Sample.twoPods))) in *.
    set (w := lineWrite (io.Stream 0) fmt
                (Pod.rowLine (@Pod.printPod Sample.clock
                                (Sample.pod "pod-a" corev1.PodRunning []
                                   [Sample.container "main"] [] [] [])))).
    exists [lineWrite (io.Stream 0) fmt Pod.headerLine], w, "broken pipe".
    assert (Hnew : new = ([lineWrite (io.Stream 0) fmt Pod.headerLine]
                          ++ w :: drop 2 new)%list).
    { rewrite <- Hout. vm_compute. reflexivity. }
    pose proof (Hstop _ w _ "broken pipe" Hnew eq_refl eq_refl) as Hpost.
    split; [| reflexivity].
    rewrite Hout, Hnew, Hpost. reflexivity.
Defined.



(** The earlier selector for a job name. *)
Lemma legacy_createLabelSelector_witness :
  @Legacy.createLabelSelector Sample.acceptAll "my-job" = inl [jobIs "my-job"].
Proof.
  apply (proj2 (@legacy_createLabelSelector Sample.acceptAll "my-job")).
  intros r _. reflexivity.
Defined.

(** ** The revisions side by side, and the test table *)

(** A succeeded pod under deletion keeps "Completed" in the current
    revision. *)
Example deleted_succeeded_keeps_reason :
  Pod.iStatus (@Pod.printPod Sample.clock Sample.deletedSucceeded) = "Completed".
Proof. reflexivity. Qed.

(** No restart but a known last termination: "0" in the current revision,
    "0 (100s ago)" in the earlier one. *)
Example zero_restarts_with_last_termination :
  Pod.iRestarts (@Pod.printPod Sample.clock Sample.terminatedOnce) = "0"
  /\ Legacy.iRestarts (fst (@Legacy.printPod Sample.clock Sample.terminatedOnce))
     = "0 (100s ago)".
Proof. split; reflexivity. Qed.

(** The restart of a completed init container: the earlier revision drops
    the count and keeps the date. *)
Example init_restart_then_running :
  Pod.iRestarts (@Pod.printPod Sample.clock Sample.initRestarted) = "0"
  /\ Legacy.iRestarts (fst (@Legacy.printPod Sample.clock Sample.initRestarted))
     = "0 (200s ago)".
Proof. split; reflexivity. Qed.

(** The earlier revision treats the placeholder reason the same way. *)
Example legacy_init_placeholder :
  Legacy.iReason (fst (@Legacy.printPod Sample.clock Sample.initWaiting)) = "Init:0/1".
Proof. reflexivity. Qed.

(** The earlier PrintPods ends at the first failed write as well. *)
Example legacy_PrintPods_stops_at_failed_write :
  map io.args
    (io.output (@Legacy.PrintPods Sample.clock Sample.brokenPipe Sample.twoPods
                  (io.Stream 0)) [])
  = [ ["Name"; "Ready"; "Status"; "Restart"; "Age"];
      ["pod-a"; "0/1"; "Running"; "0"; "300s"];
      ["broken pipe"] ].
Proof. vm_compute. reflexivity. Qed.

(** The table of the test "Normal Case": the format string pads to the
    widths of the expected header line, and the row is the expected row. *)
Example test_normal_case :
  io.output (@Pod.PrintPods Sample.justNow Sample.sound [Sample.myPod] io.Stdout) []
  = [ lineWrite io.Stdout ("%-14s%-11s%-15s%-9s%-10s" +:+ Go.nl)
        ["Name"; "Ready"; "Status"; "Restart"; "Age"];
      lineWrite io.Stdout ("%-14s%-11s%-15s%-9s%-10s" +:+ Go.nl)
        ["my-pod"; "0/1"; "Running"; "0"; "0s"] ].
Proof. vm_compute. reflexivity. Qed.

(** The earlier ListPods drops the pod of another namespace before it
    prints, as the test "Normal Case with namespace filter" expects. *)
Example test_namespace_filter :
  Legacy.filterPods [Sample.myPod; Sample.otherNamespace]
    (Legacy.filterFunc Sample.legacyFlags)
  = [Sample.myPod].
Proof. vm_compute. reflexivity. Qed.

(** * Further properties of the code *)

(** ** The loop over the init container statuses *)

Lemma initSwitch_passed (pod : corev1.Pod) n i s v :
  passedInit pod s ->
  exists v',
    Pod.initSwitch (Pod.initContainers pod) n i s v = (v', Pod.Continue)
    /\ Pod.reason v' = Pod.reason v
    /\ Pod.initializing v' = Pod.initializing v.
Proof.
  unfold passedInit, completedInit, startedSidecar, Pod.initSwitch.
  intros [(t & Ht & Hcode) | Hside].
  - rewrite Ht, Hcode. simpl. exists v. auto.
  - rewrite Hside.
    destruct (corev1.Terminated (corev1.State s)) as [t|];
      [destruct (corev1.ExitCode t =? 0) |].
    + exists v. auto.
    + destruct (corev1.Ready s); eexists; (split; [reflexivity | split; reflexivity]).
    + destruct (corev1.Ready s); eexists; (split; [reflexivity | split; reflexivity]).
Qed.

Lemma countInit_reason ics s v :
  Pod.reason (Pod.countInit ics s v) = Pod.reason v
  /\ Pod.initializing (Pod.countInit ics s v) = Pod.initializing v.
Proof.
  unfold Pod.countInit. destruct (Pod.isRestartableInitContainer _); split; reflexivity.
Qed.

Lemma initLoop_passed (pod : corev1.Pod) n (passed : list corev1.ContainerStatus) :
  forall i v later,
    (forall d, In d passed -> passedInit pod d) ->
    Pod.initLoop (Pod.initContainers pod) n i (passed ++ later) v
    = Pod.initLoop (Pod.initContainers pod) n (i + Go.len passed) later
        (Pod.initLoop (Pod.initContainers pod) n i passed v)
    /\ Pod.reason (Pod.initLoop (Pod.initContainers pod) n i passed v) = Pod.reason v
    /\ Pod.initializing (Pod.initLoop (Pod.initContainers pod) n i passed v)
       = Pod.initializing v.
Proof.
  unfold Go.len.
  induction passed as [|d rest IH]; intros i v later Hpassed.
  - simpl. rewrite Z.add_0_r. auto.
  - cbn [Pod.initLoop app].
    destruct (initSwitch_passed pod n i d
                (Pod.countInit (Pod.initContainers pod) d v))
      as (v' & Hsw & Hr & Hi); [apply Hpassed; left; reflexivity |].
    rewrite Hsw.
    destruct (IH (i + 1) v' later) as (Happ & Hr' & Hi');
      [intros d' Hd'; apply Hpassed; right; exact Hd' |].
    destruct (countInit_reason (Pod.initContainers pod) d v) as [Hcr Hci].
    rewrite Happ. repeat split.
    + f_equal. rewrite length_cons. lia.
    + congruence.
    + congruence.
Qed.

Lemma initSwitch_blocking (pod : corev1.Pod) n i s v :
  ~ completedInit s -> startedSidecar pod s = false ->
  exists v',
    Pod.initSwitch (Pod.initContainers pod) n i s v = (v', Pod.Break)
    /\ Pod.initializing v' = true.
Proof.
  unfold completedInit, startedSidecar, Pod.initSwitch. intros Hnot Hside.
  rewrite Hside.
  destruct (corev1.Terminated (corev1.State s)) as [t|].
  - destruct (Z.eqb_spec (corev1.ExitCode t) 0) as [Hz|Hz].
    + exfalso. apply Hnot. exists t. auto.
    + eexists. split; reflexivity.
  - clear Hside.
    destruct (corev1.Waiting (corev1.State s)) as [w|];
      [destruct (_ && _) |]; eexists; split; reflexivity.
Qed.

Lemma initLoop_completed_ready ics n (statuses : list corev1.ContainerStatus) :
  forall i v,
    (forall s, In s statuses -> completedInit s) ->
    Pod.readyContainers (Pod.initLoop ics n i statuses v) = Pod.readyContainers v.
Proof.
  induction statuses as [|s l IHl]; intros i v Hl; [reflexivity |].
  cbn [Pod.initLoop].
  destruct (Hl s (or_introl eq_refl)) as (t & Ht & Hcode).
  unfold Pod.initSwitch at 1. rewrite Ht, Hcode. simpl.
  rewrite IHl by (intros s' Hs'; apply Hl; right; exact Hs').
  apply countInit_ready.
Qed.

Lemma init_containers_done_ready (pod : corev1.Pod) :
  (forall s, In s (corev1.InitContainerStatuses (corev1.Status_ pod)) ->
             completedInit s) ->
  Pod.readyContainers (Pod.afterInit pod) = 0.
Proof.
  intros Hdone. unfold Pod.afterInit.
  rewrite initLoop_completed_ready by exact Hdone. reflexivity.
Qed.

Lemma init_containers_done (pod : corev1.Pod) :
  (forall s, In s (corev1.InitContainerStatuses (corev1.Status_ pod)) ->
             completedInit s) ->
  Pod.initializing (Pod.afterInit pod) = false
  /\ Pod.reason (Pod.afterInit pod) = Pod.initialReason pod
  /\ Pod.classifies pod = true.
Proof.
  intros Hdone.
  destruct (initLoop_passed pod (Go.len (corev1.InitContainers (corev1.Spec pod)))
              (corev1.InitContainerStatuses (corev1.Status_ pod)) 0 (Pod.start pod) [])
    as (_ & Hr & Hi).
  { intros d Hd. left. apply Hdone. exact Hd. }
  fold (Pod.afterInit pod) in Hr, Hi. simpl in Hr, Hi.
  repeat split; try assumption.
  unfold Pod.classifies. rewrite Hi. reflexivity.
Qed.

(** X5: a pod all of whose init container statuses terminated with exit
    code 0 is not marked initializing; the loop over them leaves the reason
    and the ready count as they were, and the container statuses are
    classified. *)
Theorem init_containers_completed (pod : corev1.Pod) :
  (forall s, In s (corev1.InitContainerStatuses (corev1.Status_ pod)) ->
             completedInit s) ->
  Pod.initializing (Pod.afterInit pod) = false
  /\ Pod.reason (Pod.afterInit pod) = Pod.initialReason pod
  /\ Pod.readyContainers (Pod.afterInit pod) = 0
  /\ Pod.classifies pod = true.
Proof.
  intros Hdone.
  destruct (init_containers_done pod Hdone) as (Hi & Hr & Hcl).
  pose proof (init_containers_done_ready pod Hdone) as H0.
  repeat split; assumption.
Qed.

Lemma init_scan_stops_init (pod : corev1.Pod) passed s later :
  corev1.InitContainerStatuses (corev1.Status_ pod) = (passed ++ s :: later)%list ->
  (forall d, In d passed -> passedInit pod d) ->
  ~ completedInit s ->
  startedSidecar pod s = false ->
  Pod.initializing (Pod.afterInit pod) = true.
Proof.
  intros Hics Hpassed Hnot Hside.
  unfold Pod.afterInit. rewrite Hics.
  set (n := Go.len (corev1.InitContainers (corev1.Spec pod))).
  destruct (initLoop_passed pod n passed 0 (Pod.start pod) (s :: later) Hpassed)
    as (Happ & _ & _).
  rewrite Happ. cbn [Pod.initLoop].
  destruct (initSwitch_blocking pod n (0 + Go.len passed) s
              (Pod.countInit (Pod.initContainers pod) s
                 (Pod.initLoop (Pod.initContainers pod) n 0 passed (Pod.start pod)))
              Hnot Hside) as (v' & Hsw & Hi).
  rewrite Hsw. exact Hi.
Qed.

(** X6: the loop stops at the first init container status that neither
    completed nor belongs to a started init container with restart policy
    Always: the pod is marked initializing, and the statuses after that one
    change nothing. *)
Theorem init_scan_stops (pod : corev1.Pod) (passed : list corev1.ContainerStatus)
    (s : corev1.ContainerStatus) (later : list corev1.ContainerStatus) :
  corev1.InitContainerStatuses (corev1.Status_ pod) = (passed ++ s :: later)%list ->
  (forall d, In d passed -> passedInit pod d) ->
  ~ completedInit s ->
  startedSidecar pod s = false ->
  Pod.initializing (Pod.afterInit pod) = true
  /\ Pod.afterInit pod = Pod.afterInit (withInitStatuses pod (passed ++ [s])).
Proof.
  intros Hics Hpassed Hnot Hside.
  unfold Pod.afterInit. rewrite Hics. cbn [withInitStatuses corev1.Status_
    corev1.InitContainerStatuses corev1.Spec].
  change (Pod.initContainers (withInitStatuses pod (passed ++ [s])))
    with (Pod.initContainers pod).
  set (n := Go.len (corev1.InitContainers (corev1.Spec pod))).
  destruct (initLoop_passed pod n passed 0 (Pod.start pod) (s :: later) Hpassed)
    as (Happ & _ & _).
  destruct (initLoop_passed pod n passed 0 (Pod.start pod) [s] Hpassed)
    as (Happ' & _ & _).
  change (Pod.start (withInitStatuses pod (passed ++ [s]))) with (Pod.start pod).
  rewrite Happ, Happ'. cbn [Pod.initLoop].
  destruct (initSwitch_blocking pod n (0 + Go.len passed) s
              (Pod.countInit (Pod.initContainers pod) s
                 (Pod.initLoop (Pod.initContainers pod) n 0 passed (Pod.start pod)))
              Hnot Hside) as (v' & Hsw & Hi).
  rewrite Hsw. split; [exact Hi | reflexivity].
Qed.

Lemma afterInit_blocking (pod : corev1.Pod) passed s later :
  corev1.InitContainerStatuses (corev1.Status_ pod) = (passed ++ s :: later)%list ->
  (forall d, In d passed -> passedInit pod d) ->
  ~ completedInit s ->
  startedSidecar pod s = false ->
  exists v,
    Pod.reason v = Pod.initialReason pod
    /\ Pod.afterInit pod
       = fst (Pod.initSwitch (Pod.initContainers pod)
                (Go.len (corev1.InitContainers (corev1.Spec pod)))
                (Go.len passed) s v).
Proof.
  intros Hics Hpassed Hnot Hside.
  unfold Pod.afterInit. rewrite Hics.
  set (n := Go.len (corev1.InitContainers (corev1.Spec pod))).
  destruct (initLoop_passed pod n passed 0 (Pod.start pod) (s :: later) Hpassed)
    as (Happ & Hr & _).
  rewrite Happ. cbn [Pod.initLoop].
  exists (Pod.countInit (Pod.initContainers pod) s
            (Pod.initLoop (Pod.initContainers pod) n 0 passed (Pod.start pod))).
  split.
  - rewrite (proj1 (countInit_reason _ _ _)). exact Hr.
  - destruct (initSwitch_blocking pod n (0 + Go.len passed) s
                (Pod.countInit (Pod.initContainers pod) s
                   (Pod.initLoop (Pod.initContainers pod) n 0 passed (Pod.start pod)))
                Hnot Hside) as (v' & Hsw & _).
    rewrite Hsw. rewrite Z.add_0_l in Hsw. rewrite Hsw. reflexivity.
Qed.

(** X7: what the first init container status that blocks shows. Terminated
    with a non-zero exit code: "Init:" and its reason, or without a reason
    "Init:Signal:<signal>" for a non-zero signal and
    "Init:ExitCode:<code>" otherwise. Waiting with a reason other than the
    placeholder: "Init:" and the reason. Anything else:
    "Init:<index>/<declared init containers>", the index being the number
    of statuses passed before. Unless the Initialized condition is true or
    the pod is being deleted, this is the status of the pod. *)
Theorem init_blocking_reason `{Clock} (pod : corev1.Pod)
    (passed : list corev1.ContainerStatus) (s : corev1.ContainerStatus)
    (later : list corev1.ContainerStatus) :
  corev1.InitContainerStatuses (corev1.Status_ pod) = (passed ++ s :: later)%list ->
  (forall d, In d passed -> passedInit pod d) ->
  ~ completedInit s ->
  startedSidecar pod s = false ->
  let shown := Pod.reason (Pod.afterInit pod) in
  let state := corev1.State s in
  (forall t, corev1.Terminated state = Some t ->
     (corev1.tReason t <> EmptyString -> shown = "Init:" +:+ corev1.tReason t)
     /\ (corev1.tReason t = EmptyString -> corev1.Signal t <> 0 ->
         shown = "Init:Signal:" +:+ Go.Itoa (corev1.Signal t))
     /\ (corev1.tReason t = EmptyString -> corev1.Signal t = 0 ->
         shown = "Init:ExitCode:" +:+ Go.Itoa (corev1.ExitCode t)))
  /\ (forall w, corev1.Terminated state = None -> corev1.Waiting state = Some w ->
        corev1.wReason w <> EmptyString -> corev1.wReason w <> "PodInitializing" ->
        shown = "Init:" +:+ corev1.wReason w)
  /\ (corev1.Terminated state = None ->
      (forall w, corev1.Waiting state = Some w ->
         corev1.wReason w = EmptyString \/ corev1.wReason w = "PodInitializing") ->
      shown = "Init:" +:+ Go.Itoa (Go.len passed) +:+ "/"
              +:+ Go.Itoa (Go.len (corev1.InitContainers (corev1.Spec pod))))
  /\ (Pod.isPodInitializedConditionTrue (corev1.Conditions (corev1.Status_ pod)) = false ->
      corev1.DeletionTimestamp pod = None ->
      Pod.iStatus (Pod.printPod pod) = shown).
Proof.
  intros Hics Hpassed Hnot Hside shown state. subst shown state.
  destruct (afterInit_blocking pod passed s later Hics Hpassed Hnot Hside)
    as (v & _ & Hafter).
  pose proof (init_scan_stops_init pod passed s later Hics Hpassed Hnot Hside) as Hinit.
  rewrite Hafter. unfold Pod.initSwitch.
  unfold startedSidecar in Hside. rewrite Hside.
  split; [| split; [| split]].
  - intros t Ht. rewrite Ht.
    destruct (Z.eqb_spec (corev1.ExitCode t) 0) as [Hz|Hz];
      [exfalso; apply Hnot; exists t; auto |].
    repeat split.
    + intros Hr. destruct (corev1.tReason t); [congruence | reflexivity].
    + intros -> Hsig. simpl. destruct (Z.eqb_spec (corev1.Signal t) 0); [lia | reflexivity].
    + intros -> ->. reflexivity.
  - intros w Ht Hw Hne Hph. rewrite Ht, Hw.
    destruct (String.eqb_spec (corev1.wReason w) "PodInitializing"); [contradiction |].
    destruct (corev1.wReason w); [congruence | reflexivity].
  - intros Ht Hw. rewrite Ht.
    destruct (corev1.Waiting (corev1.State s)) as [w|]; [| reflexivity].
    destruct (Hw w eq_refl) as [-> | ->]; reflexivity.
  - intros Hcond Hdel. simpl. unfold Pod.deletionReason. rewrite Hdel.
    unfold Pod.derived, Pod.classifies. rewrite Hinit, Hcond. simpl.
    rewrite Hafter. unfold Pod.initSwitch. rewrite Hside. reflexivity.
Qed.

(** ** The loop over the container statuses *)

Lemma containerStep_silent v s :
  silent s -> Pod.reason (Pod.containerStep v s) = Pod.reason v.
Proof.
  unfold silent, Pod.containerStep. intros [Ht Hw]. rewrite Ht.
  destruct (corev1.Waiting (corev1.State s)) as [[r]|].
  - specialize (Hw _ eq_refl). simpl in Hw. subst r.
    destruct (_ && _); reflexivity.
  - destruct (_ && _); reflexivity.
Qed.

Lemma fold_containerStep_silent statuses : forall v,
  (forall s, In s statuses -> silent s) ->
  Pod.reason (fold_left Pod.containerStep statuses v) = Pod.reason v.
Proof.
  induction statuses as [|s rest IH]; intros v Hs; simpl; [reflexivity |].
  rewrite IH by (intros s' Hs'; apply Hs; right; exact Hs').
  apply containerStep_silent. apply Hs. left. reflexivity.
Qed.

Lemma containerLoop_first (quiet later : list corev1.ContainerStatus) s v :
  (forall q, In q quiet -> silent q) ->
  exists v',
    Pod.reason (Pod.containerLoop (quiet ++ s :: later) v)
    = Pod.reason (Pod.containerStep v' s).
Proof.
  intros Hq. unfold Pod.containerLoop.
  rewrite rev_app_distr. cbn [rev]. rewrite <- app_assoc, !fold_left_app.
  cbn [fold_left app].
  exists (fold_left Pod.containerStep (rev later) v).
  apply fold_containerStep_silent.
  intros q Hin. apply Hq. apply in_rev. exact Hin.
Qed.

(** X8: among the container statuses, the first one in declared order that
    reports a reason decides the reason after the loop, whatever the later
    ones report: its waiting reason; else its termination reason; else
    "Signal:<signal>" for a non-zero signal and "ExitCode:<code>"
    otherwise. When no status reports a reason the loop leaves the reason
    as it was. *)
Theorem container_reason_first (pod : corev1.Pod)
    (quiet : list corev1.ContainerStatus) (s : corev1.ContainerStatus)
    (later : list corev1.ContainerStatus) :
  corev1.ContainerStatuses (corev1.Status_ pod) = (quiet ++ s :: later)%list ->
  (forall q, In q quiet -> silent q) ->
  let shown := Pod.reason (Pod.afterContainers pod) in
  let state := corev1.State s in
  (forall w, corev1.Waiting state = Some w -> corev1.wReason w <> EmptyString ->
     shown = corev1.wReason w)
  /\ (forall t, corev1.Terminated state = Some t ->
        (forall w, corev1.Waiting state = Some w -> corev1.wReason w = EmptyString) ->
        (corev1.tReason t <> EmptyString -> shown = corev1.tReason t)
        /\ (corev1.tReason t = EmptyString -> corev1.Signal t <> 0 ->
            shown = "Signal:" +:+ Go.Itoa (corev1.Signal t))
        /\ (corev1.tReason t = EmptyString -> corev1.Signal t = 0 ->
            shown = "ExitCode:" +:+ Go.Itoa (corev1.ExitCode t))).
Proof.
  intros Hcs Hq shown state. subst shown state.
  unfold Pod.afterContainers. rewrite Hcs.
  match goal with
  | |- context [Pod.containerLoop _ ?v] =>
      destruct (containerLoop_first quiet later s v Hq) as (v' & Hfirst)
  end.
  rewrite Hfirst. unfold Pod.containerStep. split.
  - intros w Hw Hne. rewrite Hw. destruct w as [r]. simpl in *.
    destruct r; [congruence | reflexivity].
  - intros t Ht Hw. rewrite Ht.
    destruct (corev1.Waiting (corev1.State s)) as [[r]|];
      [specialize (Hw _ eq_refl); simpl in Hw; subst r |].
    all: repeat split;
      [ intros Hr; destruct (corev1.tReason t); [congruence | reflexivity]
      | intros -> Hsig; simpl;
        destruct (Z.eqb_spec (corev1.Signal t) 0); [lia | reflexivity]
      | intros -> ->; reflexivity ].
Qed.

(** X9: when no container status reports a reason, the loop over them
    leaves the reason it started from, and without a deletion timestamp a
    pod whose init containers all completed shows the reason it started
    from: its phase, its status reason, or SchedulingGated. *)
Theorem container_reason_silent `{Clock} (pod : corev1.Pod) :
  (forall s, In s (corev1.ContainerStatuses (corev1.Status_ pod)) -> silent s) ->
  Pod.reason (Pod.afterContainers pod) = Pod.reason (Pod.afterInit pod)
  /\ ((forall s, In s (corev1.InitContainerStatuses (corev1.Status_ pod)) ->
                 completedInit s) ->
      corev1.DeletionTimestamp pod = None ->
      Pod.initialReason pod <> "Completed" ->
      Pod.iStatus (Pod.printPod pod) = Pod.initialReason pod).
Proof.
  intros Hsilent.
  assert (Hc : Pod.reason (Pod.afterContainers pod) = Pod.reason (Pod.afterInit pod)).
  { unfold Pod.afterContainers, Pod.containerLoop.
    rewrite fold_containerStep_silent; [reflexivity |].
    intros s Hs. apply Hsilent. apply in_rev. exact Hs. }
  split; [exact Hc |].
  intros Hdone Hdel Hnot.
  destruct (init_containers_done pod Hdone) as (Hi & Hr & Hcl).
  simpl. unfold Pod.deletionReason. rewrite Hdel.
  unfold Pod.derived. rewrite Hcl. unfold Pod.backToRunning.
  rewrite Hc, Hr.
  destruct (String.eqb_spec (Pod.initialReason pod) "Completed"); [contradiction |].
  simpl. rewrite Hc. exact Hr.
Qed.

Lemma countedReady_spec s : countedReady s = true <-> readyAndRunning s.
Proof.
  unfold countedReady, readyAndRunning.
  rewrite !andb_true_iff, negb_true_iff.
  destruct (corev1.Running (corev1.State s)) as [r|],
    (corev1.Terminated (corev1.State s)) as [t|],
    (corev1.Waiting (corev1.State s)) as [w|]; simpl;
    rewrite ?String.eqb_eq; split;
    try (intros (((? & ?) & ?) & ?)); try (intros (? & ? & ? & Hw));
    repeat split; try congruence; try discriminate; auto.
  all: try (intros w' [= <-]; assumption).
Qed.

Lemma containerStep_counted v s :
  Pod.readyContainers (Pod.containerStep v s)
  = Pod.readyContainers v + (if countedReady s then 1 else 0).
Proof.
  unfold Pod.containerStep, countedReady.
  destruct (corev1.Ready s), (corev1.Running (corev1.State s)) as [r|],
    (corev1.Terminated (corev1.State s)) as [t|],
    (corev1.Waiting (corev1.State s)) as [[[|a w]]|]; simpl;
    repeat match goal with
           | |- context [if ?b then _ else _] => destruct b; simpl
           end; lia.
Qed.

Lemma fold_containerStep_counted statuses : forall v,
  Pod.readyContainers (fold_left Pod.containerStep statuses v)
  = Pod.readyContainers v + Go.len (List.filter countedReady statuses).
Proof.
  unfold Go.len.
  induction statuses as [|s rest IH]; intros v; simpl; [lia |].
  rewrite IH, containerStep_counted.
  destruct (countedReady s); simpl; lia.
Qed.

Lemma filter_rev_length {A} (f : A -> bool) (l : list A) :
  length (List.filter f (rev l)) = length (List.filter f l).
Proof.
  induction l as [|a l IH]; simpl; [reflexivity |].
  rewrite List.filter_app, length_app, IH. simpl.
  destruct (f a); simpl; lia.
Qed.

(** X10: for a pod whose init containers all completed, the numerator of
    the ReadyContainers cell is the number of container statuses that are
    Ready, in the Running state, not terminated and without a waiting
    reason. *)
Theorem ready_count `{Clock} (pod : corev1.Pod) :
  (forall s, In s (corev1.InitContainerStatuses (corev1.Status_ pod)) ->
             completedInit s) ->
  Pod.iReadyContainers (Pod.printPod pod)
  = Go.Itoa (Go.len (List.filter countedReady
                       (corev1.ContainerStatuses (corev1.Status_ pod))))
    +:+ "/" +:+ Go.Itoa (Pod.totalContainers pod)
  /\ forall s, countedReady s = true <-> readyAndRunning s.
Proof.
  intros Hdone. split; [| apply countedReady_spec].
  destruct (init_containers_done pod Hdone) as (Hi & Hr & Hcl).
  simpl. f_equal. f_equal.
  unfold Pod.derived. rewrite Hcl.
  assert (Hk : forall v, Pod.readyContainers (Pod.backToRunning pod v)
                         = Pod.readyContainers v).
  { intros v. unfold Pod.backToRunning.
    destruct (_ && _); [destruct (Pod.hasPodReadyCondition _) |]; reflexivity. }
  rewrite Hk. unfold Pod.afterContainers, Pod.containerLoop.
  rewrite fold_containerStep_counted. simpl.
  unfold Go.len. rewrite filter_rev_length.
  pose proof (init_containers_done_ready pod Hdone) as H0. rewrite H0. lia.
Qed.

(** ** The restart count and the last restart date *)

Lemma wrap64_small z : - 2 ^ 63 <= z < 2 ^ 63 -> Go.wrap64 z = z.
Proof. intros Hz. unfold Go.wrap64. rewrite Z.mod_small; lia. Qed.

Lemma wrap64_add_l a b : Go.wrap64 (Go.wrap64 a + b) = Go.wrap64 (a + b).
Proof.
  unfold Go.wrap64. f_equal.
  replace ((a + 2 ^ 63) mod 2 ^ 64 - 2 ^ 63 + b + 2 ^ 63)
    with ((a + 2 ^ 63) mod 2 ^ 64 + b) by lia.
  rewrite Z.add_mod_idemp_l by lia. f_equal. lia.
Qed.

Lemma wrap64_idem a : Go.wrap64 (Go.wrap64 a) = Go.wrap64 a.
Proof.
  rewrite <- (Z.add_0_r (Go.wrap64 a)) at 1. rewrite wrap64_add_l. f_equal. lia.
Qed.

Lemma sumRestarts_cons s l :
  sumRestarts (s :: l) = corev1.RestartCount s + sumRestarts l.
Proof. reflexivity. Qed.

Lemma sumRestarts_app l k : sumRestarts (l ++ k) = sumRestarts l + sumRestarts k.
Proof.
  induction l as [|s l IH]; [reflexivity |].
  cbn [app]. rewrite !sumRestarts_cons, IH. lia.
Qed.

Lemma sumRestarts_rev l : sumRestarts (rev l) = sumRestarts l.
Proof.
  induction l as [|s l IH]; [reflexivity |].
  cbn [rev]. rewrite sumRestarts_app, IH, !sumRestarts_cons.
  change (sumRestarts []) with 0. lia.
Qed.

Lemma sumRestarts_bounds l :
  (forall s, In s l -> int32 (corev1.RestartCount s)) ->
  - 2 ^ 31 * Go.len l <= sumRestarts l <= (2 ^ 31 - 1) * Go.len l.
Proof.
  unfold Go.len, int32.
  induction l as [|s l IH]; intros Hl.
  - change (sumRestarts []) with 0. simpl. lia.
  - rewrite sumRestarts_cons, length_cons.
    pose proof (Hl s (or_introl eq_refl)).
    assert (IH' := IH (fun s' Hs' => Hl s' (or_intror Hs'))).
    lia.
Qed.

Lemma initSwitch_passed_step (pod : corev1.Pod) n i s v :
  passedInit pod s ->
  Pod.initSwitch (Pod.initContainers pod) n i s v = (v, Pod.Continue)
  \/ Pod.initSwitch (Pod.initContainers pod) n i s v = (Pod.incr_ready v, Pod.Continue).
Proof.
  unfold passedInit, completedInit, startedSidecar, Pod.initSwitch.
  intros [(t & Ht & Hcode) | Hside].
  - rewrite Ht, Hcode. left. reflexivity.
  - rewrite Hside.
    destruct (corev1.Terminated (corev1.State s)) as [t|];
      [destruct (corev1.ExitCode t =? 0) |];
      destruct (corev1.Ready s); auto.
Qed.

(** The restart counter of the restartable init containers after statuses
    that the loop passes over. *)
Lemma initLoop_passed_sidecars (pod : corev1.Pod) n
    (statuses : list corev1.ContainerStatus) : forall i v,
  (forall s, In s statuses -> passedInit pod s) ->
  Go.wrap64 (Pod.restartableInitContainerRestarts v)
  = Pod.restartableInitContainerRestarts v ->
  Pod.restartableInitContainerRestarts
    (Pod.initLoop (Pod.initContainers pod) n i statuses v)
  = Go.wrap64 (Pod.restartableInitContainerRestarts v
               + sumRestarts (List.filter (sidecarStatus (Pod.initContainers pod))
                                statuses)).
Proof.
  induction statuses as [|s rest IH]; intros i v Hp Hv.
  - simpl. rewrite Z.add_0_r. symmetry. exact Hv.
  - assert (Hrest : forall s', In s' rest -> passedInit pod s')
      by (intros s' Hs'; apply Hp; right; exact Hs').
    cbn [Pod.initLoop List.filter].
    set (vc := Pod.countInit (Pod.initContainers pod) s v).
    assert (Hvc : Pod.restartableInitContainerRestarts vc
                  = if sidecarStatus (Pod.initContainers pod) s
                    then Go.wrap64 (Pod.restartableInitContainerRestarts v
                                    + corev1.RestartCount s)
                    else Pod.restartableInitContainerRestarts v).
    { unfold vc, Pod.countInit, sidecarStatus.
      destruct (Pod.isRestartableInitContainer _); reflexivity. }
    assert (Hin : Go.wrap64 (Pod.restartableInitContainerRestarts vc)
                  = Pod.restartableInitContainerRestarts vc).
    { rewrite Hvc. destruct (sidecarStatus _ s); [apply wrap64_idem | exact Hv]. }
    assert (Hnext : forall w,
              Pod.restartableInitContainerRestarts w
              = Pod.restartableInitContainerRestarts vc ->
              Pod.restartableInitContainerRestarts
                (Pod.initLoop (Pod.initContainers pod) n (i + 1) rest w)
              = Go.wrap64 (Pod.restartableInitContainerRestarts v
                           + sumRestarts
                               (if sidecarStatus (Pod.initContainers pod) s
                                then s :: List.filter
                                            (sidecarStatus (Pod.initContainers pod)) rest
                                else List.filter
                                       (sidecarStatus (Pod.initContainers pod)) rest))).
    { intros w Hw. rewrite IH by (try exact Hrest; rewrite Hw; exact Hin).
      rewrite Hw, Hvc.
      destruct (sidecarStatus (Pod.initContainers pod) s); [| reflexivity].
      rewrite wrap64_add_l, sumRestarts_cons. f_equal. lia. }
    destruct (initSwitch_passed_step pod n i s vc (Hp s (or_introl eq_refl)))
      as [Hsw|Hsw]; rewrite Hsw; apply Hnext; reflexivity.
Qed.

Lemma containerStep_restarts v s :
  Pod.restarts (Pod.containerStep v s)
  = Go.wrap64 (Pod.restarts v + corev1.RestartCount s)
  /\ Pod.lastRestartDate (Pod.containerStep v s)
     = Pod.noteTermination (Pod.lastRestartDate v) s.
Proof.
  unfold Pod.containerStep.
  destruct (corev1.Waiting (corev1.State s)) as [[[|a r]]|];
    destruct (corev1.Terminated (corev1.State s)) as [t|]; simpl;
    repeat match goal with
           | |- context [if ?b then _ else _] => destruct b; simpl
           end; split; reflexivity.
Qed.

Lemma fold_containerStep_restarts statuses : forall v,
  Go.wrap64 (Pod.restarts v) = Pod.restarts v ->
  Pod.restarts (fold_left Pod.containerStep statuses v)
  = Go.wrap64 (Pod.restarts v + sumRestarts statuses).
Proof.
  induction statuses as [|s rest IH]; intros v Hv.
  - simpl. change (sumRestarts []) with 0. rewrite Z.add_0_r. symmetry. exact Hv.
  - cbn [fold_left].
    destruct (containerStep_restarts v s) as [Hs _].
    rewrite IH by (rewrite Hs; apply wrap64_idem).
    rewrite Hs, wrap64_add_l, sumRestarts_cons. f_equal. lia.
Qed.

Lemma noteTermination_max last s :
  Pod.noteTermination last s
  = match lastTermination s with
    | Some finished => Z.max last finished
    | None => last
    end.
Proof.
  unfold Pod.noteTermination, lastTermination, metav1.Before.
  destruct (corev1.Terminated (corev1.LastTerminationState s)) as [t|]; simpl;
    [| reflexivity].
  destruct (Z.ltb_spec last (corev1.FinishedAt t)); lia.
Qed.

(** A date is the latest of the last terminations of statuses, or an
    earlier date [from] when none of them is later. *)
Lemma fold_containerStep_date statuses : forall v,
  let d := Pod.lastRestartDate (fold_left Pod.containerStep statuses v) in
  Pod.lastRestartDate v <= d
  /\ (forall s finished, In s statuses -> lastTermination s = Some finished ->
        finished <= d)
  /\ (d = Pod.lastRestartDate v
      \/ exists s, In s statuses /\ lastTermination s = Some d).
Proof.
  induction statuses as [|s rest IH]; intros v; simpl.
  - repeat split; [lia | intros s f [] | left; reflexivity].
  - specialize (IH (Pod.containerStep v s)). simpl in IH.
    destruct IH as (Hle & Hall & Hex).
    destruct (containerStep_restarts v s) as [_ Hd].
    rewrite Hd, noteTermination_max in Hle, Hex.
    repeat split.
    + destruct (lastTermination s); lia.
    + intros s' f [<-|Hin] Hf; [| eapply Hall; eassumption].
      rewrite Hf in Hle. lia.
    + destruct Hex as [Hex | (s' & Hin & Hf)]; [| right; exists s'; auto].
      destruct (lastTermination s) as [f|] eqn:Hf; [| left; exact Hex].
      destruct (Z.max_spec (Pod.lastRestartDate v) f) as [[_ Hm]|[_ Hm]];
        rewrite Hm in Hex.
      * right. exists s. split; [left; reflexivity | congruence].
      * left. exact Hex.
Qed.

Lemma initLoop_passed_date (pod : corev1.Pod) n
    (statuses : list corev1.ContainerStatus) : forall i v,
  (forall s, In s statuses -> passedInit pod s) ->
  let sidecars := List.filter (sidecarStatus (Pod.initContainers pod)) statuses in
  let d := Pod.lastRestartableInitContainerRestartDate
             (Pod.initLoop (Pod.initContainers pod) n i statuses v) in
  Pod.lastRestartableInitContainerRestartDate v <= d
  /\ (forall s finished, In s sidecars -> lastTermination s = Some finished ->
        finished <= d)
  /\ (d = Pod.lastRestartableInitContainerRestartDate v
      \/ exists s, In s sidecars /\ lastTermination s = Some d).
Proof.
  induction statuses as [|s rest IH]; intros i v Hp.
  - simpl. repeat split; [lia | intros s f [] | left; reflexivity].
  - assert (Hrest : forall s', In s' rest -> passedInit pod s')
      by (intros s' Hs'; apply Hp; right; exact Hs').
    cbn [Pod.initLoop List.filter].
    set (vc := Pod.countInit (Pod.initContainers pod) s v).
    assert (Hvc : Pod.lastRestartableInitContainerRestartDate vc
                  = if sidecarStatus (Pod.initContainers pod) s
                    then match lastTermination s with
                         | Some f => Z.max (Pod.lastRestartableInitContainerRestartDate v) f
                         | None => Pod.lastRestartableInitContainerRestartDate v
                         end
                    else Pod.lastRestartableInitContainerRestartDate v).
    { unfold vc, Pod.countInit, sidecarStatus.
      destruct (Pod.isRestartableInitContainer _); [| reflexivity].
      simpl. apply noteTermination_max. }
    assert (Hnext : forall w,
              Pod.lastRestartableInitContainerRestartDate w
              = Pod.lastRestartableInitContainerRestartDate vc ->
              let sidecars :=
                if sidecarStatus (Pod.initContainers pod) s
                then s :: List.filter (sidecarStatus (Pod.initContainers pod)) rest
                else List.filter (sidecarStatus (Pod.initContainers pod)) rest in
              let d := Pod.lastRestartableInitContainerRestartDate
                         (Pod.initLoop (Pod.initContainers pod) n (i + 1) rest w) in
              Pod.lastRestartableInitContainerRestartDate v <= d
              /\ (forall s' finished, In s' sidecars ->
                    lastTermination s' = Some finished -> finished <= d)
              /\ (d = Pod.lastRestartableInitContainerRestartDate v
                  \/ exists s', In s' sidecars /\ lastTermination s' = Some d)).
    { intros w Hw. specialize (IH (i + 1) w Hrest). simpl in IH.
      destruct IH as (Hle & Hall & Hex). rewrite Hw, Hvc in Hle, Hex.
      simpl.
      destruct (sidecarStatus (Pod.initContainers pod) s).
      - repeat split.
        + destruct (lastTermination s); lia.
        + intros s' f [<-|Hin] Hf; [| eapply Hall; eassumption].
          rewrite Hf in Hle. lia.
        + destruct Hex as [Hex | (s' & Hin & Hf)];
            [| right; exists s'; split; [right; exact Hin | exact Hf]].
          destruct (lastTermination s) as [f|] eqn:Hf; [| left; exact Hex].
          destruct (Z.max_spec (Pod.lastRestartableInitContainerRestartDate v) f)
            as [[_ Hm]|[_ Hm]]; rewrite Hm in Hex.
          * right. exists s. split; [left; reflexivity | congruence].
          * left. exact Hex.
      - repeat split; [exact Hle | exact Hall | exact Hex]. }
    destruct (initSwitch_passed_step pod n i s vc (Hp s (or_introl eq_refl)))
      as [Hsw|Hsw]; rewrite Hsw; apply Hnext; reflexivity.
Qed.

Lemma init_passed_classifies (pod : corev1.Pod) :
  (forall s, In s (corev1.InitContainerStatuses (corev1.Status_ pod)) ->
             passedInit pod s) ->
  Pod.initializing (Pod.afterInit pod) = false /\ Pod.classifies pod = true.
Proof.
  intros Hp.
  destruct (initLoop_passed pod (Go.len (corev1.InitContainers (corev1.Spec pod)))
              (corev1.InitContainerStatuses (corev1.Status_ pod)) 0 (Pod.start pod) [] Hp)
    as (_ & _ & Hi).
  fold (Pod.afterInit pod) in Hi. simpl in Hi.
  split; [exact Hi |]. unfold Pod.classifies. rewrite Hi. reflexivity.
Qed.

Lemma backToRunning_counters pod v :
  Pod.restarts (Pod.backToRunning pod v) = Pod.restarts v
  /\ Pod.lastRestartDate (Pod.backToRunning pod v) = Pod.lastRestartDate v.
Proof.
  unfold Pod.backToRunning.
  destruct (_ && _); [destruct (Pod.hasPodReadyCondition _) |]; split; reflexivity.
Qed.

(** X11: when the loop passes over every init container status, the
    restart count of the pod is the sum of the restart counts of the
    container statuses and of the statuses of init containers with restart
    policy Always, as a 64-bit integer; the restarts of other init
    containers are not counted. For int32 counts of fewer than 2^32
    statuses it is the exact sum. *)
Theorem restart_count_sum (pod : corev1.Pod) :
  let status := corev1.Status_ pod in
  let total := sumRestarts (sidecarStatuses pod)
               + sumRestarts (corev1.ContainerStatuses status) in
  (forall s, In s (corev1.InitContainerStatuses status) -> passedInit pod s) ->
  Pod.restarts (Pod.derived pod) = Go.wrap64 total
  /\ ((forall s, In s (corev1.InitContainerStatuses status
                       ++ corev1.ContainerStatuses status) ->
                 int32 (corev1.RestartCount s)) ->
      Go.len (corev1.InitContainerStatuses status ++ corev1.ContainerStatuses status)
      < 2 ^ 32 ->
      Pod.restarts (Pod.derived pod) = total).
Proof.
  intros status total Hp. subst status total.
  destruct (init_passed_classifies pod Hp) as [_ Hcl].
  assert (Hsum : Pod.restarts (Pod.derived pod)
                 = Go.wrap64 (sumRestarts (sidecarStatuses pod)
                              + sumRestarts (corev1.ContainerStatuses
                                               (corev1.Status_ pod)))).
  { unfold Pod.derived. rewrite Hcl.
    rewrite (proj1 (backToRunning_counters _ _)).
    unfold Pod.afterContainers, Pod.containerLoop.
    rewrite fold_containerStep_restarts; simpl.
    - unfold Pod.afterInit. rewrite initLoop_passed_sidecars by (auto; reflexivity).
      simpl. rewrite wrap64_add_l, sumRestarts_rev. reflexivity.
    - unfold Pod.afterInit. rewrite initLoop_passed_sidecars by (auto; reflexivity).
      apply wrap64_idem. }
  split; [exact Hsum |].
  intros Hrange Hlen. rewrite Hsum. apply wrap64_small.
  pose proof (sumRestarts_bounds (sidecarStatuses pod)) as Hs.
  pose proof (sumRestarts_bounds (corev1.ContainerStatuses (corev1.Status_ pod))) as Hc.
  pose proof (filter_length_le (sidecarStatus (Pod.initContainers pod))
                (corev1.InitContainerStatuses (corev1.Status_ pod))) as Hf.
  fold (sidecarStatuses pod) in Hf.
  unfold Go.len in *. rewrite length_app in Hlen.
  assert (Hs' := Hs (fun s Hin => Hrange s
                       (in_or_app _ _ _ (or_introl (proj1 (proj1 (filter_In _ _ _) Hin)))))).
  assert (Hc' := Hc (fun s Hin => Hrange s (in_or_app _ _ _ (or_intror Hin)))).
  lia.
Qed.

(** X12: when the loop passes over every init container status, the last
    restart date of the pod is the latest date at which a last termination
    finished, among the container statuses and the statuses of init
    containers with restart policy Always, and the zero time when there is
    none after it. *)
Theorem last_restart_date_latest (pod : corev1.Pod) :
  let status := corev1.Status_ pod in
  let counted := (sidecarStatuses pod ++ corev1.ContainerStatuses status)%list in
  let d := Pod.lastRestartDate (Pod.derived pod) in
  (forall s, In s (corev1.InitContainerStatuses status) -> passedInit pod s) ->
  0 <= d
  /\ (forall s finished, In s counted -> lastTermination s = Some finished ->
        finished <= d)
  /\ (d = 0 \/ exists s, In s counted /\ lastTermination s = Some d).
Proof.
  intros status counted d Hp. subst status counted d.
  destruct (init_passed_classifies pod Hp) as [_ Hcl].
  unfold Pod.derived. rewrite Hcl.
  rewrite (proj2 (backToRunning_counters _ _)).
  unfold Pod.afterContainers, Pod.containerLoop.
  match goal with
  | |- context [fold_left Pod.containerStep ?l ?v] =>
      destruct (fold_containerStep_date l v) as (Hle & Hall & Hex)
  end.
  simpl in Hle, Hex.
  destruct (initLoop_passed_date pod
              (Go.len (corev1.InitContainers (corev1.Spec pod)))
              (corev1.InitContainerStatuses (corev1.Status_ pod)) 0 (Pod.start pod) Hp)
    as (Hle0 & Hall0 & Hex0).
  fold (Pod.afterInit pod) in Hle0, Hall0, Hex0. fold (sidecarStatuses pod) in Hall0, Hex0.
  simpl in Hle0, Hex0. unfold metav1.zeroTime in *.
  repeat split.
  - lia.
  - intros s f Hin Hf. apply in_app_or in Hin as [Hin|Hin].
    + specialize (Hall0 s f Hin Hf). lia.
    + apply (Hall s f); [apply in_rev in Hin; exact Hin | exact Hf].
  - destruct Hex as [Hex | (s & Hin & Hf)].
    + destruct Hex0 as [Hex0 | (s & Hin & Hf)].
      * left. lia.
      * right. exists s. split; [apply in_or_app; left; exact Hin |].
        rewrite Hex. exact Hf.
    + right. exists s. split; [apply in_or_app; right; apply in_rev; exact Hin | exact Hf].
Qed.

(** ** The reason a pod starts from, and its conditions *)

Lemma initialReason_fold (conditions : list corev1.PodCondition) : forall r,
  let gates c :=
    String.eqb (corev1.Type_ c) corev1.PodScheduled
    && String.eqb (corev1.cReason c) corev1.PodReasonSchedulingGated in
  fold_left (fun reason c => if gates c then corev1.PodReasonSchedulingGated else reason)
    conditions r
  = if existsb gates conditions then corev1.PodReasonSchedulingGated else r.
Proof.
  induction conditions as [|c rest IH]; intros r gates; [reflexivity |].
  cbn [fold_left existsb]. rewrite IH. fold gates.
  destruct (gates c); simpl; [| reflexivity].
  destruct (existsb gates rest); reflexivity.
Qed.

Lemma schedulingGated_spec (pod : corev1.Pod) :
  existsb (fun c => String.eqb (corev1.Type_ c) corev1.PodScheduled
                    && String.eqb (corev1.cReason c) corev1.PodReasonSchedulingGated)
    (corev1.Conditions (corev1.Status_ pod)) = true
  <-> schedulingGated pod.
Proof.
  unfold schedulingGated. rewrite existsb_exists.
  split; intros (c & Hin & Hc); exists c; split; try exact Hin.
  - apply andb_true_iff in Hc as [Ht Hr].
    apply String.eqb_eq in Ht, Hr. auto.
  - destruct Hc as [-> ->]. reflexivity.
Qed.

(** X13: a pod without container statuses and without a deletion timestamp
    shows "SchedulingGated" when one of its conditions is PodScheduled with
    that reason; otherwise its status reason when it has one, and its phase
    when it has none. *)
Theorem status_without_container_statuses `{Clock} (pod : corev1.Pod) :
  let status := corev1.Status_ pod in
  corev1.InitContainerStatuses status = [] ->
  corev1.ContainerStatuses status = [] ->
  corev1.DeletionTimestamp pod = None ->
  (schedulingGated pod -> Pod.iStatus (Pod.printPod pod) = "SchedulingGated")
  /\ (~ schedulingGated pod -> corev1.Reason status <> EmptyString ->
      Pod.iStatus (Pod.printPod pod) = corev1.Reason status)
  /\ (~ schedulingGated pod -> corev1.Reason status = EmptyString ->
      Pod.iStatus (Pod.printPod pod) = corev1.Phase status).
Proof.
  intros status Hics Hcs Hdel. subst status.
  assert (Hshown : Pod.iStatus (Pod.printPod pod) = Pod.initialReason pod).
  { simpl. unfold Pod.deletionReason. rewrite Hdel.
    unfold Pod.derived, Pod.classifies, Pod.afterContainers, Pod.afterInit,
      Pod.backToRunning, Pod.containerLoop.
    rewrite Hics, Hcs. simpl. rewrite andb_false_r. reflexivity. }
  rewrite Hshown. unfold Pod.initialReason. rewrite initialReason_fold.
  pose proof (schedulingGated_spec pod) as Hg.
  destruct (existsb _ _).
  - split; [reflexivity |].
    split; intros Hn; exfalso; apply Hn, Hg; reflexivity.
  - assert (Hn : ~ schedulingGated pod) by (intros Hy; apply Hg in Hy; discriminate).
    split; [contradiction |]. split.
    + intros _ Hr. unfold Go.nonempty.
      destruct (String.eqb_spec (corev1.Reason (corev1.Status_ pod)) EmptyString);
        [contradiction | reflexivity].
    + intros _ Hr. rewrite Hr. reflexivity.
Qed.

(** X14: of several conditions of type Initialized the first one decides:
    isPodInitializedConditionTrue holds exactly when the first condition of
    that type has status True. *)
Theorem isPodInitializedConditionTrue_first (conditions : list corev1.PodCondition) :
  Pod.isPodInitializedConditionTrue conditions = true
  <-> exists before c after,
        conditions = (before ++ c :: after)%list
        /\ (forall b, In b before -> corev1.Type_ b <> "Initialized")
        /\ corev1.Type_ c = "Initialized"
        /\ corev1.Status c = "True".
Proof.
  induction conditions as [|c rest IH]; simpl.
  - split; [discriminate |].
    intros (before & c & after & Heq & _). destruct before; discriminate.
  - destruct (String.eqb_spec (corev1.Type_ c) corev1.PodInitialized) as [Ht|Ht]; simpl.
    + rewrite String.eqb_eq. split.
      * intros Hs. exists [], c, rest. repeat split; auto; intros b [].
      * intros ([|b before] & c' & after & Heq & Hb & Ht' & Hs').
        -- injection Heq as <- _. exact Hs'.
        -- injection Heq as <- _. exfalso. apply (Hb c); [left; reflexivity | exact Ht].
    + rewrite IH. split.
      * intros (before & c' & after & -> & Hb & Ht' & Hs').
        exists (c :: before), c', after. repeat split; auto.
        intros b [<-|Hin]; [exact Ht | apply Hb; exact Hin].
      * intros ([|b before] & c' & after & Heq & Hb & Ht' & Hs').
        -- injection Heq as <- _. contradiction.
        -- injection Heq as <- ->. exists before, c', after. repeat split; auto.
           intros b' Hin. apply Hb. right. exact Hin.
Qed.

(** ** The list commands *)

Lemma ListPods_flags `{Clock} `{io.Streams} `{labels.Validation}
    {Config} `{Cluster Config corev1.Pod} (flags : Pod.listFlags) :
  (if Pod.allNamespace flags then
     {| Pod.Common := Pod.Common flags; Pod.Namespace := EmptyString;
        Pod.JobName := Pod.JobName flags;
        Pod.allNamespace := Pod.allNamespace flags;
        Pod.QueueName := Pod.QueueName flags |}
   else flags) = afterListPods flags.
Proof.
  unfold afterListPods, askedNamespace.
  destruct flags as [c n j [|] q]; reflexivity.
Qed.

(** X15: createLabelSelector returns an error exactly when NewRequirement
    refuses one of the requested requirements, and it is the error of the
    first one refused, the job name requirement before the queue name
    requirement. *)
Theorem createLabelSelector_error `{labels.Validation} (jobName queueName err : string) :
  Pod.createLabelSelector jobName queueName = inr err
  <-> firstRefusal (requested jobName queueName) err.
Proof.
  unfold firstRefusal, Pod.createLabelSelector, labels.NewRequirement.
  destruct jobName as [|a j], queueName as [|b q]; simpl.
  all: repeat match goal with
              | |- context [labels.refused ?k ?o ?v] =>
                  let E := fresh "E" in destruct (labels.refused k o v) eqn:E
              end; simpl.
  all: split;
    [ intros Herr; try discriminate; injection Herr as <-
    | intros ([|p [|p' before]] & r & after & Heq & Hbefore & Hr);
      simpl in Heq; try discriminate;
      injection Heq as; subst;
      try (destruct before; discriminate);
      try (pose proof (Hbefore _ (or_introl eq_refl)) as Hb; simpl in Hb);
      simpl in Hr; congruence ].
  all: first
    [ exists [], hasJob, []; repeat split; [intros x [] | exact E]
    | exists [], (queueIs (String b q)), []; repeat split; [intros x [] | exact E]
    | exists [], (jobIs (String a j)), []; repeat split; [intros x [] | exact E]
    | exists [], (jobIs (String a j)), [queueIs (String b q)];
      repeat split; [intros x [] | exact E]
    | exists [jobIs (String a j)], (queueIs (String b q)), [];
      repeat split; [intros x [<-|[]]; assumption | assumption] ].
Qed.

(** X16: ListPods returns an error exactly when BuildConfig, createLabelSelector
    or the list call fails, the error is that of the first of them to fail,
    and then it writes nothing. When all three succeed it returns no
    error, whatever happens to its writes. *)
Theorem ListPods_errors `{Clock} `{io.Streams} `{labels.Validation}
    {Config} `{Cluster Config corev1.Pod} (flags : Pod.listFlags) (t : list io.write) :
  let built := BuildConfig (Master (Pod.Common flags)) (Kubeconfig (Pod.Common flags)) in
  let selected := Pod.createLabelSelector (Pod.JobName flags) (Pod.QueueName flags) in
  let namespace := askedNamespace (Pod.allNamespace flags) (Pod.Namespace flags) in
  let error := snd (io.result (Pod.ListPods flags) t) in
  (forall err,
     error = Some err
     <-> built = inr err
         \/ (exists config, built = inl config /\ selected = inr err)
         \/ (exists config selector,
               built = inl config /\ selected = inl selector
               /\ List config namespace (Some selector) = inr err))
  /\ (error <> None -> io.output (Pod.ListPods flags) t = t).
Proof.
  intros built selected namespace error.
  subst built selected namespace error.
  unfold io.output, io.result, Pod.ListPods.
  destruct (BuildConfig _ _) as [config|e0].
  - rewrite ListPods_flags. cbn [afterListPods Pod.JobName Pod.QueueName Pod.Namespace].
    destruct (Pod.createLabelSelector _ _) as [selector|e1].
    + destruct (List config _ (Some selector)) as [pods|e2] eqn:Hlist.
      * destruct (Go.len pods =? 0); unfold io.bind, io.ret;
          [destruct (io.Printf _ _ t) | destruct (Pod.PrintPods _ _ t)]; simpl.
        all: split; [| intros Hn; contradiction].
        all: intros err; split; [discriminate |].
        all: intros [Hb | [(c & Hb & Hs) | (c & sl & Hb & Hs & Hl)]];
          simplify_eq; congruence.
      * simpl. split; [| reflexivity].
        intros err. split.
        -- intros [= <-]. right. right. exists config, selector. auto.
        -- intros [Hb | [(c & Hb & Hs) | (c & sl & Hb & Hs & Hl)]]; congruence.
    + simpl. split; [| reflexivity].
      intros err. split.
      * intros [= <-]. right. left. exists config. auto.
      * intros [Hb | [(c & Hb & Hs) | (c & sl & Hb & Hs & Hl)]]; congruence.
  - simpl. split; [| reflexivity].
    intros err. split.
    + intros [= <-]. left. reflexivity.
    + intros [Hb | [(c & Hb & Hs) | (c & sl & Hb & Hs & Hl)]]; congruence.
Qed.

(** X17: when the cluster answers with pods, ListPods writes the table of
    exactly these pods to standard output and returns no error; it leaves
    the namespace flag empty when all namespaces were asked for and every
    other flag as it was. *)
Theorem ListPods_prints `{Clock} `{io.Streams} `{labels.Validation}
    {Config} `{Cluster Config corev1.Pod} (flags : Pod.listFlags) (t : list io.write)
    config selector pods :
  BuildConfig (Master (Pod.Common flags)) (Kubeconfig (Pod.Common flags)) = inl config ->
  Pod.createLabelSelector (Pod.JobName flags) (Pod.QueueName flags) = inl selector ->
  List config (askedNamespace (Pod.allNamespace flags) (Pod.Namespace flags))
    (Some selector) = inl pods ->
  pods <> [] ->
  io.output (Pod.ListPods flags) t = io.output (Pod.PrintPods pods io.Stdout) t
  /\ io.result (Pod.ListPods flags) t = (afterListPods flags, None).
Proof.
  intros Hconfig Hsel Hlist Hpods.
  unfold io.output, io.result, Pod.ListPods. rewrite Hconfig, ListPods_flags.
  cbn [afterListPods Pod.JobName Pod.QueueName Pod.Namespace].
  rewrite Hsel, Hlist.
  destruct pods as [|p pods]; [contradiction |].
  unfold Go.len. rewrite length_cons.
  destruct (Z.eqb_spec (Z.of_nat (S (length pods))) 0) as [Hz|_]; [lia |].
  unfold io.bind, io.ret.
  destruct (Pod.PrintPods (p :: pods) io.Stdout t). split; reflexivity.
Qed.

(** X18: ListJobFlow returns an error exactly when BuildConfig or the list
    call fails, the error of the first of them to fail, and then it writes
    nothing; when the cluster answers with jobflows it writes their table
    to standard output and returns no error. *)
Theorem ListJobFlow_outcomes `{Clock} `{io.Streams}
    {Config} `{Cluster Config flowv1alpha1.JobFlow} (flags : JobFlow.listFlags)
    (t : list io.write) :
  let built :=
    BuildConfig (Master (JobFlow.Common flags)) (Kubeconfig (JobFlow.Common flags)) in
  let error := io.result (JobFlow.ListJobFlow flags) t in
  (forall err,
     error = Some err
     <-> built = inr err
         \/ (exists config,
               built = inl config
               /\ List config (JobFlow.fNamespace flags) None = inr err))
  /\ (error <> None -> io.output (JobFlow.ListJobFlow flags) t = t)
  /\ (forall config jobFlows,
        built = inl config ->
        List config (JobFlow.fNamespace flags) None = inl jobFlows ->
        jobFlows <> [] ->
        io.output (JobFlow.ListJobFlow flags) t
        = io.output (JobFlow.PrintJobFlows jobFlows io.Stdout) t).
Proof.
  intros built error. subst built error.
  unfold io.output, io.result, JobFlow.ListJobFlow.
  destruct (BuildConfig _ _) as [config|e0].
  - destruct (List config _ None) as [jobFlows|e1] eqn:Hlist.
    + destruct (Z.eqb_spec (Go.len jobFlows) 0) as [Hz|Hz];
        unfold io.bind, io.ret;
        [destruct (io.Printf _ _ t) eqn:Hp
        | destruct (JobFlow.PrintJobFlows _ _ t) eqn:Hp]; simpl.
      all: split; [| split; [intros Hn; contradiction |]].
      all: try (intros err; split; [discriminate |];
                intros [Hb | (c & Hb & Hl)]; simplify_eq; congruence).
      * intros c js [= <-] Hjs Hne. rewrite Hlist in Hjs. injection Hjs as <-.
        destruct jobFlows; [contradiction | discriminate].
      * intros c js [= <-] Hjs Hne. rewrite Hlist in Hjs. injection Hjs as <-.
        rewrite Hp. reflexivity.
    + simpl. split; [| split; [reflexivity |]].
      * intros err. split.
        -- intros [= <-]. right. exists config. auto.
        -- intros [Hb | (c & Hb & Hl)]; simplify_eq; congruence.
      * intros c js [= <-] Hjs. congruence.
  - simpl. split; [| split; [reflexivity |]].
    + intros err. split.
      * intros [= <-]. left. reflexivity.
      * intros [Hb | (c & Hb & Hl)]; simplify_eq; congruence.
    + intros c js Hb. discriminate.
Qed.

(** ** The widths of the columns *)

Lemma pod_longer_max m s : Pod.longer m s = Z.max m (Go.slen s).
Proof. unfold Pod.longer. destruct (Z.gtb_spec (Go.slen s) m); lia. Qed.

Lemma pod_measure_swap w a b :
  Pod.measure (Pod.measure w a) b = Pod.measure (Pod.measure w b) a.
Proof. unfold Pod.measure. simpl. rewrite !pod_longer_max. f_equal; lia. Qed.

Lemma pod_fold_measure_perm (l l' : list Pod.PodInfo) :
  Permutation l l' -> forall w, fold_left Pod.measure l w = fold_left Pod.measure l' w.
Proof.
  induction 1 as [|x l l' _ IH|x y l|l l' l'' _ IH1 _ IH2]; intros w; simpl.
  - reflexivity.
  - apply IH.
  - rewrite pod_measure_swap. reflexivity.
  - rewrite IH1. apply IH2.
Qed.

Lemma jobflow_longer_max m s : JobFlow.longer m s = Z.max m (Go.slen s).
Proof. unfold JobFlow.longer. destruct (Z.gtb_spec (Go.slen s) m); lia. Qed.

Lemma jobflow_measure_swap `{Clock} w a b :
  JobFlow.measure (JobFlow.measure w a) b = JobFlow.measure (JobFlow.measure w b) a.
Proof.
  destruct w as [[[n ns] p] g]. unfold JobFlow.measure.
  rewrite !jobflow_longer_max. f_equal; [f_equal; [f_equal |] |]; lia.
Qed.

Lemma jobflow_fold_measure_perm `{Clock} (l l' : list flowv1alpha1.JobFlow) :
  Permutation l l' ->
  forall w, fold_left JobFlow.measure l w = fold_left JobFlow.measure l' w.
Proof.
  induction 1 as [|x l l' _ IH|x y l|l l' l'' _ IH1 _ IH2]; intros w; simpl.
  - reflexivity.
  - apply IH.
  - rewrite jobflow_measure_swap. reflexivity.
  - rewrite IH1. apply IH2.
Qed.

(** X19: the widths of the columns, and so the format string of the table,
    do not depend on the order of the rows: the same pods, or the same
    jobflows, in another order give the same widths. *)
Theorem column_widths_order `{Clock} :
  (forall pods pods' : list corev1.Pod,
     Permutation pods pods' ->
     Pod.columnWidths (map Pod.printPod pods) = Pod.columnWidths (map Pod.printPod pods'))
  /\ (forall jobFlows jobFlows' : list flowv1alpha1.JobFlow,
        Permutation jobFlows jobFlows' ->
        JobFlow.calculateMaxInfoLength jobFlows = JobFlow.calculateMaxInfoLength jobFlows'
        /\ JobFlow.formatStr (JobFlow.columnWidths jobFlows)
           = JobFlow.formatStr (JobFlow.columnWidths jobFlows')).
Proof.
  split.
  - intros pods pods' Hperm. unfold Pod.columnWidths.
    rewrite (pod_fold_measure_perm _ _ (Permutation_map Pod.printPod Hperm)).
    reflexivity.
  - intros jobFlows jobFlows' Hperm.
    assert (Hmax : JobFlow.calculateMaxInfoLength jobFlows
                   = JobFlow.calculateMaxInfoLength jobFlows')
      by (apply jobflow_fold_measure_perm; exact Hperm).
    split; [exact Hmax |]. unfold JobFlow.columnWidths. rewrite Hmax. reflexivity.
Qed.

Lemma pod_measure_attained w info k :
  (k < 5)%nat ->
  nth k (podWidths (Pod.measure w info)) 0 = nth k (podWidths w) 0
  \/ nth k (podWidths (Pod.measure w info)) 0
     = Go.slen (nth k (Pod.rowLine info) EmptyString).
Proof.
  intros Hk. unfold podWidths, Pod.measure, Pod.rowLine. simpl.
  do 5 (destruct k as [|k]; [simpl; rewrite pod_longer_max; lia |]). lia.
Qed.

Lemma pod_fold_measure_attained (infoList : list Pod.PodInfo) : forall w k,
  (k < 5)%nat ->
  nth k (podWidths (fold_left Pod.measure infoList w)) 0 = nth k (podWidths w) 0
  \/ exists info,
       In info infoList
       /\ nth k (podWidths (fold_left Pod.measure infoList w)) 0
          = Go.slen (nth k (Pod.rowLine info) EmptyString).
Proof.
  induction infoList as [|i rest IH]; intros w k Hk; cbn [fold_left];
    [left; reflexivity |].
  destruct (IH (Pod.measure w i) k Hk) as [Heq | (info & Hin & Heq)].
  - rewrite Heq. destruct (pod_measure_attained w i k Hk) as [Hm|Hm].
    + left. exact Hm.
    + right. exists i. split; [left; reflexivity | exact Hm].
  - right. exists info. split; [right; exact Hin | exact Heq].
Qed.

Lemma jobflow_measure_attained `{Clock} w jobFlow k :
  (k < 4)%nat ->
  nth k (jobFlowWidths (JobFlow.measure w jobFlow)) 0 = nth k (jobFlowWidths w) 0
  \/ nth k (jobFlowWidths (JobFlow.measure w jobFlow)) 0
     = Go.slen (nth k (measuredLine jobFlow) EmptyString).
Proof.
  intros Hk. destruct w as [[[n ns] p] g].
  unfold jobFlowWidths, JobFlow.measure, measuredLine.
  do 4 (destruct k as [|k]; [simpl; rewrite jobflow_longer_max; lia |]). lia.
Qed.

Lemma jobflow_fold_measure_attained `{Clock} (jobFlows : list flowv1alpha1.JobFlow) :
  forall w k,
    (k < 4)%nat ->
    nth k (jobFlowWidths (fold_left JobFlow.measure jobFlows w)) 0
    = nth k (jobFlowWidths w) 0
    \/ exists jobFlow,
         In jobFlow jobFlows
         /\ nth k (jobFlowWidths (fold_left JobFlow.measure jobFlows w)) 0
            = Go.slen (nth k (measuredLine jobFlow) EmptyString).
Proof.
  induction jobFlows as [|j rest IH]; intros w k Hk; cbn [fold_left];
    [left; reflexivity |].
  destruct (IH (JobFlow.measure w j) k Hk) as [Heq | (jf & Hin & Heq)].
  - rewrite Heq. destruct (jobflow_measure_attained w j k Hk) as [Hm|Hm].
    + left. exact Hm.
    + right. exists j. split; [left; reflexivity | exact Hm].
  - right. exists jf. split; [right; exact Hin | exact Heq].
Qed.

(** X20: no column is wider than it has to be. In the pod table a column
    is 8 wide, or as wide as one of its cells is long plus 8; in the
    jobflow table a column is as wide as its header, or one of the strings
    measured for it, is long plus 4. The strings measured for the Name,
    Namespace and Phase columns are the cells that are printed; the age
    that is measured need not be the age that is printed. *)
Theorem column_widths_attained `{Clock} :
  (forall (pods : list corev1.Pod) (k : nat),
     (k < 5)%nat ->
     let infoList := map Pod.printPod pods in
     let width := nth k (podWidths (Pod.columnWidths infoList)) 0 in
     width = 8
     \/ exists info,
          In info infoList
          /\ width = Go.slen (nth k (Pod.rowLine info) EmptyString) + 8)
  /\ (forall (jobFlows : list flowv1alpha1.JobFlow) (k : nat),
        (k < 4)%nat ->
        let width := nth k (jobFlowWidths (JobFlow.columnWidths jobFlows)) 0 in
        width = Go.slen (nth k JobFlow.headerLine EmptyString) + 4
        \/ exists jobFlow,
             In jobFlow jobFlows
             /\ width = Go.slen (nth k (measuredLine jobFlow) EmptyString) + 4)
  /\ (forall (jobFlow : flowv1alpha1.JobFlow) (k : nat),
        (k < 3)%nat ->
        nth k (measuredLine jobFlow) EmptyString
        = nth k (JobFlow.rowLine jobFlow) EmptyString).
Proof.
  split; [| split].
  - intros pods k Hk infoList width. subst width.
    set (zero := {| Pod.wName := 0; Pod.wReady := 0; Pod.wStatus := 0;
                    Pod.wRestart := 0; Pod.wAge := 0 |}).
    assert (Hadd : nth k (podWidths (Pod.columnWidths infoList)) 0
                   = nth k (podWidths (fold_left Pod.measure infoList zero)) 0 + 8).
    { unfold Pod.columnWidths, podWidths, Pod.columnSpacing. fold zero. simpl.
      do 5 (destruct k as [|k]; [reflexivity |]). lia. }
    rewrite Hadd.
    destruct (pod_fold_measure_attained infoList zero k Hk) as [Heq | (info & Hin & Heq)].
    + left. rewrite Heq. unfold podWidths, zero. simpl.
      do 5 (destruct k as [|k]; [reflexivity |]). lia.
    + right. exists info. split; [exact Hin | rewrite Heq; reflexivity].
  - intros jobFlows k Hk width. subst width.
    set (heads := (Go.slen JobFlow.Name, Go.slen JobFlow.Namespace,
                   Go.slen JobFlow.Phase, Go.slen JobFlow.Age)).
    assert (Hadd : nth k (jobFlowWidths (JobFlow.columnWidths jobFlows)) 0
                   = nth k (jobFlowWidths (fold_left JobFlow.measure jobFlows heads)) 0 + 4).
    { unfold JobFlow.columnWidths, JobFlow.calculateMaxInfoLength. fold heads.
      destruct (fold_left JobFlow.measure jobFlows heads) as [[[a b] c] d].
      unfold jobFlowWidths, JobFlow.columnSpacing.
      do 4 (destruct k as [|k]; [reflexivity |]). lia. }
    rewrite Hadd.
    destruct (jobflow_fold_measure_attained jobFlows heads k Hk)
      as [Heq | (jf & Hin & Heq)].
    + left. rewrite Heq. unfold jobFlowWidths, heads, JobFlow.headerLine.
      do 4 (destruct k as [|k]; [reflexivity |]). lia.
    + right. exists jf. split; [exact Hin | rewrite Heq; reflexivity].
  - intros jobFlow k Hk. unfold measuredLine, JobFlow.rowLine.
    do 3 (destruct k as [|k]; [reflexivity |]). lia.
Qed.

(** ** The earlier revision, continued *)

Lemma legacy_measure_ge w lens :
  Forall2 Z.le (podWidths w) (podWidths (Legacy.measure w lens))
  /\ Forall2 Z.le (returnedLengths lens) (podWidths (Legacy.measure w lens)).
Proof.
  unfold podWidths, returnedLengths, Legacy.measure. simpl.
  split; repeat constructor;
    match goal with
    | |- context [if ?a >? ?b then _ else _] => destruct (Z.gtb_spec a b); lia
    end.
Qed.

Lemma legacy_fold_measure_ge (lens : list Legacy.Lengths) : forall w,
  Forall2 Z.le (podWidths w) (podWidths (fold_left Legacy.measure lens w))
  /\ forall l, In l lens ->
       Forall2 Z.le (returnedLengths l) (podWidths (fold_left Legacy.measure lens w)).
Proof.
  induction lens as [|l0 rest IH]; intros w; simpl.
  - split; [apply Forall2_le_refl | intros l []].
  - destruct (IH (Legacy.measure w l0)) as [Hle Hin].
    destruct (legacy_measure_ge w l0) as [Hstep Hcell].
    split; [eapply Forall2_le_trans; eassumption |].
    intros l [<-|Hrest]; [| apply Hin; exact Hrest].
    eapply Forall2_le_trans; eassumption.
Qed.

(** X21: in the table of the earlier PrintPods too, the pad counts of the
    format string are at least the lengths of the headers, and at least the
    lengths that printPod returns for every row. The lengths returned for
    the Name, Ready, Status and Restart cells are the lengths of these
    cells, so they fit; the length returned for the Age cell is that of the
    age computed a second time, and the Age cell fits when it is not longer
    than that. *)
Theorem legacy_column_widths `{Clock} (pods : list corev1.Pod) :
  let rows := map Legacy.printPod pods in
  let widths := padCounts (Pod.formatStr (Legacy.columnWidths (map snd rows))) in
  Forall2 fits widths Legacy.headerLine
  /\ forall row, In row rows ->
       Forall2 Z.le (returnedLengths (snd row)) widths
       /\ Forall2 fits (take 4 widths) (take 4 (Legacy.rowLine (fst row)))
       /\ (Go.slen (Legacy.iCreationTimestamp (fst row))
           <= Legacy.lCreationTimestamp (snd row) ->
           Forall2 fits widths (Legacy.rowLine (fst row))).
Proof.
  intros rows widths. subst widths. rewrite pod_padCounts.
  set (zero := {| Pod.wName := 0; Pod.wReady := 0; Pod.wStatus := 0;
                  Pod.wRestart := 0; Pod.wAge := 0 |}).
  destruct (legacy_fold_measure_ge (map snd rows) zero) as [Hle Hin].
  assert (Hsp : Forall2 Z.le (podWidths (fold_left Legacy.measure (map snd rows) zero))
                  (podWidths (Legacy.columnWidths (map snd rows)))).
  { unfold Legacy.columnWidths, podWidths. fold zero. simpl.
    unfold Legacy.columnSpacing. repeat constructor; lia. }
  split.
  - apply Forall2_fits_le with (a := map (Z.add Legacy.columnSpacing) (podWidths zero)).
    + unfold fits. simpl. repeat constructor; vm_compute; discriminate.
    + unfold Legacy.columnWidths, podWidths in *. fold zero. simpl in *.
      invert_Forall2. repeat constructor; lia.
  - intros row Hrow.
    assert (Hlens : Forall2 Z.le (returnedLengths (snd row))
                      (podWidths (Legacy.columnWidths (map snd rows)))).
    { eapply Forall2_le_trans; [apply Hin, in_map, Hrow | exact Hsp]. }
    split; [exact Hlens |].
    apply in_map_iff in Hrow as (pod & <- & _).
    clear Hle Hin Hsp.
    remember (Legacy.columnWidths (map snd rows)) as w eqn:Hw. clear Hw.
    unfold podWidths, returnedLengths, Legacy.rowLine, fits in *.
    cbn [snd fst Legacy.printPod Legacy.lName Legacy.lReadyContainers Legacy.lReason
         Legacy.lRestarts Legacy.lCreationTimestamp Legacy.iName
         Legacy.iReadyContainers Legacy.iReason Legacy.iRestarts
         Legacy.iCreationTimestamp] in *.
    invert_Forall2. cbn [take].
    split; [repeat constructor; assumption |].
    intros Hage. repeat constructor; try assumption. lia.
Qed.

Lemma filterPods_filter (pods : list corev1.Pod) (keep : corev1.Pod -> bool) :
  Legacy.filterPods pods keep = List.filter keep pods.
Proof.
  unfold Legacy.filterPods.
  assert (Hgen : forall acc,
            fold_left (fun items pod => if keep pod then (items ++ [pod])%list else items)
              pods acc
            = (acc ++ List.filter keep pods)%list).
  { induction pods as [|p rest IH]; intros acc; simpl.
    - now rewrite app_nil_r.
    - rewrite IH. destruct (keep p); [| reflexivity].
      now rewrite <- app_assoc. }
  apply (Hgen []).
Qed.

Lemma filterFunc_spec (flags : Legacy.listFlags) (p : corev1.Pod) :
  Legacy.filterFunc flags p = true
  <-> (Legacy.Namespace flags = EmptyString
       \/ Legacy.Namespace flags = corev1.Namespace p)
      /\ (Legacy.JobName flags = EmptyString
          \/ corev1.Labels p !! JobNameKey = Some (Legacy.JobName flags)).
Proof.
  unfold Legacy.filterFunc, Go.nonempty.
  destruct (String.eqb_spec (Legacy.Namespace flags) EmptyString) as [Hn|Hn];
    destruct (String.eqb_spec (Legacy.Namespace flags) (corev1.Namespace p)) as [Hp|Hp];
    destruct (String.eqb_spec (Legacy.JobName flags) EmptyString) as [Hj|Hj];
    destruct (corev1.Labels p !! JobNameKey) as [l|] eqn:Hl; simpl;
    try (destruct (String.eqb_spec (Legacy.JobName flags) l) as [He|He]; simpl);
    try (destruct (String.eqb_spec (Legacy.JobName flags) EmptyString) as [He'|He'];
         simpl);
    (split;
     [ intros Htrue; try discriminate Htrue;
       (split; [first [left; assumption | right; assumption]
               | first [left; assumption | right; congruence]])
     | intros [[Hx|Hx] [Hy|Hy]]; first [reflexivity | congruence] ]).
Qed.

(** X22: the earlier ListPods prints the table of exactly those pods of the
    cluster's answer that are in the namespace asked for, when one is asked
    for, and that carry the job name asked for in their job name label,
    when one is asked for; they keep their order. *)
Theorem legacy_ListPods_filters `{Clock} `{io.Streams} `{labels.Validation}
    {Config} `{Cluster Config corev1.Pod} (flags : Legacy.listFlags)
    (t : list io.write) config selector pods :
  let namespace := askedNamespace (Legacy.allNamespace flags) (Legacy.Namespace flags) in
  let shown :=
    List.filter
      (fun p => bool_decide
                  ((namespace = EmptyString \/ namespace = corev1.Namespace p)
                   /\ (Legacy.JobName flags = EmptyString
                       \/ corev1.Labels p !! JobNameKey = Some (Legacy.JobName flags))))
      pods in
  BuildConfig (Master (Legacy.Common flags)) (Kubeconfig (Legacy.Common flags))
    = inl config ->
  Legacy.createLabelSelector (Legacy.JobName flags) = inl selector ->
  List config namespace (Some selector) = inl pods ->
  shown <> [] ->
  io.output (Legacy.ListPods flags) t = io.output (Legacy.PrintPods shown io.Stdout) t
  /\ snd (io.result (Legacy.ListPods flags) t) = None.
Proof.
  intros namespace shown Hconfig Hsel Hlist Hshown.
  unfold io.output, io.result, Legacy.ListPods. rewrite Hconfig.
  set (flags' := if Legacy.allNamespace flags then _ else flags).
  assert (Hns : Legacy.Namespace flags' = namespace)
    by (unfold flags', namespace, askedNamespace;
        destruct (Legacy.allNamespace flags); reflexivity).
  assert (Hjob : Legacy.JobName flags' = Legacy.JobName flags)
    by (unfold flags'; destruct (Legacy.allNamespace flags); reflexivity).
  rewrite Hjob, Hsel, Hns, Hlist.
  assert (Hfilter : Legacy.filterPods pods (Legacy.filterFunc flags') = shown).
  { rewrite filterPods_filter. unfold shown. apply List.filter_ext.
    intros p. rewrite <- Hns, <- Hjob.
    destruct (Legacy.filterFunc flags' p) eqn:Hf; symmetry.
    - apply bool_decide_eq_true. apply filterFunc_spec. exact Hf.
    - apply bool_decide_eq_false. rewrite <- filterFunc_spec. congruence. }
  rewrite Hfilter.
  destruct shown as [|p shown']; [contradiction |].
  unfold Go.len. rewrite length_cons.
  destruct (Z.eqb_spec (Z.of_nat (S (length shown'))) 0) as [Hz|_]; [lia |].
  unfold io.bind, io.ret.
  destruct (Legacy.PrintPods (p :: shown') io.Stdout t). split; reflexivity.
Qed.

(** ** The two revisions of printPod *)

Lemma declared_lookup (inits : list corev1.Container) :
  forall (m : gmap string corev1.Container) k c,
    fold_left (fun m c => <[corev1.cName c := c]> m) inits m !! k = Some c ->
    m !! k = Some c \/ In c inits.
Proof.
  induction inits as [|c0 rest IH]; intros m k c Hk; simpl in *; [left; exact Hk |].
  destruct (IH _ _ _ Hk) as [Hm | Hin]; [| right; right; exact Hin].
  apply lookup_insert_Some in Hm as [[_ <-] | [_ Hm]]; [right; left; reflexivity |].
  left; exact Hm.
Qed.

Lemma no_restartable_lookup (pod : corev1.Pod) :
  (forall c, In c (corev1.InitContainers (corev1.Spec pod)) ->
             corev1.RestartPolicy c <> Some "Always") ->
  forall name, Pod.isRestartableInitContainer (Pod.initContainers pod !! name) = false.
Proof.
  intros Hno name.
  destruct (Pod.initContainers pod !! name) as [c|] eqn:Hc; [| reflexivity].
  apply declared_lookup in Hc as [Hc | Hin]; [rewrite lookup_empty in Hc; discriminate |].
  specialize (Hno c Hin). unfold Pod.isRestartableInitContainer.
  destruct (corev1.RestartPolicy c) as [p|]; [| reflexivity].
  destruct (String.eqb_spec p corev1.ContainerRestartPolicyAlways) as [->|]; [| reflexivity].
  contradiction Hno; reflexivity.
Qed.

Lemma initLoop_agree (ics : gmap string corev1.Container) (n : Z) :
  (forall name, Pod.isRestartableInitContainer (ics !! name) = false) ->
  forall statuses i old new,
    agree old new ->
    agree (Legacy.initLoop n i statuses old) (Pod.initLoop ics n i statuses new)
    /\ Pod.restartableInitContainerRestarts (Pod.initLoop ics n i statuses new)
       = Pod.restartableInitContainerRestarts new
    /\ Pod.lastRestartableInitContainerRestartDate (Pod.initLoop ics n i statuses new)
       = Pod.lastRestartableInitContainerRestartDate new.
Proof.
  intros Hno.
  induction statuses as [|s rest IH]; intros i old new Hag; [auto |].
  cbn [Legacy.initLoop Pod.initLoop].
  unfold Legacy.initSwitch, Pod.initSwitch, Pod.countInit. rewrite Hno. cbn [andb].
  assert (Hcount : agree (Legacy.count s old)
            (Pod.set_restarts (Go.int_add (Pod.restarts new) (corev1.RestartCount s))
               (Pod.noteTermination (Pod.lastRestartDate new) s) new)).
  { destruct Hag as (Hr & Hy & Hd & Hre & Hi). unfold agree; simpl.
    rewrite Hr, Hd. auto. }
  assert (Hbreak : forall r, 
            agree (Legacy.set_initializing (Legacy.set_reason r (Legacy.count s old)))
              (Pod.set_initializing (Pod.set_reason r
                 (Pod.set_restarts (Go.int_add (Pod.restarts new) (corev1.RestartCount s))
                    (Pod.noteTermination (Pod.lastRestartDate new) s) new)))).
  { intros r. destruct Hcount as (Hr & Hy & Hd & Hre & Hi). unfold agree; simpl in *. auto. }
  destruct (corev1.Terminated (corev1.State s)) as [t|].
  - destruct (corev1.ExitCode t =? 0).
    + destruct (IH (i + 1) _ _ Hcount) as (Ha & Hb & Hc). auto.
    + auto.
  - destruct (corev1.Waiting (corev1.State s)) as [w|]; [| auto].
    destruct (_ && _); auto.
Qed.

Lemma legacy_initLoop_date (n : Z) : forall statuses i old,
  (forall s, In s statuses -> lastTermination s = None) ->
  Legacy.lastRestartDate (Legacy.initLoop n i statuses old) = Legacy.lastRestartDate old.
Proof.
  induction statuses as [|s rest IH]; intros i old Hlast; [reflexivity |].
  assert (Hs : corev1.Terminated (corev1.LastTerminationState s) = None).
  { specialize (Hlast s (or_introl eq_refl)). unfold lastTermination in Hlast.
    destruct (corev1.Terminated (corev1.LastTerminationState s)); [discriminate | reflexivity]. }
  assert (Hcount : Legacy.lastRestartDate (Legacy.count s old) = Legacy.lastRestartDate old)
    by (unfold Legacy.count, Pod.noteTermination; rewrite Hs; reflexivity).
  cbn [Legacy.initLoop]. unfold Legacy.initSwitch.
  destruct (corev1.Terminated (corev1.State s)) as [t|].
  - destruct (corev1.ExitCode t =? 0); [| exact Hcount].
    rewrite IH; [exact Hcount | intros s' Hin; apply Hlast; right; exact Hin].
  - destruct (corev1.Waiting (corev1.State s)) as [w|]; [| exact Hcount].
    destruct (_ && _); exact Hcount.
Qed.

Lemma containerStep_agree old new s :
  agree old new -> agree (Legacy.containerStep old s) (Pod.containerStep new s).
Proof.
  intros (Hr & Hy & Hd & Hre & Hi).
  unfold Legacy.containerStep, Pod.containerStep, Legacy.count, agree.
  rewrite Hr, Hy, Hd, Hre, Hi.
  destruct (corev1.Waiting (corev1.State s)) as [[[|a w]]|];
    try (simpl; auto; fail);
    (destruct (corev1.Terminated (corev1.State s)) as [t|];
     [ destruct (Go.nonempty (corev1.tReason t)); [simpl; auto |];
       destruct (negb (corev1.Signal t =? 0)); simpl; auto
     | destruct (corev1.Ready s && Go.isSome (corev1.Running (corev1.State s)));
       simpl; auto ]).
Qed.

Lemma fold_containerStep_agree : forall statuses old new,
  agree old new ->
  agree (fold_left Legacy.containerStep statuses old)
    (fold_left Pod.containerStep statuses new).
Proof.
  induction statuses as [|s rest IH]; intros old new Hag; [exact Hag |].
  simpl. apply IH, containerStep_agree, Hag.
Qed.

Lemma fold_containerStep_none_running : forall statuses v,
  (forall s, In s statuses -> countedReady s = false) ->
  Pod.hasRunning (fold_left Pod.containerStep statuses v) = Pod.hasRunning v.
Proof.
  induction statuses as [|s rest IH]; intros v Hnone; [reflexivity |].
  simpl. rewrite IH by (intros s' Hin; apply Hnone; right; exact Hin).
  specialize (Hnone s (or_introl eq_refl)).
  unfold Pod.containerStep, countedReady in *.
  destruct (corev1.Ready s), (corev1.Running (corev1.State s)) as [r|],
    (corev1.Terminated (corev1.State s)) as [t|],
    (corev1.Waiting (corev1.State s)) as [[[|a w]]|]; simpl in *;
    repeat match goal with
           | |- context [if ?b then _ else _] => destruct b; simpl
           end; try reflexivity; discriminate.
Qed.

(** X23: the current printPod refines the earlier one. The two fill the same
    row for a pod unless one of the additions of the current revision
    applies: a declared init container with restart policy Always, a
    SchedulingGated condition, a last termination reported by an init
    container status, an Initialized condition that is true while an init
    container blocks, the reason Completed while a container is ready and
    running, a deletion timestamp on a pod in a terminal phase, or a last
    termination next to a restart count of zero. *)
Theorem printPod_refines_legacy `{Clock} (pod : corev1.Pod) :
  let status := corev1.Status_ pod in
  let old := Legacy.derived pod in
  (forall c, In c (corev1.InitContainers (corev1.Spec pod)) ->
             corev1.RestartPolicy c <> Some "Always") ->
  ~ schedulingGated pod ->
  (forall s, In s (corev1.InitContainerStatuses status) -> lastTermination s = None) ->
  (Legacy.initializing (Legacy.afterInit pod) = true ->
   Pod.isPodInitializedConditionTrue (corev1.Conditions status) = false) ->
  (Legacy.reason old = "Completed" ->
   forall s, In s (corev1.ContainerStatuses status) -> countedReady s = false) ->
  (corev1.DeletionTimestamp pod = None
   \/ corev1.Reason status = "NodeLost"
   \/ IsPodPhaseTerminal (corev1.Phase status) = false) ->
  (Legacy.restarts old <> 0 \/ Legacy.lastRestartDate old = metav1.zeroTime) ->
  Pod.rowLine (Pod.printPod pod) = Legacy.rowLine (fst (Legacy.printPod pod)).
Proof.
  intros status old Hno Hgate Hlast Hinit Hcompleted Hdel Hzero. subst status.
  assert (Hstart : agree (Legacy.start pod) (Pod.start pod)).
  { unfold agree, Legacy.start, Pod.start; simpl. repeat split.
    unfold Pod.initialReason. rewrite initialReason_fold.
    destruct (existsb _ _) eqn:He; [| reflexivity].
    apply schedulingGated_spec in He. contradiction. }
  assert (Hloops : agree (Legacy.afterInit pod) (Pod.afterInit pod)
                   /\ Pod.restartableInitContainerRestarts (Pod.afterInit pod) = 0
                   /\ Pod.lastRestartableInitContainerRestartDate (Pod.afterInit pod)
                      = metav1.zeroTime)
    by exact (initLoop_agree (Pod.initContainers pod)
                (Go.len (corev1.InitContainers (corev1.Spec pod)))
                (no_restartable_lookup pod Hno)
                (corev1.InitContainerStatuses (corev1.Status_ pod)) 0 _ _ Hstart).
  destruct Hloops as (Hafter & Hsr & Hsd).
  assert (Hdate : Legacy.lastRestartDate (Legacy.afterInit pod) = metav1.zeroTime)
    by (unfold Legacy.afterInit; rewrite legacy_initLoop_date by exact Hlast; reflexivity).
  assert (Hd : agree old (Pod.derived pod)).
  { subst old. revert Hcompleted. unfold Legacy.derived, Pod.derived, Pod.classifies.
    pose proof Hafter as (Hr & Hy & Hdt & Hre & Hi). rewrite <- Hi.
    destruct (Legacy.initializing (Legacy.afterInit pod)) eqn:Hinitializing; simpl.
    - intros _. rewrite (Hinit eq_refl). exact Hafter.
    - intros Hcompleted.
      unfold Pod.afterContainers, Pod.containerLoop. rewrite Hsr, Hsd.
      set (new0 := Pod.set_hasRunning false _).
      set (old0 := Legacy.mkLocals 0 _ _ _ _) in *.
      assert (Hag0 : agree old0 new0).
      { unfold agree, old0, new0; simpl. rewrite Hdate. auto. }
      pose proof (fold_containerStep_agree
                    (rev (corev1.ContainerStatuses (corev1.Status_ pod))) _ _ Hag0) as Hag.
      unfold Pod.backToRunning.
      destruct (String.eqb_spec
                  (Pod.reason (fold_left Pod.containerStep
                                 (rev (corev1.ContainerStatuses (corev1.Status_ pod))) new0))
                  "Completed") as [Hc|Hc]; [| exact Hag].
      rewrite fold_containerStep_none_running; [exact Hag |].
      intros s Hin. apply Hcompleted; [| apply in_rev; exact Hin].
      destruct Hag as (_ & _ & _ & -> & _). exact Hc. }
  destruct Hd as (Hr & Hy & Hdt & Hre & Hi).
  unfold Pod.rowLine, Legacy.rowLine, Pod.printPod, Legacy.printPod.
  cbn [fst Pod.iName Pod.iReadyContainers Pod.iStatus Pod.iRestarts Pod.iCreationTimestamp
       Legacy.iName Legacy.iReadyContainers Legacy.iReason Legacy.iRestarts
       Legacy.iCreationTimestamp].
  fold old. rewrite <- Hr, <- Hy, <- Hdt, <- Hre.
  f_equal. f_equal; [| f_equal; [| f_equal]].
  - rewrite totalContainers_spec.
    replace (filter _ (corev1.InitContainers (corev1.Spec pod))) with (@nil corev1.Container).
    + unfold Go.len; simpl. rewrite Z.add_0_r. reflexivity.
    + symmetry. induction (corev1.InitContainers (corev1.Spec pod)) as [|c rest IH];
        [reflexivity |].
      rewrite filter_cons, decide_False by (apply Hno; left; reflexivity).
      apply IH. intros c' Hin. apply Hno. right; exact Hin.
  - unfold Pod.deletionReason, Legacy.deletionReason, NodeUnreachablePodReason.
    destruct (corev1.DeletionTimestamp pod) as [d|]; [| reflexivity].
    destruct (String.eqb_spec (corev1.Reason (corev1.Status_ pod)) "NodeLost") as [Hn|Hn];
      [reflexivity |].
    destruct Hdel as [Hdel | [Hdel | Hdel]]; [discriminate | contradiction |].
    rewrite Hdel. reflexivity.
  - unfold Pod.restartsStr, Legacy.restartsStr.
    destruct Hzero as [Hz | Hz].
    + destruct (Z.eqb_spec (Legacy.restarts old) 0); [contradiction | reflexivity].
    + rewrite Hz. simpl. rewrite andb_false_r. reflexivity.
Qed.

(** ** The further properties at sample objects *)

(** An init container that completed, and a running container. *)
Lemma init_containers_completed_witness :
  Pod.initializing (Pod.afterInit Sample.initRestarted) = false
  /\ Pod.reason (Pod.afterInit Sample.initRestarted) = "Running"
  /\ Pod.readyContainers (Pod.afterInit Sample.initRestarted) = 0
  /\ Pod.classifies Sample.initRestarted = true.
Proof.
  apply (init_containers_completed Sample.initRestarted).
  intros s [<-|[]]. eexists; split; reflexivity.
Defined.

(** The statuses after the failed init container are not looked at. *)
Lemma init_scan_stops_witness :
  Pod.initializing (Pod.afterInit Sample.initBlocked) = true
  /\ Pod.afterInit Sample.initBlocked
     = Pod.afterInit
         (withInitStatuses Sample.initBlocked
            [Sample.status "fetch" (Sample.terminated 0 "Completed" 1050)
               Sample.noState false 0;
             Sample.status "setup" (Sample.terminated 2 EmptyString 1100)
               Sample.noState false 1]).
Proof.
  apply (init_scan_stops Sample.initBlocked
           [Sample.status "fetch" (Sample.terminated 0 "Completed" 1050)
              Sample.noState false 0]
           (Sample.status "setup" (Sample.terminated 2 EmptyString 1100)
              Sample.noState false 1)
           [Sample.status "warm" (Sample.waiting "ImagePullBackOff")
              Sample.noState false 0]).
  - reflexivity.
  - intros d [<-|[]]. left. eexists; split; reflexivity.
  - intros (t & Ht & Hc). injection Ht as <-. discriminate Hc.
  - reflexivity.
Defined.

(** The failed init container gives the status, with its exit code. *)
Lemma init_blocking_reason_witness :
  Pod.reason (Pod.afterInit Sample.initBlocked) = "Init:ExitCode:2"
  /\ Pod.iStatus (@Pod.printPod Sample.clock Sample.initBlocked) = "Init:ExitCode:2".
Proof.
  destruct (@init_blocking_reason Sample.clock Sample.initBlocked
              [Sample.status "fetch" (Sample.terminated 0 "Completed" 1050)
                 Sample.noState false 0]
              (Sample.status "setup" (Sample.terminated 2 EmptyString 1100)
                 Sample.noState false 1)
              [Sample.status "warm" (Sample.waiting "ImagePullBackOff")
                 Sample.noState false 0])
    as (Hterminated & _ & _ & Hshown).
  - reflexivity.
  - intros d [<-|[]]. left. eexists; split; reflexivity.
  - intros (t & Ht & Hc). injection Ht as <-. discriminate Hc.
  - reflexivity.
  - destruct (Hterminated _ eq_refl) as (_ & _ & Hcode).
    rewrite (Hshown eq_refl eq_refl).
    split; exact (Hcode eq_refl eq_refl).
Defined.

(** The running container is silent; the one in a crash loop gives the
    reason, not the failed one after it. *)
Lemma container_reason_first_witness :
  Pod.reason (Pod.afterContainers Sample.crashLoop) = "CrashLoopBackOff".
Proof.
  destruct (container_reason_first Sample.crashLoop
              [Sample.status "proxy" Sample.running Sample.noState true 0]
              (Sample.status "main" (Sample.waiting "CrashLoopBackOff")
                 (Sample.terminated 1 "Error" 1200) false 4)
              [Sample.status "job" (Sample.terminated 1 "Error" 1250)
                 Sample.noState false 0])
    as (Hwaiting & _).
  - reflexivity.
  - intros q [<-|[]]. split; [reflexivity | intros w Hw; discriminate Hw].
  - apply (Hwaiting _ eq_refl). discriminate.
Defined.

(** A running container reports no reason: the pod shows its phase. *)
Lemma container_reason_silent_witness :
  Pod.reason (Pod.afterContainers Sample.initRestarted)
  = Pod.reason (Pod.afterInit Sample.initRestarted)
  /\ Pod.iStatus (@Pod.printPod Sample.clock Sample.initRestarted) = "Running".
Proof.
  destruct (@container_reason_silent Sample.clock Sample.initRestarted)
    as (Hsame & Hshown).
  - intros s [<-|[]]. split; [reflexivity | intros w Hw; discriminate Hw].
  - split; [exact Hsame |].
    apply Hshown; [| reflexivity | discriminate].
    intros s [<-|[]]. eexists; split; reflexivity.
Defined.

(** Of the three containers of the pod in a crash loop one is counted. *)
Lemma ready_count_witness :
  Pod.iReadyContainers (@Pod.printPod Sample.clock Sample.crashLoop) = "1/3".
Proof.
  apply (proj1 (@ready_count Sample.clock Sample.crashLoop (fun s H => match H with end))).
Defined.

(** Three restarts of the sidecar and two of the container; the five of the
    init container that completed are not counted. *)
Lemma restart_count_sum_witness :
  Pod.restarts (Pod.derived Sample.restartsPod) = 5.
Proof.
  destruct (restart_count_sum Sample.restartsPod) as (_ & Hexact).
  - intros s [<-|[<-|[]]].
    + right. reflexivity.
    + left. eexists; split; reflexivity.
  - apply Hexact.
    + intros s [<-|[<-|[<-|[]]]]; unfold int32; simpl; lia.
    + unfold Go.len; simpl; lia.
Defined.

(** The container terminated last at 1200, after the sidecar; the
    termination of the init container at 1250 is not looked at. *)
Lemma last_restart_date_latest_witness :
  Pod.lastRestartDate (Pod.derived Sample.restartsPod) = 1200.
Proof.
  destruct (last_restart_date_latest Sample.restartsPod) as (_ & Hupper & Hattained).
  - intros s [<-|[<-|[]]].
    + right. reflexivity.
    + left. eexists; split; reflexivity.
  - assert (Hmain : 1200 <= Pod.lastRestartDate (Pod.derived Sample.restartsPod)).
    { apply (Hupper (Sample.status "main" Sample.running
                       (Sample.terminated 137 "OOMKilled" 1200) true 2)).
      - right. left. reflexivity.
      - reflexivity. }
    remember (Pod.lastRestartDate (Pod.derived Sample.restartsPod)) as d eqn:Hd.
    destruct Hattained as [Hzero | (s & Hin & Hs)]; [lia |].
    destruct Hin as [<-|[<-|[]]]; simpl in Hs; injection Hs as Hs; lia.
Defined.

(** A pod without container statuses shows its phase, and SchedulingGated
    at a scheduling gate. *)
Lemma status_without_container_statuses_witness :
  Pod.iStatus (@Pod.printPod Sample.clock Sample.myPod) = "Running"
  /\ Pod.iStatus (@Pod.printPod Sample.clock Sample.gatedPod) = "SchedulingGated".
Proof.
  split.
  - destruct (@status_without_container_statuses Sample.clock Sample.myPod
                eq_refl eq_refl eq_refl) as (_ & _ & Hphase).
    apply Hphase; [| reflexivity].
    intros (c & [<-|[]] & Ht & _). discriminate Ht.
  - destruct (@status_without_container_statuses Sample.clock Sample.gatedPod
                eq_refl eq_refl eq_refl) as (Hgated & _).
    apply Hgated. eexists. split; [left; reflexivity | split; reflexivity].
Defined.

(** Two pods in the answer: ListPods prints their table. *)
Lemma ListPods_prints_witness :
  io.output (@Pod.ListPods Sample.clock Sample.sound Sample.acceptAll unit
               Sample.twoPodCluster Sample.podFlags) []
  = io.output (@Pod.PrintPods Sample.clock Sample.sound Sample.twoPods io.Stdout) []
  /\ io.result (@Pod.ListPods Sample.clock Sample.sound Sample.acceptAll unit
                  Sample.twoPodCluster Sample.podFlags) []
     = (afterListPods Sample.podFlags, None).
Proof.
  apply (@ListPods_prints Sample.clock Sample.sound Sample.acceptAll unit
           Sample.twoPodCluster Sample.podFlags [] tt
           [jobIs "my-job"; queueIs "q1"] Sample.twoPods);
    [reflexivity | reflexivity | reflexivity | discriminate].
Defined.

(** Of the pods of two namespaces, the one in the namespace asked for is
    printed. *)
Lemma legacy_ListPods_filters_witness :
  io.output (@Legacy.ListPods Sample.clock Sample.sound Sample.acceptAll unit
               Sample.mixedCluster Sample.legacyFlags) []
  = io.output (@Legacy.PrintPods Sample.clock Sample.sound [Sample.myPod] io.Stdout) []
  /\ snd (io.result (@Legacy.ListPods Sample.clock Sample.sound Sample.acceptAll unit
                       Sample.mixedCluster Sample.legacyFlags) [])
     = None.
Proof.
  apply (@legacy_ListPods_filters Sample.clock Sample.sound Sample.acceptAll unit
           Sample.mixedCluster Sample.legacyFlags [] tt [hasJob]
           [Sample.otherNamespace; Sample.myPod]);
    [reflexivity | reflexivity | reflexivity | discriminate].
Defined.

(** A pod whose container restarted: both revisions fill the same row. *)
Lemma printPod_refines_legacy_witness :
  Pod.rowLine (@Pod.printPod Sample.clock Sample.restartedPod)
  = Legacy.rowLine (fst (@Legacy.printPod Sample.clock Sample.restartedPod))
  /\ Legacy.rowLine (fst (@Legacy.printPod Sample.clock Sample.restartedPod))
     = ["restarted"; "1/1"; "Running"; "2 (100s ago)"; "300s"].
Proof.
  split; [| reflexivity].
  apply (@printPod_refines_legacy Sample.clock Sample.restartedPod).
  - intros c [].
  - intros (c & [] & _).
  - intros s [].
  - intros Hinit. discriminate Hinit.
  - intros Hcompleted. discriminate Hcompleted.
  - left. reflexivity.
  - left. discriminate.
Defined.

(** Without a configuration ListPods returns the error and writes nothing. *)
Lemma ListPods_errors_witness :
  snd (io.result (@Pod.ListPods Sample.clock Sample.sound Sample.acceptAll unit
                    (Sample.noConfig corev1.Pod) Sample.podFlags) [])
  = Some "invalid configuration"
  /\ io.output (@Pod.ListPods Sample.clock Sample.sound Sample.acceptAll unit
                  (Sample.noConfig corev1.Pod) Sample.podFlags) []
     = [].
Proof.
  destruct (@ListPods_errors Sample.clock Sample.sound Sample.acceptAll unit
              (Sample.noConfig corev1.Pod) Sample.podFlags [])
    as (Herror & Hsilent).
  assert (Hfails : snd (io.result (@Pod.ListPods Sample.clock Sample.sound
                                     Sample.acceptAll unit (Sample.noConfig corev1.Pod)
                                     Sample.podFlags) [])
                   = Some "invalid configuration")
    by (apply Herror; left; reflexivity).
  split; [exact Hfails |].
  apply Hsilent. rewrite Hfails. discriminate.
Defined.

(** Two jobflows in the answer: ListJobFlow prints their table. *)
Lemma ListJobFlow_outcomes_witness :
  io.output (@JobFlow.ListJobFlow Sample.clock Sample.sound unit
               Sample.jobFlowCluster Sample.jobFlowFlags) []
  = io.output (@JobFlow.PrintJobFlows Sample.clock Sample.sound Sample.jobFlows
                 io.Stdout) [].
Proof.
  apply (proj2 (proj2 (@ListJobFlow_outcomes Sample.clock Sample.sound unit
                         Sample.jobFlowCluster Sample.jobFlowFlags []))
           tt Sample.jobFlows);
    [reflexivity | reflexivity | discriminate].
Defined.

(** Two pods in either order. *)
Lemma column_widths_order_witness :
  Pod.columnWidths (map (@Pod.printPod Sample.clock)
                      [Sample.restartedPod; Sample.myPod])
  = Pod.columnWidths (map (@Pod.printPod Sample.clock)
                        [Sample.myPod; Sample.restartedPod]).
Proof.
  apply (proj1 (@column_widths_order Sample.clock)). apply perm_swap.
Defined.

(** The Restart column of a table of two pods, and the Age column of a
    table of one jobflow on a clock that is set back before the row is
    printed: it is as wide as the age that was measured. *)
Lemma column_widths_attained_witness :
  nth 3 (podWidths (Pod.columnWidths (map (@Pod.printPod Sample.clock)
                                        [Sample.myPod; Sample.restartedPod]))) 0
  = 20
  /\ (exists info,
        In info (map (@Pod.printPod Sample.clock) [Sample.myPod; Sample.restartedPod])
        /\ 20 = Go.slen (nth 3 (Pod.rowLine info) EmptyString) + 8)
  /\ nth 3 (jobFlowWidths (@JobFlow.columnWidths Sample.setBack [Sample.flowA])) 0 = 8
  /\ (exists jobFlow,
        In jobFlow [Sample.flowA]
        /\ 8 = Go.slen (nth 3 (@measuredLine Sample.setBack jobFlow) EmptyString) + 4).
Proof.
  split; [reflexivity |]. split; [| split; [reflexivity |]].
  - destruct (proj1 (@column_widths_attained Sample.clock)
                [Sample.myPod; Sample.restartedPod] 3%nat) as [H8 | Hcell].
    + lia.
    + discriminate H8.
    + exact Hcell.
  - destruct (proj1 (proj2 (@column_widths_attained Sample.setBack))
                [Sample.flowA] 3%nat) as [Hhead | Hcell].
    + lia.
    + discriminate Hhead.
    + exact Hcell.
Defined.

(** The widths of the earlier table of two pods, on a clock that stands
    still. *)
Lemma legacy_column_widths_witness :
  padCounts (Pod.formatStr
               (Legacy.columnWidths
                  (map snd (map (@Legacy.printPod Sample.clock) Sample.twoPods))))
  = [13; 11; 15; 9; 12]
  /\ Forall2 fits [13; 11; 15; 9; 12] Legacy.headerLine
  /\ Forall2 fits [13; 11; 15; 9; 12]
       (Legacy.rowLine
          (fst (@Legacy.printPod Sample.clock
                  (Sample.pod "pod-a" corev1.PodRunning [] [Sample.container "main"]
                     [] [] [])))).
Proof.
  destruct (@legacy_column_widths Sample.clock Sample.twoPods) as [Hhead Hrows].
  split; [reflexivity |]. split; [exact Hhead |].
  destruct (Hrows (@Legacy.printPod Sample.clock
                     (Sample.pod "pod-a" corev1.PodRunning [] [Sample.container "main"]
                        [] [] [])))
    as (_ & _ & Hrow).
  - left. reflexivity.
  - apply Hrow. vm_compute. discriminate.
Defined.
